(** * Glazed Whale: the FranchiserController contract and its monitor

    A shallow embedding of [FranchiserController.sol], of [MockRig.sol] and of
    the per-tick routine [checkAndMine] of the monitoring script, followed by
    the properties checked against them.

    Conventions.
    - A [uint256] is an [N]; Solidity 0.8 arithmetic is checked, so every
      [+], [*] and [/] of the source goes through [checked_add],
      [checked_mul] and [checked_div], which revert with [Panic 0x11]
      (overflow) and [Panic 0x12] (division by zero).
    - A contract function is a computation [M A]: it reads the call
      environment (sender, block time, gas price, the behaviour of the
      external contracts during the call), threads the chain state [World]
      and either returns or reverts.  [transact] gives the EVM meaning of a
      top-level call: a revert restores the state the call started from.
    - External contracts (the Rig, an ERC-20 token, the recipient of a
      payment) answer as the environment says; they do not call back into
      the controller. *)

From Stdlib Require Import NArith ZArith Lia List Bool SpecFloat.
From stdpp Require Import base option countable gmap strings.
Import ListNotations.

Local Open Scope N_scope.

(** ** Solidity values *)

Definition address : Type := N.

Definition MAX_UINT256 : N := Eval vm_compute in 2 ^ 256 - 1.

(** [1 gwei], [1 ether], [1 days] and the literal [1e18] of the source. *)
Definition gwei : N := 1000000000.
Definition ether : N := 1000000000000000000.
Definition days : N := 86400.
Definition _1e18 : N := 1000000000000000000.

Arguments MAX_UINT256 : simpl never.
Arguments gwei : simpl never.
Arguments ether : simpl never.
Arguments days : simpl never.
Arguments _1e18 : simpl never.

(** The three roles the contract uses.  [DEFAULT_ADMIN_ROLE] is the admin
    role of every role in OpenZeppelin's [AccessControl]. *)
Inductive Role : Type :=
| DEFAULT_ADMIN_ROLE
| OWNER_ROLE
| MANAGER_ROLE.

#[global] Instance Role_eq_dec : EqDecision Role.
Proof. solve_decision. Defined.

Definition Role_to_nat (r : Role) : nat :=
  match r with
  | DEFAULT_ADMIN_ROLE => 0
  | OWNER_ROLE => 1
  | MANAGER_ROLE => 2
  end.

Definition Role_of_nat (n : nat) : option Role :=
  match n with
  | O => Some DEFAULT_ADMIN_ROLE
  | S O => Some OWNER_ROLE
  | S (S O) => Some MANAGER_ROLE
  | _ => None
  end.

#[global] Program Instance Role_countable : Countable Role :=
  inj_countable Role_to_nat Role_of_nat _.
Next Obligation. by intros []. Qed.

(** Revert reasons. *)
Inductive Error : Type :=
| Error_string (reason : string)
| Panic (code : N)
| AccessControlUnauthorizedAccount (account : address) (neededRole : Role)
| AccessControlBadConfirmation
| ReentrancyGuardReentrantCall
| CalleeReverted.

Definition PANIC_OVERFLOW : N := 17.      (* 0x11 *)
Definition PANIC_DIV_BY_ZERO : N := 18.   (* 0x12 *)

Inductive Result (A : Type) : Type :=
| Ok (a : A)
| Revert (e : Error).
Arguments Ok {A} a.
Arguments Revert {A} e.

Definition isOk {A} (r : Result A) : bool :=
  match r with Ok _ => true | Revert _ => false end.

(** ** Contract data *)

Module FranchiserController.

Record Config : Type := mkConfig {
  maxPricePerToken : N;
  minProfitMargin : N;
  maxMintAmount : N;
  minMintAmount : N;
  autoMiningEnabled : bool;
  cooldownPeriod : N;
  maxGasPrice : N
}.

Inductive Event : Type :=
| ConfigUpdated (maxPricePerToken minProfitMargin maxMintAmount minMintAmount : N)
                (autoMiningEnabled : bool) (cooldownPeriod maxGasPrice : N)
| TokensMinted (recipient : address) (amount cost epochId : N)
| ETHWithdrawn (to : address) (amount : N)
| TokensWithdrawn (token to : address) (amount : N)
| EmergencyStop (by_ : address)
| RoleGranted (role : Role) (account sender : address)
| RoleRevoked (role : Role) (account sender : address).

(** [interface IRig]: what the external Rig answers during one call.  A view
    that reverts answers [None]; [mint] tells whether the payable call
    succeeds for the given recipient, amount and attached value. *)
Record IRig : Type := mkRig {
  quotePrice : option N;
  quote : N -> option N;
  currentEpochId : option N;
  mint : address -> N -> N -> bool
}.

(** The two [IERC20] functions [withdrawTokens] uses, for one token. *)
Record IERC20 : Type := mkERC20 {
  balanceOf : address -> option N;
  transfer : address -> N -> option bool
}.

(** The chain state a call can see or change: the contract's storage, the
    ether ledger and the event log (oldest first). *)
Record World : Type := mkWorld {
  this : address;                    (* address(this) *)
  franchiserRig : address;           (* immutable *)
  config : Config;
  lastMintTimestamp : N;
  roles : gset (Role * address);     (* AccessControl._roles *)
  entered : bool;                    (* ReentrancyGuard: _status == ENTERED *)
  ledger : gmap address N;
  events : list Event
}.

(** The environment of one call. *)
Record Env : Type := mkEnv {
  msg_sender : address;
  block_timestamp : N;
  tx_gasprice : N;
  rig : IRig;
  token : address -> IERC20;
  accepts : address -> N -> bool     (* does [to.call{value: v}("")] succeed *)
}.

(** ** The computation monad *)

Definition M (A : Type) : Type := Env -> World -> Result (A * World).

Definition ret {A} (a : A) : M A := fun _ w => Ok (a, w).

Definition bind {A B} (m : M A) (k : A -> M B) : M B :=
  fun e w =>
    match m e w with
    | Ok (a, w') => k a e w'
    | Revert err => Revert err
    end.

Notation "'let*' x ':=' m 'in' k" := (bind m (fun x => k))
  (at level 10, x name, m at level 100, k at level 200).

Definition revert {A} (err : Error) : M A := fun _ _ => Revert err.

Definition require (cond : bool) (reason : string) : M unit :=
  if cond then ret tt else revert (Error_string reason).

Definition sload {A} (f : World -> A) : M A := fun _ w => Ok (f w, w).
Definition env {A} (f : Env -> A) : M A := fun e w => Ok (f e, w).
Definition sstore (f : World -> World) : M unit := fun _ w => Ok (tt, f w).

Definition checked_add (a b : N) : M N :=
  if a + b <=? MAX_UINT256 then ret (a + b) else revert (Panic PANIC_OVERFLOW).

Definition checked_mul (a b : N) : M N :=
  if a * b <=? MAX_UINT256 then ret (a * b) else revert (Panic PANIC_OVERFLOW).

Definition checked_div (a b : N) : M N :=
  if b =? 0 then revert (Panic PANIC_DIV_BY_ZERO) else ret (a / b).

(** A staticcall or call whose callee reverted bubbles the revert up. *)
Definition external {A} (answer : option A) : M A :=
  match answer with
  | Some a => ret a
  | None => revert CalleeReverted
  end.

(** ** Storage and ledger updates *)

Definition set_config (c : Config) (w : World) : World :=
  mkWorld (this w) (franchiserRig w) c (lastMintTimestamp w) (roles w)
          (entered w) (ledger w) (events w).

Definition set_lastMintTimestamp (t : N) (w : World) : World :=
  mkWorld (this w) (franchiserRig w) (config w) t (roles w)
          (entered w) (ledger w) (events w).

Definition set_roles (r : gset (Role * address)) (w : World) : World :=
  mkWorld (this w) (franchiserRig w) (config w) (lastMintTimestamp w) r
          (entered w) (ledger w) (events w).

Definition set_entered (b : bool) (w : World) : World :=
  mkWorld (this w) (franchiserRig w) (config w) (lastMintTimestamp w) (roles w)
          b (ledger w) (events w).

Definition set_ledger (l : gmap address N) (w : World) : World :=
  mkWorld (this w) (franchiserRig w) (config w) (lastMintTimestamp w) (roles w)
          (entered w) l (events w).

Definition log (ev : Event) (w : World) : World :=
  mkWorld (this w) (franchiserRig w) (config w) (lastMintTimestamp w) (roles w)
          (entered w) (ledger w) (events w ++ [ev]).

Definition emit (ev : Event) : M unit := sstore (log ev).

Definition balance_of (l : gmap address N) (a : address) : N :=
  default 0 (l !! a).

(** Moving [v] wei from [src] to [dst]; a payment to oneself changes
    nothing. *)
Definition pay (src dst : address) (v : N) (l : gmap address N) : gmap address N :=
  let l1 := <[src := balance_of l src - v]> l in
  <[dst := balance_of l1 dst + v]> l1.

Arguments balance_of : simpl never.
Arguments pay : simpl never.

(** [address(this).balance] *)
Definition self_balance : M N := sload (fun w => balance_of (ledger w) (this w)).

(** ** Inherited modifiers: AccessControl and ReentrancyGuard

    Both come from OpenZeppelin 5 (imported, not part of this repository);
    they are written out here as that library defines them. *)

Definition hasRole (role : Role) (account : address) (w : World) : bool :=
  bool_decide ((role, account) ∈ roles w).

Arguments hasRole : simpl never.

Definition onlyRole {A} (role : Role) (body : M A) : M A :=
  let* sender := env msg_sender in
  let* ok := sload (hasRole role sender) in
  if ok then body
  else revert (AccessControlUnauthorizedAccount sender role).

Definition nonReentrant {A} (body : M A) : M A :=
  let* status := sload entered in
  if status then revert ReentrancyGuardReentrantCall
  else
    let* _ := sstore (set_entered true) in
    let* r := body in
    let* _ := sstore (set_entered false) in
    ret r.

Definition _grantRole (role : Role) (account : address) : M bool :=
  let* has := sload (hasRole role account) in
  if has then ret false
  else
    let* sender := env msg_sender in
    let* _ := sstore (fun w => set_roles ({[ (role, account) ]} ∪ roles w) w) in
    let* _ := emit (RoleGranted role account sender) in
    ret true.

Definition _revokeRole (role : Role) (account : address) : M bool :=
  let* has := sload (hasRole role account) in
  if has then
    let* sender := env msg_sender in
    let* _ := sstore (fun w => set_roles (roles w ∖ {[ (role, account) ]}) w) in
    let* _ := emit (RoleRevoked role account sender) in
    ret true
  else ret false.

(** [getRoleAdmin] is [DEFAULT_ADMIN_ROLE] for every role: the contract
    never calls [_setRoleAdmin]. *)
Definition grantRole (role : Role) (account : address) : M unit :=
  onlyRole DEFAULT_ADMIN_ROLE (let* _ := _grantRole role account in ret tt).

Definition revokeRole (role : Role) (account : address) : M unit :=
  onlyRole DEFAULT_ADMIN_ROLE (let* _ := _revokeRole role account in ret tt).

Definition renounceRole (role : Role) (callerConfirmation : address) : M unit :=
  let* sender := env msg_sender in
  if callerConfirmation =? sender then
    let* _ := _revokeRole role callerConfirmation in ret tt
  else revert AccessControlBadConfirmation.

(** ** The contract's functions *)

(** The state before the constructor body runs, at address [self]. *)
Definition undeployed (self : address) (l : gmap address N) : World :=
  mkWorld self 0 (mkConfig 0 0 0 0 false 0 0) 0 ∅ false l [].

Definition constructor (_franchiserRig _owner _manager : address)
    (_maxPricePerToken _minProfitMargin : N) : M unit :=
  let* _ := require (negb (_franchiserRig =? 0)) "Invalid rig address" in
  let* _ := require (negb (_owner =? 0)) "Invalid owner" in
  let* _ := require (negb (_manager =? 0)) "Invalid manager" in
  let* _ := sstore (fun w =>
              mkWorld (this w) _franchiserRig (config w) (lastMintTimestamp w)
                      (roles w) (entered w) (ledger w) (events w)) in
  let* _ := _grantRole DEFAULT_ADMIN_ROLE _owner in
  let* _ := _grantRole OWNER_ROLE _owner in
  let* _ := _grantRole MANAGER_ROLE _manager in
  sstore (set_config
            {| maxPricePerToken := _maxPricePerToken;
               minProfitMargin := _minProfitMargin;
               maxMintAmount := 100 * ether;
               minMintAmount := 1 * ether;
               autoMiningEnabled := true;
               cooldownPeriod := 300;
               maxGasPrice := 10 * gwei |}).

Definition checkProfitability : M (bool * N * N) :=
  let* r := env rig in
  let* currentPrice := external (quotePrice r) in
  let* maxPrice := sload (fun w => maxPricePerToken (config w)) in
  if maxPrice <? currentPrice then ret (false, currentPrice, 0)
  else
    let isProfitable := currentPrice <=? maxPrice in
    let* maxAmount := sload (fun w => maxMintAmount (config w)) in
    ret (isProfitable, currentPrice, if isProfitable then maxAmount else 0).

Definition executeMint (recipient : address) (amount : N) : M unit :=
  onlyRole MANAGER_ROLE (nonReentrant (
    let* cfg := sload config in
    let* _ := require (autoMiningEnabled cfg) "Auto mining disabled" in
    let* _ := require ((minMintAmount cfg <=? amount) && (amount <=? maxMintAmount cfg))
                      "Amount out of bounds" in
    let* now := env block_timestamp in
    let* last := sload lastMintTimestamp in
    let* nextMint := checked_add last (cooldownPeriod cfg) in
    let* _ := require (nextMint <=? now) "Cooldown active" in
    let* gasprice := env tx_gasprice in
    let* ceiling := checked_mul (maxGasPrice cfg) gwei in
    let* _ := require (gasprice <=? ceiling) "Gas price too high" in
    (* Get quote and check profitability *)
    let* r := env rig in
    let* cost := external (quote r amount) in
    let* balance := self_balance in
    let* _ := require (cost <=? balance) "Insufficient ETH balance" in
    (* Check price is acceptable *)
    let* scaled := checked_mul cost _1e18 in
    let* pricePerToken := checked_div scaled amount in
    let* _ := require (pricePerToken <=? maxPricePerToken cfg) "Price too high" in
    (* Execute mint *)
    let* epochId := external (currentEpochId r) in
    let* _ := (if mint r recipient amount cost
               then sstore (fun w => set_ledger (pay (this w) (franchiserRig w) cost (ledger w)) w)
               else revert CalleeReverted) in
    let* _ := sstore (set_lastMintTimestamp now) in
    emit (TokensMinted recipient amount cost epochId))).

Definition updateConfig (_maxPricePerToken _minProfitMargin _maxMintAmount _minMintAmount : N)
    (_autoMiningEnabled : bool) (_cooldownPeriod _maxGasPrice : N) : M unit :=
  onlyRole OWNER_ROLE (
    let* _ := require (_minMintAmount <=? _maxMintAmount) "Invalid mint amounts" in
    let* _ := require (_cooldownPeriod <=? 1 * days) "Cooldown too long" in
    let* _ := require (0 <? _maxGasPrice) "Invalid gas price" in
    let* _ := sstore (set_config
                {| maxPricePerToken := _maxPricePerToken;
                   minProfitMargin := _minProfitMargin;
                   maxMintAmount := _maxMintAmount;
                   minMintAmount := _minMintAmount;
                   autoMiningEnabled := _autoMiningEnabled;
                   cooldownPeriod := _cooldownPeriod;
                   maxGasPrice := _maxGasPrice |}) in
    emit (ConfigUpdated _maxPricePerToken _minProfitMargin _maxMintAmount
                        _minMintAmount _autoMiningEnabled _cooldownPeriod _maxGasPrice)).

Definition emergencyStop : M unit :=
  onlyRole OWNER_ROLE (
    let* _ := sstore (fun w =>
                let c := config w in
                set_config (mkConfig (maxPricePerToken c) (minProfitMargin c)
                                     (maxMintAmount c) (minMintAmount c) false
                                     (cooldownPeriod c) (maxGasPrice c)) w) in
    let* sender := env msg_sender in
    emit (EmergencyStop sender)).

(** [to.call{value: v}("")]: a payment to the controller itself runs its
    own [receive], which accepts; any other recipient answers through the
    environment. *)
Definition send_value (to : address) (v : N) : M bool :=
  let* self := sload this in
  let* ok := env (fun e => if to =? self then true else accepts e to v) in
  if ok then
    let* _ := sstore (fun w => set_ledger (pay (this w) to v (ledger w)) w) in
    ret true
  else ret false.

Definition withdrawETH (to : address) (amount : N) : M unit :=
  onlyRole OWNER_ROLE (nonReentrant (
    let* _ := require (negb (to =? 0)) "Invalid recipient" in
    let* balance := self_balance in
    let withdrawAmount := if amount =? 0 then balance else amount in
    let* _ := require (0 <? withdrawAmount) "No ETH to withdraw" in
    let* balance' := self_balance in
    let* _ := require (withdrawAmount <=? balance') "Insufficient balance" in
    let* success := send_value to withdrawAmount in
    let* _ := require success "ETH transfer failed" in
    emit (ETHWithdrawn to withdrawAmount))).

Definition withdrawTokens (tokenAddr to : address) (amount : N) : M unit :=
  onlyRole OWNER_ROLE (nonReentrant (
    let* _ := require (negb (tokenAddr =? 0)) "Invalid token" in
    let* _ := require (negb (to =? 0)) "Invalid recipient" in
    let* tokenContract := env (fun e => token e tokenAddr) in
    let* self := sload this in
    let* balance := external (balanceOf tokenContract self) in
    let withdrawAmount := if amount =? 0 then balance else amount in
    let* _ := require (0 <? withdrawAmount) "No tokens to withdraw" in
    let* _ := require (withdrawAmount <=? balance) "Insufficient token balance" in
    let* sent := external (transfer tokenContract to withdrawAmount) in
    let* _ := require sent "Token transfer failed" in
    emit (TokensWithdrawn tokenAddr to withdrawAmount))).

Record MiningStatus : Type := mkStatus {
  isEnabled : bool;
  canMintNow : bool;
  currentPrice : N;
  nextMintTime : N;
  ethBalance : N;
  statusEpochId : N
}.

Definition getMiningStatus : M MiningStatus :=
  let* cfg := sload config in
  let* r := env rig in
  let* price := external (quotePrice r) in
  let* now := env block_timestamp in
  let* last := sload lastMintTimestamp in
  let* can := (if price <=? maxPricePerToken cfg
               then let* t := checked_add last (cooldownPeriod cfg) in ret (t <=? now)
               else ret false) in
  let* next := checked_add last (cooldownPeriod cfg) in
  let* balance := self_balance in
  let* epoch := external (currentEpochId r) in
  ret (mkStatus (autoMiningEnabled cfg) can price next balance epoch).

(** [receive() external payable {}]: [value] wei arrive from the sender. *)
Definition receive (value : N) : M unit :=
  let* sender := env msg_sender in
  let* funds := sload (fun w => balance_of (ledger w) sender) in
  if value <=? funds
  then sstore (fun w => set_ledger (pay sender (this w) value (ledger w)) w)
  else revert CalleeReverted.

(** ** Transactions *)

(** A top-level call: on a revert the chain state is the one the call
    started from. *)
Definition transact {A} (m : M A) (e : Env) (w : World) : World * Result A :=
  match m e w with
  | Ok (a, w') => (w', Ok a)
  | Revert err => (w, Revert err)
  end.

(** The external functions of the contract that are more than a getter.  The
    getters ([config], [lastMintTimestamp], [franchiserRig], [hasRole], ...)
    read one storage slot and change nothing. *)
Inductive Call : Type :=
| Call_executeMint (recipient : address) (amount : N)
| Call_updateConfig (_maxPricePerToken _minProfitMargin _maxMintAmount _minMintAmount : N)
                    (_autoMiningEnabled : bool) (_cooldownPeriod _maxGasPrice : N)
| Call_emergencyStop
| Call_withdrawETH (to : address) (amount : N)
| Call_withdrawTokens (tokenAddr to : address) (amount : N)
| Call_checkProfitability
| Call_getMiningStatus
| Call_receive (value : N)
| Call_grantRole (role : Role) (account : address)
| Call_revokeRole (role : Role) (account : address)
| Call_renounceRole (role : Role) (callerConfirmation : address).

Definition ignore {A} (m : M A) : M unit := let* _ := m in ret tt.

Definition dispatch (c : Call) : M unit :=
  match c with
  | Call_executeMint recipient amount => executeMint recipient amount
  | Call_updateConfig p m mx mn en cd g => updateConfig p m mx mn en cd g
  | Call_emergencyStop => emergencyStop
  | Call_withdrawETH to amount => withdrawETH to amount
  | Call_withdrawTokens tk to amount => withdrawTokens tk to amount
  | Call_checkProfitability => ignore checkProfitability
  | Call_getMiningStatus => ignore getMiningStatus
  | Call_receive value => receive value
  | Call_grantRole role account => grantRole role account
  | Call_revokeRole role account => revokeRole role account
  | Call_renounceRole role account => renounceRole role account
  end.

(** One transaction: a call together with the environment it runs in. *)
Definition Tx : Type := (Env * Call)%type.

Definition step (w : World) (tx : Tx) : World :=
  fst (transact (dispatch (snd tx)) (fst tx) w).

Definition succeeds (w : World) (tx : Tx) : bool :=
  isOk (snd (transact (dispatch (snd tx)) (fst tx) w)).

Definition run (w : World) (txs : list Tx) : World := fold_left step txs w.

End FranchiserController.

(** ** MockRig.sol *)

Module MockRig.

Record State : Type := mkState {
  _currentPrice : N;
  _epochId : N
}.

(** [_currentPrice = 0.0005 ether], [_epochId = 1]. *)
Definition initial : State := mkState 500000000000000 1.

Definition quotePrice (s : State) : option N := Some (_currentPrice s).

Definition quote (s : State) (amount : N) : option N :=
  if _currentPrice s * amount <=? MAX_UINT256
  then Some (_currentPrice s * amount / _1e18)
  else None.

Definition currentEpochId (s : State) : option N := Some (_epochId s).

(** [require(msg.value >= quote(amount), "Insufficient payment")]; the mock
    keeps the ether and mints nothing. *)
Definition mint (s : State) (to : address) (amount value : N) : bool :=
  match quote s amount with
  | Some q => q <=? value
  | None => false
  end.

Definition setPrice (newPrice : N) (s : State) : State := mkState newPrice (_epochId s).
Definition setEpoch (newEpoch : N) (s : State) : State := mkState (_currentPrice s) newEpoch.

(** The mock seen through [IRig]. *)
Definition as_rig (s : State) : FranchiserController.IRig :=
  FranchiserController.mkRig (quotePrice s) (quote s) (currentEpochId s) (mint s).

End MockRig.

(** ** The monitor's tick: [checkAndMine]

    The script talks to the controller through awaited RPC requests, prints
    lines and bumps the counters of the global [stats] object.  A tick is a
    finite program over those three kinds of action; [exec] runs it against
    the answers of one tick and returns what was done, in order.  An awaited
    request may reject, which throws into the enclosing [try]/[catch].

    The two floating-point totals of [stats] and the wall-clock fields are
    left out; the three integer counters are kept. *)

Module Monitor.

Import FranchiserController.

Record Stats : Type := mkStats {
  checksPerformed : N;
  mintsExecuted : N;
  errors : N
}.

(** A log of the receipt as [controller.interface.parseLog] returns it. *)
Record LogDescription : Type := mkLog {
  name : string;
  args_amount : N;
  args_cost : N;
  args_epochId : N
}.

(** [tx.wait()]: the receipt's status and its logs, [None] where [parseLog]
    throws and the script maps the log to [null]. *)
Record Receipt : Type := mkReceipt {
  status : N;
  logs : list (option LogDescription)
}.

Definition TxResponse : Type := N.   (* the submitted transaction, by hash *)

Inductive Request : Type -> Type :=
| GetMiningStatus : Request MiningStatus
| CheckProfitability : Request (bool * N * N)
| ExecuteMint (recipient : address) (amount gasLimit : N) : Request TxResponse
| Wait (tx : TxResponse) : Request Receipt.

Inductive Line : Type :=
| Line_disabled                                  (* "Auto mining disabled" *)
| Line_check (n price epoch balance : N)         (* "Check #n", "Price: ..." *)
| Line_cooldown (nextMint : N)                   (* "Cooldown active. Next mint available: ..." *)
| Line_not_profitable                            (* "Not profitable at current price" *)
| Line_profitable (amount : N)                   (* "PROFITABLE! Executing mint...", "Amount: ..." *)
| Line_submitted (tx : TxResponse)               (* "Transaction submitted: ...", "Waiting ..." *)
| Line_mint_successful (amount cost epoch : N)   (* "MINT SUCCESSFUL!", ... *)
| Line_transaction_failed                        (* "Transaction failed" *)
| Line_caught_disabled                           (* catch: "Auto mining disabled" *)
| Line_caught_cooldown                           (* catch: "Cooldown active, waiting..." *)
| Line_caught_price                              (* catch: "Price too high, waiting ..." *)
| Line_caught_balance                            (* catch: "Insufficient ETH in controller. ..." *)
| Line_caught_other (message : string).          (* catch: "Error during check: ..." *)

Inductive Prog (A : Type) : Type :=
| Ret (a : A)
| Throw (message : string)
| Await {X : Type} (r : Request X) (k : string + X -> Prog A)
| ConsoleLog (l : Line) (k : Prog A)
| Read (k : Stats -> Prog A)
| Update (f : Stats -> Stats) (k : Prog A).
Arguments Ret {A} a.
Arguments Throw {A} message.
Arguments Await {A X} r k.
Arguments ConsoleLog {A} l k.
Arguments Read {A} k.
Arguments Update {A} f k.

(** [await r]: a rejected promise throws its message. *)
Definition await {A X} (r : Request X) (k : X -> Prog A) : Prog A :=
  Await r (fun answer =>
    match answer with
    | inl message => Throw message
    | inr x => k x
    end).

(** [try { body } catch (error) { handler error.message }] *)
Fixpoint try_catch {A} (body : Prog A) (handler : string -> Prog A) : Prog A :=
  match body with
  | Ret a => Ret a
  | Throw message => handler message
  | Await r k => Await r (fun answer => try_catch (k answer) handler)
  | ConsoleLog l k => ConsoleLog l (try_catch k handler)
  | Read k => Read (fun s => try_catch (k s) handler)
  | Update f k => Update f (try_catch k handler)
  end.

(** [String.prototype.includes] *)
Fixpoint starts_with (needle hay : string) : bool :=
  match needle, hay with
  | EmptyString, _ => true
  | String a n, String b h => if Ascii.eqb a b then starts_with n h else false
  | String _ _, EmptyString => false
  end.

Fixpoint includes (hay needle : string) : bool :=
  starts_with needle hay ||
  match hay with
  | EmptyString => false
  | String _ h => includes h needle
  end.

Definition is_TokensMinted (e : option LogDescription) : bool :=
  match e with
  | Some d => if decide (name d = "TokensMinted") then true else false
  | None => false
  end.

Definition incr_checks (s : Stats) : Stats :=
  mkStats (checksPerformed s + 1) (mintsExecuted s) (errors s).
Definition incr_mints (s : Stats) : Stats :=
  mkStats (checksPerformed s) (mintsExecuted s + 1) (errors s).
Definition incr_errors (s : Stats) : Stats :=
  mkStats (checksPerformed s) (mintsExecuted s) (errors s + 1).

Definition checkAndMine (RECIPIENT_ADDRESS : address) : Prog unit :=
  try_catch
    (Update incr_checks (
     (* Get mining status *)
     await GetMiningStatus (fun status_ =>
     if negb (isEnabled status_) then ConsoleLog Line_disabled (Ret tt)
     else
     (* Check profitability *)
     await CheckProfitability (fun '(isProfitable, currentPrice_, recommendedAmount) =>
     Read (fun stats =>
     ConsoleLog (Line_check (checksPerformed stats) currentPrice_
                            (statusEpochId status_) (ethBalance status_)) (
     if negb (canMintNow status_) then
       ConsoleLog (Line_cooldown (nextMintTime status_)) (Ret tt)
     else if negb isProfitable || (recommendedAmount =? 0) then
       ConsoleLog Line_not_profitable (Ret tt)
     else
     (* Execute mint *)
     ConsoleLog (Line_profitable recommendedAmount) (
     await (ExecuteMint RECIPIENT_ADDRESS recommendedAmount 500000) (fun tx =>
     ConsoleLog (Line_submitted tx) (
     await (Wait tx) (fun receipt =>
     if status receipt =? 1 then
       match find is_TokensMinted (logs receipt) with
       | Some (Some event) =>
           Update incr_mints (
           ConsoleLog (Line_mint_successful (args_amount event) (args_cost event)
                                            (args_epochId event)) (Ret tt))
       | _ => Ret tt
       end
     else
       ConsoleLog Line_transaction_failed (Update incr_errors (Ret tt))))))))))))
    (fun message =>
       Update incr_errors (
       if includes message "Auto mining disabled" then
         ConsoleLog Line_caught_disabled (Ret tt)
       else if includes message "Cooldown active" then
         ConsoleLog Line_caught_cooldown (Ret tt)
       else if includes message "Price too high" then
         ConsoleLog Line_caught_price (Ret tt)
       else if includes message "Insufficient ETH balance" then
         ConsoleLog Line_caught_balance (Ret tt)
       else ConsoleLog (Line_caught_other message) (Ret tt))).

(** What the controller (through the RPC node) answers during one tick. *)
Record Answers : Type := mkAnswers {
  on_getMiningStatus : string + MiningStatus;
  on_checkProfitability : string + (bool * N * N);
  on_executeMint : address -> N -> N -> string + TxResponse;
  on_wait : TxResponse -> string + Receipt
}.

Definition answer (o : Answers) {X} (r : Request X) : string + X :=
  match r in Request X return string + X with
  | GetMiningStatus => on_getMiningStatus o
  | CheckProfitability => on_checkProfitability o
  | ExecuteMint recipient amount gasLimit => on_executeMint o recipient amount gasLimit
  | Wait tx => on_wait o tx
  end.

(** The visible actions of a tick. *)
Inductive Action : Type :=
| Requested {X : Type} (r : Request X)
| Printed (l : Line).

Fixpoint exec {A} (o : Answers) (p : Prog A) (s : Stats)
    : list Action * Stats * (string + A) :=
  match p with
  | Ret a => ([], s, inr a)
  | Throw message => ([], s, inl message)
  | Await r k =>
      let '(tr, s', out) := exec o (k (answer o r)) s in
      (Requested r :: tr, s', out)
  | ConsoleLog l k =>
      let '(tr, s', out) := exec o k s in
      (Printed l :: tr, s', out)
  | Read k => exec o (k s) s
  | Update f k => exec o k (f s)
  end.

Definition trace_of {A} (o : Answers) (p : Prog A) (s : Stats) : list Action :=
  fst (fst (exec o p s)).

(** The requests of a trace, without the printed lines. *)
Definition is_request (a : Action) : bool :=
  match a with Requested _ => true | Printed _ => false end.

Definition requests (tr : list Action) : list Action := filter is_request tr.

(** The [executeMint] transactions a trace submits: recipient, amount and
    gas limit. *)
Definition submitted (a : Action) : option (address * N * N) :=
  match a with
  | @Requested _ (ExecuteMint recipient amount gasLimit) => Some (recipient, amount, gasLimit)
  | _ => None
  end.

Fixpoint submissions (tr : list Action) : list (address * N * N) :=
  match tr with
  | [] => []
  | a :: rest =>
      match submitted a with
      | Some sub => sub :: submissions rest
      | None => submissions rest
      end
  end.

End Monitor.

(** * Properties *)

Import FranchiserController.

(** ** The six preconditions of [executeMint]

    [guard_eval g e w amount] is the value of the condition the [g]-th
    [require] of [executeMint] tests, for the call environment [e], the state
    [w] and the requested [amount]: [Some true] when it passes, [Some false]
    when it fails, [None] when it cannot be evaluated (the checked arithmetic
    it contains panics, or the Rig's quote reverts). *)

Inductive Guard : Type :=
| G_enabled
| G_bounds
| G_cooldown
| G_gas
| G_balance
| G_price.

Definition guards : list Guard :=
  [G_enabled; G_bounds; G_cooldown; G_gas; G_balance; G_price].

Definition guard_index (g : Guard) : nat :=
  match g with
  | G_enabled => 0
  | G_bounds => 1
  | G_cooldown => 2
  | G_gas => 3
  | G_balance => 4
  | G_price => 5
  end.

(** The reason string of each [require]. *)
Definition guard_reason (g : Guard) : string :=
  match g with
  | G_enabled => "Auto mining disabled"
  | G_bounds => "Amount out of bounds"
  | G_cooldown => "Cooldown active"
  | G_gas => "Gas price too high"
  | G_balance => "Insufficient ETH balance"
  | G_price => "Price too high"
  end.

Definition guard_eval (g : Guard) (e : Env) (w : World) (amount : N) : option bool :=
  let cfg := config w in
  match g with
  | G_enabled => Some (autoMiningEnabled cfg)
  | G_bounds => Some ((minMintAmount cfg <=? amount) && (amount <=? maxMintAmount cfg))
  | G_cooldown =>
      if lastMintTimestamp w + cooldownPeriod cfg <=? MAX_UINT256
      then Some (lastMintTimestamp w + cooldownPeriod cfg <=? block_timestamp e)
      else None
  | G_gas =>
      if maxGasPrice cfg * gwei <=? MAX_UINT256
      then Some (tx_gasprice e <=? maxGasPrice cfg * gwei)
      else None
  | G_balance =>
      match quote (rig e) amount with
      | Some cost => Some (cost <=? balance_of (ledger w) (this w))
      | None => None
      end
  | G_price =>
      match quote (rig e) amount with
      | Some cost =>
          if cost * _1e18 <=? MAX_UINT256 then
            if amount =? 0 then None
            else Some (cost * _1e18 / amount <=? maxPricePerToken cfg)
          else None
      | None => None
      end
  end.

(** Every precondition checked before [g] passes. *)
Definition passes_before (g : Guard) (e : Env) (w : World) (amount : N) : Prop :=
  forall g', (guard_index g' < guard_index g)%nat -> guard_eval g' e w amount = Some true.

(** A caller that holds the Manager role, at top level (the reentrancy lock
    is free, as it is between transactions). *)
Definition manager_call (e : Env) (w : World) : Prop :=
  hasRole MANAGER_ROLE (msg_sender e) w = true /\ entered w = false.

Definition owner_call (e : Env) (w : World) : Prop :=
  hasRole OWNER_ROLE (msg_sender e) w = true.

(** The revert of a precondition that cannot be evaluated: an arithmetic
    panic, or the bubbled-up revert of the Rig's [quote]. *)
Definition guard_fault (g : Guard) (e : Env) (amount : N) : Error :=
  match g with
  | G_enabled | G_bounds | G_cooldown | G_gas => Panic PANIC_OVERFLOW
  | G_balance => CalleeReverted
  | G_price =>
      match quote (rig e) amount with
      | Some cost =>
          if cost * _1e18 <=? MAX_UINT256 then Panic PANIC_DIV_BY_ZERO
          else Panic PANIC_OVERFLOW
      | None => CalleeReverted
      end
  end.

(** The state a successful mint leaves behind. *)
Definition after_mint (e : Env) (w : World) (recipient : address)
    (amount cost epochId : N) : World :=
  log (TokensMinted recipient amount cost epochId)
      (set_lastMintTimestamp (block_timestamp e)
         (set_ledger (pay (this w) (franchiserRig w) cost (ledger w)) w)).

(** Every way a call of [executeMint] can end. *)
Inductive MintOutcome (e : Env) (w : World) (recipient : address) (amount : N)
    : Result (unit * World) -> Prop :=
| Mint_unauthorized :
    hasRole MANAGER_ROLE (msg_sender e) w = false ->
    MintOutcome e w recipient amount
      (Revert (AccessControlUnauthorizedAccount (msg_sender e) MANAGER_ROLE))
| Mint_reentrant :
    entered w = true ->
    MintOutcome e w recipient amount (Revert ReentrancyGuardReentrantCall)
| Mint_guard_failed g :
    passes_before g e w amount ->
    guard_eval g e w amount = Some false ->
    MintOutcome e w recipient amount (Revert (Error_string (guard_reason g)))
| Mint_guard_fault g :
    passes_before g e w amount ->
    guard_eval g e w amount = None ->
    MintOutcome e w recipient amount (Revert (guard_fault g e amount))
| Mint_rig_reverted :
    (forall g, guard_eval g e w amount = Some true) ->
    MintOutcome e w recipient amount (Revert CalleeReverted)
| Mint_done cost epochId :
    (forall g, guard_eval g e w amount = Some true) ->
    quote (rig e) amount = Some cost ->
    currentEpochId (rig e) = Some epochId ->
    mint (rig e) recipient amount cost = true ->
    MintOutcome e w recipient amount
      (Ok (tt, after_mint e w recipient amount cost epochId)).

(** The state a successful [withdrawETH] of [amount] wei leaves behind. *)
Definition after_withdrawal (w : World) (to : address) (amount : N) : World :=
  log (ETHWithdrawn to amount) (set_ledger (pay (this w) to amount (ledger w)) w).

(** Which transactions are calls of [executeMint]. *)
Definition is_executeMint (c : Call) : bool :=
  match c with
  | Call_executeMint _ _ => true
  | _ => false
  end.

(** [preserves R m]: whenever [m] returns, the state it returns in is
    [R]-related to the one it started from. *)
Definition preserves {A} (R : World -> World -> Prop) (m : M A) : Prop :=
  forall e w a w', m e w = Ok (a, w') -> R w w'.

(** The cooldown timer keeps its value. *)
Definition same_timer (w w' : World) : Prop :=
  lastMintTimestamp w' = lastMintTimestamp w.

(** The functions under [nonReentrant]. *)
Definition is_guarded (c : Call) : bool :=
  match c with
  | Call_executeMint _ _ | Call_withdrawETH _ _ | Call_withdrawTokens _ _ _ => true
  | _ => false
  end.

(** The lock of the reentrancy guard keeps its value. *)
Definition same_lock (w w' : World) : Prop := entered w' = entered w.

(** ** A concrete deployment

    The set-up of the repository's test suite: a [MockRig], a controller
    deployed by the owner with [MAX_PRICE = 0.001 ether] and
    [MIN_MARGIN = 1000], then funded with one ether. *)

Module Scenario.

Definition owner : address := 1001.
Definition manager : address := 1002.
Definition user : address := 1003.
Definition rigAddress : address := 2000.
Definition controller : address := 3000.

Definition MAX_PRICE : N := 1000000000000000.
Definition MIN_MARGIN : N := 1000.

Definition no_token : IERC20 := mkERC20 (fun _ => None) (fun _ _ => None).

(** A call by [sender] at time [now] paying [gasprice] wei per gas, against
    the mock in state [r]; plain payments succeed iff [accepting]. *)
Definition call (sender : address) (now gasprice : N) (r : MockRig.State)
    (accepting : bool) : Env :=
  mkEnv sender now gasprice (MockRig.as_rig r) (fun _ => no_token) (fun _ _ => accepting).

(** A Rig that quotes like the mock but whose [mint] always reverts. *)
Definition paused_rig (r : MockRig.State) : IRig :=
  mkRig (MockRig.quotePrice r) (MockRig.quote r) (MockRig.currentEpochId r)
        (fun _ _ _ => false).

Definition call_paused (sender : address) (now gasprice : N) (r : MockRig.State) : Env :=
  mkEnv sender now gasprice (paused_rig r) (fun _ => no_token) (fun _ _ => true).

Definition genesis : gmap address N := {[ owner := 10 * ether ]}.

Definition world_or {A} (r : Result (A * World)) (otherwise : World) : World :=
  match r with
  | Ok (_, w) => w
  | Revert _ => otherwise
  end.

Definition deployed : World :=
  world_or (constructor rigAddress owner manager MAX_PRICE MIN_MARGIN
              (call owner 1000 gwei MockRig.initial true)
              (undeployed controller genesis))
           (undeployed controller genesis).

Definition funded : World :=
  step deployed (call owner 1000 gwei MockRig.initial true, Call_receive (1 * ether)).

(** The first mint of the suite: ten tokens for [user], at time 2000. *)
Definition first_mint : Tx :=
  (call manager 2000 gwei MockRig.initial true, Call_executeMint user (10 * ether)).

Definition minted_once : World := step funded first_mint.

(** The configuration update of the suite, with a [maxGasPrice] of 20. *)
Definition reconfigured : World :=
  step funded
       (call owner 1500 gwei MockRig.initial true,
        Call_updateConfig (2 * MAX_PRICE) 2000 (200 * ether) (2 * ether) true 600 20).

(** A configuration whose [minMintAmount] is zero. *)
Definition zero_minimum : World :=
  step funded
       (call owner 1500 gwei MockRig.initial true,
        Call_updateConfig MAX_PRICE MIN_MARGIN (100 * ether) 0 true 300 10).

End Scenario.

(** ** Further vocabulary for the contract *)

(** The role the [onlyRole] modifier of each function of the contract asks
    of its caller; [None] for the functions it does not guard, and for the
    role administration inherited from [AccessControl]. *)
Definition required_role (c : Call) : option Role :=
  match c with
  | Call_executeMint _ _ => Some MANAGER_ROLE
  | Call_updateConfig _ _ _ _ _ _ _ => Some OWNER_ROLE
  | Call_emergencyStop => Some OWNER_ROLE
  | Call_withdrawETH _ _ => Some OWNER_ROLE
  | Call_withdrawTokens _ _ _ => Some OWNER_ROLE
  | _ => None
  end.

Definition is_updateConfig (c : Call) : bool :=
  match c with
  | Call_updateConfig _ _ _ _ _ _ _ => true
  | _ => false
  end.

Definition is_withdrawETH (c : Call) : bool :=
  match c with
  | Call_withdrawETH _ _ => true
  | _ => false
  end.

(** The three bounds [updateConfig] validates. *)
Definition config_ok (c : Config) : Prop :=
  minMintAmount c <= maxMintAmount c /\ cooldownPeriod c <= 86400 /\ 0 < maxGasPrice c.

(** The configuration of [c] with mining switched off. *)
Definition stopped (c : Config) : Config :=
  mkConfig (maxPricePerToken c) (minProfitMargin c) (maxMintAmount c) (minMintAmount c)
           false (cooldownPeriod c) (maxGasPrice c).

(** Relations between the state before and after a call. *)
Definition same_bounds (w w' : World) : Prop :=
  minMintAmount (config w') = minMintAmount (config w) /\
  maxMintAmount (config w') = maxMintAmount (config w) /\
  cooldownPeriod (config w') = cooldownPeriod (config w) /\
  maxGasPrice (config w') = maxGasPrice (config w).

Definition stays_stopped (w w' : World) : Prop :=
  autoMiningEnabled (config w) = false -> autoMiningEnabled (config w') = false.

Definition same_funds (w w' : World) : Prop :=
  this w' = this w /\ ledger w' = ledger w.

(** ** The rest of the monitoring script *)

Module MonitorRun.

Import FranchiserController Monitor.

Definition stats_of {A} (o : Answers) (p : Prog A) (s : Stats) : Stats :=
  snd (fst (exec o p s)).

Definition outcome_of {A} (o : Answers) (p : Prog A) (s : Stats) : string + A :=
  snd (exec o p s).

(** The line the [catch] block of [checkAndMine] prints for a message. *)
Definition catch_line (message : string) : Line :=
  if includes message "Auto mining disabled" then Line_caught_disabled
  else if includes message "Cooldown active" then Line_caught_cooldown
  else if includes message "Price too high" then Line_caught_price
  else if includes message "Insufficient ETH balance" then Line_caught_balance
  else Line_caught_other message.

(** [displayStats]: [Math.floor((Date.now() - stats.startTime) / 1000)].
    Both times are whole milliseconds of the wall clock; as long as they are
    less than 2^53 ms apart, the subtraction and the floor of the quotient
    are exact on Numbers.  The difference is negative when the clock has
    been set back past [startTime]. *)
Definition uptime_of (now startTime : Z) : Z := ((now - startTime) / 1000)%Z.

(** The split into hours, minutes and seconds.  [Math.floor(a / b)] rounds
    down, as [Z.div] does; [%] takes the sign of the dividend, as [Z.rem]
    does. *)
Definition uptime_parts (uptime : Z) : Z * Z * Z :=
  let hours := (uptime / 3600)%Z in
  let minutes := (Z.rem uptime 3600 / 60)%Z in
  let seconds := Z.rem uptime 60 in
  (hours, minutes, seconds).

(** What the main loop of [run] does, one entry per step. *)
Inductive LoopAction : Type :=
| Ticked (tr : list Action)        (* await checkAndMine() *)
| DisplayedStats (s : Stats)       (* displayStats() *)
| Slept.                           (* await the poll interval *)

(** The [while (isRunning)] loop of [run], for as many iterations as there
    are answers; it carries the global [stats] and the local [checkCounter]. *)
Fixpoint run_loop (RECIPIENT_ADDRESS : address) (answers : list Answers)
    (stats : Stats) (checkCounter : N) : list LoopAction * Stats * N :=
  match answers with
  | [] => ([], stats, checkCounter)
  | o :: rest =>
      let tr := trace_of o (checkAndMine RECIPIENT_ADDRESS) stats in
      let stats1 := stats_of o (checkAndMine RECIPIENT_ADDRESS) stats in
      let checkCounter1 := checkCounter + 1 in
      let '(shown, checkCounter2) :=
        if 10 <=? checkCounter1 then ([DisplayedStats stats1], 0)
        else ([], checkCounter1) in
      let '(acts, stats2, checkCounter3) :=
        run_loop RECIPIENT_ADDRESS rest stats1 checkCounter2 in
      (Ticked tr :: shown ++ Slept :: acts, stats2, checkCounter3)
  end.

Definition is_display (a : LoopAction) : bool :=
  match a with
  | DisplayedStats _ => true
  | _ => false
  end.

Definition displays (acts : list LoopAction) : N :=
  N.of_nat (length (List.filter is_display acts)).

End MonitorRun.

(** ** The status report script

    The script is written against the ethers v6 interface
    ([ethers.JsonRpcProvider], [ethers.formatEther], comparisons with [0n]):
    every [uint256] the controller returns reaches the script as a BigInt.
    Building the provider and the contract object sends nothing and does not
    throw.  A printed line is kept by the values it shows; how a date or an
    amount of ether is formatted is left out. *)

Module StatusReport.

Import FranchiserController.

(** JavaScript's two numeric types: a BigInt, and a Number, which is an
    IEEE 754 double (53 bits of precision, exponents below 1024). *)
Inductive JsNumeric : Type :=
| JsBigInt (n : Z)
| JsNumber (x : spec_float).

(** The Number written as an integer literal. *)
Definition number (z : Z) : spec_float := binary_normalize 53 1024 z 0 false.

(** A [uint256] as the contract object returns it. *)
Definition uint256 (n : N) : JsNumeric := JsBigInt (Z.of_N n).

(** The operator [/]: two BigInts divide with truncation, and a zero divisor
    is a [RangeError]; two Numbers divide as doubles; a BigInt and a Number
    do not mix, which is a [TypeError]. *)
Definition js_divide (l r : JsNumeric) : string + JsNumeric :=
  match l, r with
  | JsBigInt a, JsBigInt b =>
      if (b =? 0)%Z then inl "Division by zero" else inr (JsBigInt (Z.quot a b))
  | JsNumber a, JsNumber b => inr (JsNumber (SFdiv 53 1024 a b))
  | _, _ => inl "Cannot mix BigInt and other types, use explicit conversions"
  end.

(** [(currentPrice * recommendedAmount) / ethers.parseEther("1")], on
    arbitrary-precision integers. *)
Definition nextMintCost (currentPrice recommendedAmount : N) : N :=
  currentPrice * recommendedAmount / 1000000000000000000.

Inductive BalanceLine : Type :=
| Sufficient            (* "Sufficient balance for next mint" *)
| Need (needed : N).    (* "Need ... more ETH" *)

(** The "Calculate potential cost" block: nothing is printed unless the
    report is profitable with a positive recommended amount. *)
Definition cost_report (isProfitable : bool) (currentPrice recommendedAmount ethBalance : N)
    : option (N * BalanceLine) :=
  if isProfitable && (0 <? recommendedAmount) then
    let cost := nextMintCost currentPrice recommendedAmount in
    Some (cost, if cost <=? ethBalance then Sufficient else Need (cost - ethBalance))
  else None.

(** The view calls of the script. *)
Inductive Request : Type -> Type :=
| FranchiserRig : Request address            (* controller.franchiserRig() *)
| GetConfig : Request Config                 (* controller.config() *)
| GetMiningStatus : Request MiningStatus     (* controller.getMiningStatus() *)
| CheckProfitability : Request (bool * N * N)
| LastMintTimestamp : Request N.             (* controller.lastMintTimestamp() *)

Inductive Line : Type :=
| Line_address_not_set                       (* "CONTROLLER_ADDRESS not set in .env" *)
| Line_title                                 (* "Glazed Whale Status Report" *)
| Line_controller (a : string)               (* "Controller: ..." *)
| Line_rig (rigAddress : address)            (* "Franchiser Rig: ..." *)
| Line_configuration                         (* "Configuration:" *)
| Line_max_price (price : N)                 (* "Max Price: ... ETH/token" *)
| Line_min_profit (percent : JsNumeric)      (* "Min Profit: ...%" *)
| Line_mint_range (minimum maximum : N)      (* "Mint Range: ... - ... tokens" *)
| Line_auto_mining (enabled : bool)          (* "Auto Mining: ..." *)
| Line_cooldown_period (seconds : N)         (* "Cooldown: ...s" *)
| Line_max_gas (price : N)                   (* "Max Gas: ... gwei" *)
| Line_mining_status                         (* "Mining Status:" *)
| Line_current_price (price : N)             (* "Current Price: ... ETH/token" *)
| Line_epoch (epochId : N)                   (* "Epoch: ..." *)
| Line_eth_balance (balance : N)             (* "ETH Balance: ... ETH" *)
| Line_can_mint_now (can : bool)             (* "Can Mint Now: ..." *)
| Line_next_mint (nextMint : N)              (* "Next Mint: ... (in ...s)" *)
| Line_blank                                 (* "" *)
| Line_profitability                         (* "Profitability:" *)
| Line_status (isProfitable : bool)          (* "Status: ..." *)
| Line_price (price : N)                     (* "Current Price: ... ETH/token" *)
| Line_recommended (amount : N)              (* "Recommended Mint: ... tokens" *)
| Line_next_mint_cost (cost : N)             (* "Next Mint Cost: ... ETH" *)
| Line_sufficient                            (* "Sufficient balance for next mint" *)
| Line_need (needed : N)                     (* "Need ... more ETH" *)
| Line_last_mint (lastMint : N)              (* "Last Mint: ... (...s ago)" *)
| Line_last_mint_never                       (* "Last Mint: Never" *)
| Line_error (message : string).             (* "Error: ..." *)

Inductive Prog : Type :=
| Return
| Throw (message : string)
| Exit (code : N)                            (* process.exit(code) *)
| Await {X : Type} (r : Request X) (k : string + X -> Prog)
| ConsoleLog (l : Line) (k : Prog)
| ConsoleError (l : Line) (k : Prog).

(** [await r]: a rejected promise throws its message. *)
Definition await {X} (r : Request X) (k : X -> Prog) : Prog :=
  Await r (fun answer =>
    match answer with
    | inl message => Throw message
    | inr x => k x
    end).

(** An expression that may throw. *)
Definition eval {X} (v : string + X) (k : X -> Prog) : Prog :=
  match v with
  | inl message => Throw message
  | inr x => k x
  end.

(** [try { body } catch (error) { handler error.message }]; the process does
    not come back from [process.exit]. *)
Fixpoint try_catch (body : Prog) (handler : string -> Prog) : Prog :=
  match body with
  | Return => Return
  | Throw message => handler message
  | Exit code => Exit code
  | Await r k => Await r (fun answer => try_catch (k answer) handler)
  | ConsoleLog l k => ConsoleLog l (try_catch k handler)
  | ConsoleError l k => ConsoleError l (try_catch k handler)
  end.

(** Lines 72 to 83, printed. *)
Definition print_cost (report : option (N * BalanceLine)) (k : Prog) : Prog :=
  match report with
  | Some (cost, Sufficient) => ConsoleLog (Line_next_mint_cost cost) (ConsoleLog Line_sufficient k)
  | Some (cost, Need needed) =>
      ConsoleLog (Line_next_mint_cost cost) (ConsoleLog (Line_need needed) k)
  | None => k
  end.

(** [main], with [process.env.CONTROLLER_ADDRESS] as its argument: [None]
    where the variable is not set. *)
Definition main (CONTROLLER_ADDRESS : option string) : Prog :=
  match CONTROLLER_ADDRESS with
  | None | Some EmptyString => ConsoleError Line_address_not_set (Exit 1)
  | Some controllerAddress =>
    ConsoleLog Line_title (
    ConsoleLog (Line_controller controllerAddress) (
    try_catch
      ((* Get rig address *)
       await FranchiserRig (fun rigAddress =>
       ConsoleLog (Line_rig rigAddress) (
       (* Get configuration *)
       await GetConfig (fun cfg =>
       ConsoleLog Line_configuration (
       ConsoleLog (Line_max_price (maxPricePerToken cfg)) (
       eval (js_divide (uint256 (minProfitMargin cfg)) (JsNumber (number 100))) (fun percent =>
       ConsoleLog (Line_min_profit percent) (
       ConsoleLog (Line_mint_range (minMintAmount cfg) (maxMintAmount cfg)) (
       ConsoleLog (Line_auto_mining (autoMiningEnabled cfg)) (
       ConsoleLog (Line_cooldown_period (cooldownPeriod cfg)) (
       ConsoleLog (Line_max_gas (maxGasPrice cfg)) (
       (* Get mining status *)
       await GetMiningStatus (fun status_ =>
       ConsoleLog Line_mining_status (
       ConsoleLog (Line_current_price (currentPrice status_)) (
       ConsoleLog (Line_epoch (statusEpochId status_)) (
       ConsoleLog (Line_eth_balance (ethBalance status_)) (
       ConsoleLog (Line_can_mint_now (canMintNow status_)) (
       (if negb (canMintNow status_) && (0 <? nextMintTime status_)
        then ConsoleLog (Line_next_mint (nextMintTime status_))
        else fun k => k) (
       ConsoleLog Line_blank (
       (* Check profitability *)
       await CheckProfitability (fun '(isProfitable, currentPrice_, recommendedAmount) =>
       ConsoleLog Line_profitability (
       ConsoleLog (Line_status isProfitable) (
       ConsoleLog (Line_price currentPrice_) (
       ConsoleLog (Line_recommended recommendedAmount) (
       (* Calculate potential cost *)
       print_cost (cost_report isProfitable currentPrice_ recommendedAmount
                               (ethBalance status_)) (
       (* Last mint info *)
       await LastMintTimestamp (fun lastMint =>
       if 0 <? lastMint then ConsoleLog (Line_last_mint lastMint) Return
       else ConsoleLog Line_last_mint_never Return)))))))))))))))))))))))))))
      (fun message => ConsoleError (Line_error message) (Exit 1))))
  end.

(** What the controller (through the RPC node) answers during one run. *)
Record Answers : Type := mkAnswers {
  on_franchiserRig : string + address;
  on_config : string + Config;
  on_getMiningStatus : string + MiningStatus;
  on_checkProfitability : string + (bool * N * N);
  on_lastMintTimestamp : string + N
}.

Definition answer (o : Answers) {X} (r : Request X) : string + X :=
  match r in Request X return string + X with
  | FranchiserRig => on_franchiserRig o
  | GetConfig => on_config o
  | GetMiningStatus => on_getMiningStatus o
  | CheckProfitability => on_checkProfitability o
  | LastMintTimestamp => on_lastMintTimestamp o
  end.

(** The visible actions of a run. *)
Inductive Action : Type :=
| Requested {X : Type} (r : Request X)
| Printed (l : Line)                 (* console.log *)
| PrintedError (l : Line).           (* console.error *)

(** How a run ends: [main] returns, the process exits with a code, or an
    exception leaves [main]. *)
Inductive Outcome : Type :=
| Returned
| Exited (code : N)
| Uncaught (message : string).

Fixpoint exec (o : Answers) (p : Prog) : list Action * Outcome :=
  match p with
  | Return => ([], Returned)
  | Throw message => ([], Uncaught message)
  | Exit code => ([], Exited code)
  | Await r k =>
      let '(tr, out) := exec o (k (answer o r)) in
      (Requested r :: tr, out)
  | ConsoleLog l k =>
      let '(tr, out) := exec o k in
      (Printed l :: tr, out)
  | ConsoleError l k =>
      let '(tr, out) := exec o k in
      (PrintedError l :: tr, out)
  end.

Definition trace_of (o : Answers) (p : Prog) : list Action := fst (exec o p).

Definition outcome_of (o : Answers) (p : Prog) : Outcome := snd (exec o p).

(** The part of the report that follows the configuration: the status,
    profitability and last-mint reads, and every line printed from them. *)
Definition in_report (a : Action) : bool :=
  match a with
  | @Requested _ FranchiserRig | @Requested _ GetConfig => false
  | @Requested _ _ => true
  | Printed Line_title | Printed (Line_controller _) | Printed (Line_rig _)
  | Printed Line_configuration | Printed (Line_max_price _) => false
  | Printed _ => true
  | PrintedError _ => false
  end.

End StatusReport.

(** ** Running a computation step by step *)

Section Stepping.
Context {A B : Type}.
Variables (e : Env) (w : World) (k : A -> M B).

Lemma bind_ret (a : A) : bind (ret a) k e w = k a e w.
Proof. reflexivity. Qed.

Lemma bind_revert (err : Error) : bind (revert err) k e w = Revert err.
Proof. reflexivity. Qed.

Lemma bind_sload (f : World -> A) : bind (sload f) k e w = k (f w) e w.
Proof. reflexivity. Qed.

Lemma bind_env (f : Env -> A) : bind (env f) k e w = k (f e) e w.
Proof. reflexivity. Qed.

Lemma bind_external_Some (a : A) : bind (external (Some a)) k e w = k a e w.
Proof. reflexivity. Qed.

Lemma bind_external_None : bind (external None) k e w = Revert CalleeReverted.
Proof. reflexivity. Qed.

Lemma bind_assoc {C} (m : M C) (f : C -> M A) :
  bind (bind m f) k e w = bind m (fun x => bind (f x) k) e w.
Proof. unfold bind. destruct (m e w) as [[c w']|err]; reflexivity. Qed.
End Stepping.

Section SteppingUnit.
Context {B : Type}.
Variables (e : Env) (w : World).

Lemma bind_sstore (f : World -> World) (k : unit -> M B) :
  bind (sstore f) k e w = k tt e (f w).
Proof. reflexivity. Qed.

Lemma bind_self_balance (k : N -> M B) :
  bind self_balance k e w = k (balance_of (ledger w) (this w)) e w.
Proof. reflexivity. Qed.

Lemma bind_emit (ev : Event) (k : unit -> M B) :
  bind (emit ev) k e w = k tt e (log ev w).
Proof. reflexivity. Qed.

Lemma bind_require_true (c : bool) (reason : string) (k : unit -> M B) :
  c = true -> bind (require c reason) k e w = k tt e w.
Proof. intros ->. reflexivity. Qed.

Lemma bind_require_false (c : bool) (reason : string) (k : unit -> M B) :
  c = false -> bind (require c reason) k e w = Revert (Error_string reason).
Proof. intros ->. reflexivity. Qed.

Lemma bind_checked_add (a b : N) (k : N -> M B) :
  (a + b <=? MAX_UINT256) = true -> bind (checked_add a b) k e w = k (a + b) e w.
Proof. unfold checked_add. intros ->. reflexivity. Qed.

Lemma bind_checked_add_overflow (a b : N) (k : N -> M B) :
  (a + b <=? MAX_UINT256) = false ->
  bind (checked_add a b) k e w = Revert (Panic PANIC_OVERFLOW).
Proof. unfold checked_add. intros ->. reflexivity. Qed.

Lemma bind_checked_mul (a b : N) (k : N -> M B) :
  (a * b <=? MAX_UINT256) = true -> bind (checked_mul a b) k e w = k (a * b) e w.
Proof. unfold checked_mul. intros ->. reflexivity. Qed.

Lemma bind_checked_mul_overflow (a b : N) (k : N -> M B) :
  (a * b <=? MAX_UINT256) = false ->
  bind (checked_mul a b) k e w = Revert (Panic PANIC_OVERFLOW).
Proof. unfold checked_mul. intros ->. reflexivity. Qed.

Lemma bind_checked_div (a b : N) (k : N -> M B) :
  (b =? 0) = false -> bind (checked_div a b) k e w = k (a / b) e w.
Proof. unfold checked_div. intros ->. reflexivity. Qed.

Lemma bind_checked_div_zero (a b : N) (k : N -> M B) :
  (b =? 0) = true -> bind (checked_div a b) k e w = Revert (Panic PANIC_DIV_BY_ZERO).
Proof. unfold checked_div. intros ->. reflexivity. Qed.
End SteppingUnit.

(** Projections of an updated state. *)
Ltac fields :=
  cbn [this franchiserRig config lastMintTimestamp roles entered ledger events
       set_config set_lastMintTimestamp set_roles set_entered set_ledger log
       maxPricePerToken minProfitMargin maxMintAmount minMintAmount
       autoMiningEnabled cooldownPeriod maxGasPrice] in *.

(** One step of a computation whose next action is decided by the context. *)
Ltac step :=
  first
    [ rewrite bind_assoc
    | rewrite bind_ret
    | rewrite bind_sload
    | rewrite bind_env
    | rewrite bind_sstore
    | rewrite bind_self_balance
    | rewrite bind_emit
    | rewrite bind_require_true by (fields; assumption)
    | rewrite bind_require_false by (fields; assumption)
    | rewrite bind_checked_add by (fields; assumption)
    | rewrite bind_checked_add_overflow by (fields; assumption)
    | rewrite bind_checked_mul by (fields; assumption)
    | rewrite bind_checked_mul_overflow by (fields; assumption)
    | rewrite bind_checked_div by (fields; assumption)
    | rewrite bind_checked_div_zero by (fields; assumption)
    | rewrite bind_external_Some
    | rewrite bind_external_None
    | rewrite bind_revert ];
  cbv beta iota; fields.

Ltac steps := repeat step.

(** Entering a function guarded by [onlyRole] and [nonReentrant]. *)
Lemma onlyRole_granted {A} (role : Role) (body : M A) e w :
  hasRole role (msg_sender e) w = true -> onlyRole role body e w = body e w.
Proof. intros H. unfold onlyRole. rewrite bind_env, bind_sload, H. reflexivity. Qed.

Lemma onlyRole_denied {A} (role : Role) (body : M A) e w :
  hasRole role (msg_sender e) w = false ->
  onlyRole role body e w = Revert (AccessControlUnauthorizedAccount (msg_sender e) role).
Proof. intros H. unfold onlyRole. rewrite bind_env, bind_sload, H. reflexivity. Qed.

Lemma nonReentrant_free {A} (body : M A) e w :
  entered w = false ->
  nonReentrant body e w =
    (let* r := body in let* _ := sstore (set_entered false) in ret r) e (set_entered true w).
Proof. intros H. unfold nonReentrant. rewrite bind_sload, H. reflexivity. Qed.

Lemma nonReentrant_locked {A} (body : M A) e w :
  entered w = true -> nonReentrant body e w = Revert ReentrancyGuardReentrantCall.
Proof. intros H. unfold nonReentrant. rewrite bind_sload, H. reflexivity. Qed.

Lemma transact_Revert {A} (m : M A) e w err :
  m e w = Revert err -> transact m e w = (w, Revert err).
Proof. unfold transact. intros ->. reflexivity. Qed.

Lemma transact_Ok {A} (m : M A) e w a w' :
  m e w = Ok (a, w') -> transact m e w = (w', Ok a).
Proof. unfold transact. intros ->. reflexivity. Qed.

(** ** [executeMint], guard by guard *)

Lemma guard_reason_inj g1 g2 : guard_reason g1 = guard_reason g2 -> g1 = g2.
Proof. destruct g1, g2; cbn; intros H; first [reflexivity | discriminate H]. Qed.

(** What the guards before [g] say, as the boolean tests of the code. *)
Ltac use_guard H g' :=
  let Hg := fresh "Hg" in
  pose proof (H g' ltac:(cbn; lia)) as Hg;
  cbn [guard_eval] in Hg.

Ltac split_guard H :=
  match type of H with
  | Some _ = Some _ => injection H as H
  | (if ?c then _ else _) = Some _ =>
      let E := fresh "E" in destruct c eqn:E; try discriminate H; split_guard H
  | match ?c with Some _ => _ | None => _ end = Some _ =>
      let E := fresh "E" in let cost := fresh "cost" in
      destruct c as [cost|] eqn:E; try discriminate H; split_guard H
  | _ => idtac
  end.

(** The first failing precondition decides the revert reason. *)
Lemma executeMint_first_failure e w recipient amount g :
  manager_call e w ->
  passes_before g e w amount ->
  guard_eval g e w amount = Some false ->
  executeMint recipient amount e w = Revert (Error_string (guard_reason g)).
Proof.
  intros [Hrole Hfree] Hbefore Hfail.
  unfold executeMint. rewrite onlyRole_granted, nonReentrant_free by assumption.
  destruct g; cbn [guard_eval guard_reason] in Hfail.
  - split_guard Hfail. steps. reflexivity.
  - use_guard Hbefore G_enabled. split_guard Hg. split_guard Hfail. steps. reflexivity.
  - use_guard Hbefore G_enabled. use_guard Hbefore G_bounds.
    split_guard Hg. split_guard Hg0. split_guard Hfail. steps. reflexivity.
  - use_guard Hbefore G_enabled. use_guard Hbefore G_bounds. use_guard Hbefore G_cooldown.
    split_guard Hg. split_guard Hg0. split_guard Hg1. split_guard Hfail. steps. reflexivity.
  - use_guard Hbefore G_enabled. use_guard Hbefore G_bounds. use_guard Hbefore G_cooldown.
    use_guard Hbefore G_gas.
    split_guard Hg. split_guard Hg0. split_guard Hg1. split_guard Hg2. split_guard Hfail.
    steps. rewrite E1. steps. reflexivity.
  - use_guard Hbefore G_enabled. use_guard Hbefore G_bounds. use_guard Hbefore G_cooldown.
    use_guard Hbefore G_gas. use_guard Hbefore G_balance.
    split_guard Hg. split_guard Hg0. split_guard Hg1. split_guard Hg2. split_guard Hg3.
    try rewrite E1 in Hfail. split_guard Hfail.
    steps. rewrite E1. steps. reflexivity.
Qed.

(** ** Reading back a computation that returned *)

Section Inversion.
Context {A : Type}.
Variables (e : Env) (w w' : World).

Lemma bind_Ok {B} (m : M A) (k : A -> M B) (b : B) :
  bind m k e w = Ok (b, w') ->
  exists a w1, m e w = Ok (a, w1) /\ k a e w1 = Ok (b, w').
Proof.
  unfold bind. destruct (m e w) as [[a w1]|err]; [|discriminate].
  intros H. exists a, w1. split; [reflexivity | exact H].
Qed.

Lemma ret_Ok (a a' : A) : ret a e w = Ok (a', w') -> a' = a /\ w' = w.
Proof. unfold ret. intros [= <- <-]. split; reflexivity. Qed.

Lemma revert_Ok (err : Error) (x : A * World) : revert err e w = Ok x -> False.
Proof. discriminate. Qed.

Lemma sload_Ok (f : World -> A) (a : A) : sload f e w = Ok (a, w') -> a = f w /\ w' = w.
Proof. unfold sload. intros [= <- <-]. split; reflexivity. Qed.

Lemma env_Ok (f : Env -> A) (a : A) : env f e w = Ok (a, w') -> a = f e /\ w' = w.
Proof. unfold env. intros [= <- <-]. split; reflexivity. Qed.

Lemma external_Ok (o : option A) (a : A) :
  external o e w = Ok (a, w') -> o = Some a /\ w' = w.
Proof. destruct o; cbn; [|discriminate]. intros [= <- <-]. split; reflexivity. Qed.

Lemma onlyRole_Ok (role : Role) (body : M A) (x : A * World) :
  onlyRole role body e w = Ok x ->
  hasRole role (msg_sender e) w = true /\ body e w = Ok x.
Proof.
  unfold onlyRole. rewrite bind_env, bind_sload.
  destruct (hasRole role (msg_sender e) w); [|discriminate].
  intros H. split; [reflexivity | exact H].
Qed.

Lemma nonReentrant_Ok (body : M A) (a : A) :
  nonReentrant body e w = Ok (a, w') ->
  entered w = false /\
  exists w1, body e (set_entered true w) = Ok (a, w1) /\ w' = set_entered false w1.
Proof.
  unfold nonReentrant. rewrite bind_sload.
  destruct (entered w); [discriminate|].
  rewrite bind_sstore. unfold bind.
  destruct (body e (set_entered true w)) as [[a1 w1]|err]; [|discriminate].
  cbn. intros [= <- <-]. split; [reflexivity|]. exists w1. split; reflexivity.
Qed.
End Inversion.

Section InversionUnit.
Variables (e : Env) (w w' : World).

Lemma sstore_Ok (f : World -> World) (u : unit) : sstore f e w = Ok (u, w') -> w' = f w.
Proof. unfold sstore. intros H. injection H as _ <-. reflexivity. Qed.

Lemma emit_Ok (ev : Event) (u : unit) : emit ev e w = Ok (u, w') -> w' = log ev w.
Proof. apply sstore_Ok. Qed.

Lemma require_Ok (c : bool) (reason : string) (u : unit) :
  require c reason e w = Ok (u, w') -> c = true /\ w' = w.
Proof.
  destruct c; cbn; [|discriminate]. intros H. injection H as _ <-. split; reflexivity.
Qed.

Lemma self_balance_Ok (b : N) :
  self_balance e w = Ok (b, w') -> b = balance_of (ledger w) (this w) /\ w' = w.
Proof. unfold self_balance. intros H. apply sload_Ok in H. exact H. Qed.

Lemma checked_add_Ok (a b r : N) :
  checked_add a b e w = Ok (r, w') ->
  (a + b <=? MAX_UINT256) = true /\ r = a + b /\ w' = w.
Proof.
  unfold checked_add. destruct (a + b <=? MAX_UINT256); [|discriminate].
  intros [= <- <-]. repeat split.
Qed.

Lemma checked_mul_Ok (a b r : N) :
  checked_mul a b e w = Ok (r, w') ->
  (a * b <=? MAX_UINT256) = true /\ r = a * b /\ w' = w.
Proof.
  unfold checked_mul. destruct (a * b <=? MAX_UINT256); [|discriminate].
  intros [= <- <-]. repeat split.
Qed.

Lemma checked_div_Ok (a b r : N) :
  checked_div a b e w = Ok (r, w') ->
  (b =? 0) = false /\ r = a / b /\ w' = w.
Proof.
  unfold checked_div. destruct (b =? 0); [discriminate|].
  intros [= <- <-]. repeat split.
Qed.
End InversionUnit.

(** Break a hypothesis [m e w = Ok _] down along the structure of [m]. *)
Ltac inv_step :=
  match goal with
  | H : bind _ _ _ _ = Ok _ |- _ =>
      let a := fresh "a" in let w1 := fresh "w1" in let H1 := fresh "H" in
      apply bind_Ok in H; destruct H as (a & w1 & H1 & H)
  | H : ret _ _ _ = Ok _ |- _ => apply ret_Ok in H; destruct H as [? ?]; subst
  | H : revert _ _ _ = Ok _ |- _ => destruct (revert_Ok _ _ _ _ H)
  | H : sload _ _ _ = Ok _ |- _ => apply sload_Ok in H; destruct H as [? ?]; subst
  | H : env _ _ _ = Ok _ |- _ => apply env_Ok in H; destruct H as [? ?]; subst
  | H : sstore _ _ _ = Ok _ |- _ => apply sstore_Ok in H; subst
  | H : emit _ _ _ = Ok _ |- _ => apply emit_Ok in H; subst
  | H : self_balance _ _ = Ok _ |- _ => apply self_balance_Ok in H; destruct H as [? ?]; subst
  | H : require _ _ _ _ = Ok _ |- _ => apply require_Ok in H; destruct H as [? ?]; subst
  | H : external _ _ _ = Ok _ |- _ => apply external_Ok in H; destruct H as [? ?]; subst
  | H : checked_add _ _ _ _ = Ok _ |- _ =>
      apply checked_add_Ok in H; destruct H as (? & ? & ?); subst
  | H : checked_mul _ _ _ _ = Ok _ |- _ =>
      apply checked_mul_Ok in H; destruct H as (? & ? & ?); subst
  | H : checked_div _ _ _ _ = Ok _ |- _ =>
      apply checked_div_Ok in H; destruct H as (? & ? & ?); subst
  | H : onlyRole _ _ _ _ = Ok _ |- _ => apply onlyRole_Ok in H; destruct H as [? H]
  | H : nonReentrant _ _ _ = Ok (_, _) |- _ =>
      let w1 := fresh "w1" in
      apply nonReentrant_Ok in H; destruct H as (? & w1 & H & ?); subst
  | H : (if ?c then _ else _) _ _ = Ok _ |- _ => destruct c eqn:?
  end.

Ltac inv_M := repeat (inv_step; fields).

(** With every precondition passed, the outcome is the Rig's. *)
Lemma executeMint_passed e w recipient amount cost :
  manager_call e w ->
  (forall g, guard_eval g e w amount = Some true) ->
  quote (rig e) amount = Some cost ->
  executeMint recipient amount e w =
    match currentEpochId (rig e) with
    | None => Revert CalleeReverted
    | Some epochId =>
        if mint (rig e) recipient amount cost
        then Ok (tt, after_mint e w recipient amount cost epochId)
        else Revert CalleeReverted
    end.
Proof.
  intros [Hrole Hfree] Hpass Hquote.
  unfold executeMint. rewrite onlyRole_granted, nonReentrant_free by assumption.
  pose proof (Hpass G_enabled) as H1. pose proof (Hpass G_bounds) as H2.
  pose proof (Hpass G_cooldown) as H3. pose proof (Hpass G_gas) as H4.
  pose proof (Hpass G_balance) as H5. pose proof (Hpass G_price) as H6.
  cbn [guard_eval] in H1, H2, H3, H4, H5, H6.
  rewrite Hquote in H5, H6.
  split_guard H1. split_guard H2. split_guard H3. split_guard H4.
  split_guard H5. split_guard H6.
  steps. rewrite Hquote. steps.
  destruct (currentEpochId (rig e)) as [epochId|]; steps; [|reflexivity].
  destruct (mint (rig e) recipient amount cost); steps; [|reflexivity].
  unfold ret, after_mint. do 2 f_equal.
  destruct w; cbn in *; subst; reflexivity.
Qed.

(** A mint that went through passed every precondition. *)
Lemma executeMint_Ok e w recipient amount u w' :
  executeMint recipient amount e w = Ok (u, w') ->
  manager_call e w /\
  (forall g, guard_eval g e w amount = Some true) /\
  exists cost epochId,
    quote (rig e) amount = Some cost /\
    currentEpochId (rig e) = Some epochId /\
    mint (rig e) recipient amount cost = true /\
    w' = after_mint e w recipient amount cost epochId.
Proof.
  intros H. unfold executeMint in H. inv_M.
  assert (Hm : manager_call e w) by (split; assumption).
  assert (Hg : forall g, guard_eval g e w amount = Some true).
  { intros []; cbn [guard_eval];
      repeat match goal with
             | H : ?c = _ |- context [?c] => rewrite H
             end; reflexivity. }
  split; [exact Hm|]. split; [exact Hg|].
  match goal with
  | Hq : quote (rig e) amount = Some ?c, He : currentEpochId (rig e) = Some ?ep |- _ =>
      exists c, ep; pose proof (executeMint_passed e w recipient amount c Hm Hg Hq) as Hp;
      rewrite He in Hp
  end.
  repeat split; try assumption.
  unfold after_mint. destruct w; cbn in *; subst; reflexivity.
Qed.

(** A precondition that cannot be evaluated reverts with its fault. *)
Lemma executeMint_first_fault e w recipient amount g :
  manager_call e w ->
  passes_before g e w amount ->
  guard_eval g e w amount = None ->
  executeMint recipient amount e w = Revert (guard_fault g e amount).
Proof.
  intros [Hrole Hfree] Hbefore Hnone.
  unfold executeMint. rewrite onlyRole_granted, nonReentrant_free by assumption.
  destruct g; cbn [guard_eval guard_fault] in *; try discriminate Hnone.
  - use_guard Hbefore G_enabled. use_guard Hbefore G_bounds.
    split_guard Hg. split_guard Hg0.
    destruct (_ + _ <=? MAX_UINT256) eqn:E; [discriminate|].
    steps. reflexivity.
  - use_guard Hbefore G_enabled. use_guard Hbefore G_bounds. use_guard Hbefore G_cooldown.
    split_guard Hg. split_guard Hg0. split_guard Hg1.
    destruct (_ * gwei <=? MAX_UINT256) eqn:E0; [discriminate|].
    steps. reflexivity.
  - use_guard Hbefore G_enabled. use_guard Hbefore G_bounds. use_guard Hbefore G_cooldown.
    use_guard Hbefore G_gas.
    split_guard Hg. split_guard Hg0. split_guard Hg1. split_guard Hg2.
    destruct (quote (rig e) amount) eqn:E1; [discriminate|].
    steps. rewrite E1. steps. reflexivity.
  - use_guard Hbefore G_enabled. use_guard Hbefore G_bounds. use_guard Hbefore G_cooldown.
    use_guard Hbefore G_gas. use_guard Hbefore G_balance.
    split_guard Hg. split_guard Hg0. split_guard Hg1. split_guard Hg2. split_guard Hg3.
    steps. rewrite E1. steps.
    destruct (cost * _1e18 <=? MAX_UINT256) eqn:E2; steps; [|reflexivity].
    destruct (amount =? 0) eqn:E3; [|discriminate].
    steps. reflexivity.
Qed.

Lemma passes_before_next g g' e w amount :
  guard_index g' = S (guard_index g) ->
  passes_before g e w amount ->
  guard_eval g e w amount = Some true ->
  passes_before g' e w amount.
Proof.
  intros Hidx Hbefore Hg g0 Hlt.
  destruct (decide (guard_index g0 = guard_index g)) as [Heq|Hne].
  - replace g0 with g; [exact Hg|].
    destruct g, g0; cbn in Heq; first [reflexivity | discriminate Heq].
  - apply Hbefore. lia.
Qed.

Lemma passes_before_all e w amount :
  passes_before G_price e w amount ->
  guard_eval G_price e w amount = Some true ->
  forall g, guard_eval g e w amount = Some true.
Proof.
  intros Hbefore Hlast g.
  destruct g; first [exact Hlast | apply Hbefore; cbn; lia].
Qed.

(** Settle the outcome when guard [g], reached with all earlier ones passed,
    does not pass. *)
Ltac settle e w amount g :=
  let E := fresh "E" in
  destruct (guard_eval g e w amount) as [[|]|] eqn:E;
  [ | erewrite executeMint_first_failure by eassumption;
      apply Mint_guard_failed; assumption
    | erewrite executeMint_first_fault by eassumption;
      apply Mint_guard_fault; assumption ].

Lemma executeMint_outcome e w recipient amount :
  MintOutcome e w recipient amount (executeMint recipient amount e w).
Proof.
  destruct (hasRole MANAGER_ROLE (msg_sender e) w) eqn:Hrole.
  2:{ unfold executeMint. rewrite onlyRole_denied by assumption.
      apply Mint_unauthorized. assumption. }
  destruct (entered w) eqn:Hfree.
  { unfold executeMint. rewrite onlyRole_granted, nonReentrant_locked by assumption.
    apply Mint_reentrant. assumption. }
  assert (Hm : manager_call e w) by (split; assumption).
  assert (H0 : passes_before G_enabled e w amount) by (intros g' Hlt; cbn in Hlt; lia).
  (* walk the guards in the order of the code *)
  settle e w amount G_enabled.
  pose proof (passes_before_next G_enabled G_bounds _ _ _ eq_refl H0 E) as H1.
  settle e w amount G_bounds.
  pose proof (passes_before_next G_bounds G_cooldown _ _ _ eq_refl H1 E0) as H2.
  settle e w amount G_cooldown.
  pose proof (passes_before_next G_cooldown G_gas _ _ _ eq_refl H2 E1) as H3.
  settle e w amount G_gas.
  pose proof (passes_before_next G_gas G_balance _ _ _ eq_refl H3 E2) as H4.
  settle e w amount G_balance.
  pose proof (passes_before_next G_balance G_price _ _ _ eq_refl H4 E3) as H5.
  settle e w amount G_price.
  pose proof (passes_before_all _ _ _ H5 E4) as Hall.
  destruct (quote (rig e) amount) as [cost|] eqn:Hq.
  2:{ cbn [guard_eval] in E3. rewrite Hq in E3. discriminate E3. }
  rewrite (executeMint_passed e w recipient amount cost Hm Hall Hq).
  destruct (currentEpochId (rig e)) as [epochId|] eqn:He.
  2:{ apply Mint_rig_reverted. assumption. }
  destruct (mint (rig e) recipient amount cost) eqn:Hmint.
  - eapply Mint_done; eassumption.
  - apply Mint_rig_reverted. assumption.
Qed.

(** ** The repository's tests, replayed on the model *)

(** "Should set the correct roles" and "Should initialize config correctly". *)
Example test_deployment :
  hasRole OWNER_ROLE Scenario.owner Scenario.deployed = true /\
  hasRole MANAGER_ROLE Scenario.manager Scenario.deployed = true /\
  maxPricePerToken (config Scenario.deployed) = Scenario.MAX_PRICE /\
  minProfitMargin (config Scenario.deployed) = Scenario.MIN_MARGIN /\
  autoMiningEnabled (config Scenario.deployed) = true.
Proof. repeat split; vm_compute; reflexivity. Qed.

(** "Should execute mint when profitable": ten tokens cost 0.005 ether and
    the event carries [(user, amount, quote(amount), 1)]. *)
Example test_execute_mint :
  succeeds Scenario.funded Scenario.first_mint = true /\
  events Scenario.minted_once
    = events Scenario.funded ++ [TokensMinted Scenario.user (10 * ether) 5000000000000000 1] /\
  lastMintTimestamp Scenario.minted_once = 2000 /\
  balance_of (ledger Scenario.minted_once) Scenario.controller = 995000000000000000 /\
  balance_of (ledger Scenario.minted_once) Scenario.rigAddress = 5000000000000000.
Proof. repeat split; vm_compute; reflexivity. Qed.

(** "Should reject mint from non-manager". *)
Example test_mint_from_non_manager :
  executeMint Scenario.user (10 * ether)
              (Scenario.call Scenario.user 2000 gwei MockRig.initial true) Scenario.funded
    = Revert (AccessControlUnauthorizedAccount Scenario.user MANAGER_ROLE).
Proof. vm_compute; reflexivity. Qed.

(** "Should reject config update from non-owner". *)
Example test_config_from_non_owner :
  updateConfig Scenario.MAX_PRICE Scenario.MIN_MARGIN (100 * ether) (1 * ether) true 300 10
               (Scenario.call Scenario.manager 2000 gwei MockRig.initial true) Scenario.funded
    = Revert (AccessControlUnauthorizedAccount Scenario.manager OWNER_ROLE).
Proof. vm_compute; reflexivity. Qed.

(** "Should withdraw ETH (owner only)": half an ether. *)
Example test_withdraw_half :
  events (step Scenario.funded
            (Scenario.call Scenario.owner 2000 gwei MockRig.initial true,
             Call_withdrawETH Scenario.owner 500000000000000000))
    = events Scenario.funded ++ [ETHWithdrawn Scenario.owner 500000000000000000].
Proof. vm_compute; reflexivity. Qed.

(** ** C1: a failed Rig mint leaves nothing behind *)

(** C1. For every call of [executeMint] whose six preconditions all pass, if
    the forwarded Rig [mint] call fails, the whole call reverts and the state
    is the one before the call: [lastMintTimestamp] is not advanced, no ether
    leaves the contract and no [TokensMinted] event is logged. *)
Theorem C1_failed_rig_mint_is_atomic e w recipient amount cost :
  manager_call e w ->
  (forall g, guard_eval g e w amount = Some true) ->
  quote (rig e) amount = Some cost ->
  mint (rig e) recipient amount cost = false ->
  snd (transact (executeMint recipient amount) e w) = Revert CalleeReverted /\
  fst (transact (executeMint recipient amount) e w) = w /\
  lastMintTimestamp (fst (transact (executeMint recipient amount) e w))
    = lastMintTimestamp w /\
  ledger (fst (transact (executeMint recipient amount) e w)) = ledger w /\
  events (fst (transact (executeMint recipient amount) e w)) = events w.
Proof.
  intros Hm Hpass Hquote Hmint.
  assert (Hrun : executeMint recipient amount e w = Revert CalleeReverted).
  { rewrite (executeMint_passed e w recipient amount cost Hm Hpass Hquote), Hmint.
    destruct (currentEpochId (rig e)); reflexivity. }
  rewrite (transact_Revert _ _ _ _ Hrun). cbn. repeat split.
Qed.

Lemma C1_witness :
  snd (transact (executeMint Scenario.user (10 * ether))
         (Scenario.call_paused Scenario.manager 2000 gwei MockRig.initial)
         Scenario.funded) = Revert CalleeReverted /\
  fst (transact (executeMint Scenario.user (10 * ether))
         (Scenario.call_paused Scenario.manager 2000 gwei MockRig.initial)
         Scenario.funded) = Scenario.funded.
Proof.
  pose proof (C1_failed_rig_mint_is_atomic
                (Scenario.call_paused Scenario.manager 2000 gwei MockRig.initial)
                Scenario.funded Scenario.user (10 * ether) 5000000000000000) as H.
  destruct H as (H1 & H2 & _).
  - split; vm_compute; reflexivity.
  - intros []; vm_compute; reflexivity.
  - vm_compute; reflexivity.
  - reflexivity.
  - split; assumption.
Defined.

(** ** C2: the preconditions are checked in order *)

(** C2. When a Manager calls [executeMint], the six preconditions (mining
    enabled; amount within bounds; cooldown elapsed; gas-price ceiling; quoted
    cost covered by the balance; implied per-unit price within the maximum)
    are tested in that order: the first one that fails makes the call revert
    with its own reason string, the six strings are pairwise different, and
    the state is left as it was. *)
Theorem C2_preconditions_in_order e w recipient amount g :
  manager_call e w ->
  passes_before g e w amount ->
  guard_eval g e w amount = Some false ->
  transact (executeMint recipient amount) e w
    = (w, Revert (Error_string (guard_reason g))) /\
  (forall g', guard_reason g' = guard_reason g -> g' = g) /\
  map guard_reason guards =
    ["Auto mining disabled"; "Amount out of bounds"; "Cooldown active";
     "Gas price too high"; "Insufficient ETH balance"; "Price too high"] /\
  map guard_index guards = [0; 1; 2; 3; 4; 5]%nat.
Proof.
  intros Hm Hbefore Hfail. split; [|split; [|split]].
  - apply transact_Revert. apply executeMint_first_failure; assumption.
  - intros g'. apply guard_reason_inj.
  - reflexivity.
  - reflexivity.
Qed.

(** The second mint of the test suite, 100 seconds after the first. *)
Lemma C2_witness :
  transact (executeMint Scenario.user (10 * ether))
           (Scenario.call Scenario.manager 2100 gwei MockRig.initial true)
           Scenario.minted_once
    = (Scenario.minted_once, Revert (Error_string "Cooldown active")).
Proof.
  refine (proj1 (C2_preconditions_in_order
                   (Scenario.call Scenario.manager 2100 gwei MockRig.initial true)
                   Scenario.minted_once Scenario.user (10 * ether) G_cooldown _ _ _)).
  - split; vm_compute; reflexivity.
  - intros [] Hlt; cbn in Hlt; first [lia | vm_compute; reflexivity].
  - vm_compute; reflexivity.
Defined.

(** ** C3: the gas-price ceiling *)

(** C3, as stated, fails: with [maxGasPrice = 20] a call paying
    [1 gwei = 10^9] wei per gas passes the gas check (the whole mint goes
    through) although [10^9 > 20]. *)
Lemma C3_counterexample :
  manager_call (Scenario.call Scenario.manager 2000 gwei MockRig.initial true)
               Scenario.reconfigured /\
  passes_before G_gas (Scenario.call Scenario.manager 2000 gwei MockRig.initial true)
                Scenario.reconfigured (10 * ether) /\
  maxGasPrice (config Scenario.reconfigured) = 20 /\
  tx_gasprice (Scenario.call Scenario.manager 2000 gwei MockRig.initial true)
    = 1000000000 /\
  guard_eval G_gas (Scenario.call Scenario.manager 2000 gwei MockRig.initial true)
             Scenario.reconfigured (10 * ether) = Some true /\
  snd (transact (executeMint Scenario.user (10 * ether))
         (Scenario.call Scenario.manager 2000 gwei MockRig.initial true)
         Scenario.reconfigured) = Ok tt /\
  ~ (tx_gasprice (Scenario.call Scenario.manager 2000 gwei MockRig.initial true)
     <= maxGasPrice (config Scenario.reconfigured)).
Proof.
  split; [split; vm_compute; reflexivity|].
  split; [intros [] Hlt; cbn in Hlt; first [lia | vm_compute; reflexivity]|].
  repeat split; try (vm_compute; reflexivity).
  vm_compute. intros H. apply H. reflexivity.
Qed.

(** C3, amended. For every call of [executeMint] that reaches the gas-price
    check, [maxGasPrice] counts in gwei: when [maxGasPrice * 10^9] fits in
    256 bits the check passes if and only if the caller's gas price in wei is
    at most [maxGasPrice * 10^9], and the call reverts with
    "Gas price too high" exactly when it is larger; when the product does not
    fit the call reverts with an overflow panic. *)
Theorem C3_gas_check_in_gwei e w recipient amount :
  manager_call e w ->
  passes_before G_gas e w amount ->
  (maxGasPrice (config w) * gwei <= MAX_UINT256 ->
     (guard_eval G_gas e w amount = Some true
        <-> tx_gasprice e <= maxGasPrice (config w) * gwei) /\
     (executeMint recipient amount e w = Revert (Error_string "Gas price too high")
        <-> maxGasPrice (config w) * gwei < tx_gasprice e)) /\
  (MAX_UINT256 < maxGasPrice (config w) * gwei ->
     executeMint recipient amount e w = Revert (Panic PANIC_OVERFLOW)).
Proof.
  intros Hm Hbefore. split.
  - intros Hfits. apply N.leb_le in Hfits.
    assert (Heval : guard_eval G_gas e w amount
                    = Some (tx_gasprice e <=? maxGasPrice (config w) * gwei)).
    { cbn [guard_eval]. rewrite Hfits. reflexivity. }
    split.
    + rewrite Heval. split.
      * intros [= H]. apply N.leb_le. exact H.
      * intros H. apply N.leb_le in H. rewrite H. reflexivity.
    + split.
      * intros Hrun.
        destruct (tx_gasprice e <=? maxGasPrice (config w) * gwei) eqn:Hle.
        2:{ apply N.leb_gt. exact Hle. }
        exfalso.
        pose proof (executeMint_outcome e w recipient amount) as Hout.
        rewrite Hrun in Hout. inversion Hout as [| |g Hb Hf Hr|g Hb Hn Hr| |].
        -- apply (guard_reason_inj g G_gas) in Hr. subst g. congruence.
        -- destruct g; cbn [guard_fault] in Hr; try discriminate Hr.
           destruct (quote (rig e) amount) as [c|]; [|discriminate Hr].
           destruct (c * _1e18 <=? MAX_UINT256); discriminate Hr.
      * intros Hgt. apply N.leb_gt in Hgt.
        rewrite Hgt in Heval.
        apply (executeMint_first_failure e w recipient amount G_gas); assumption.
  - intros Hover. apply N.leb_gt in Hover.
    apply (executeMint_first_fault e w recipient amount G_gas); [assumption..|].
    cbn [guard_eval]. rewrite Hover. reflexivity.
Qed.

Lemma C3_witness :
  (guard_eval G_gas (Scenario.call Scenario.manager 2000 gwei MockRig.initial true)
              Scenario.reconfigured (10 * ether) = Some true
   <-> 1000000000 <= 20 * gwei) /\
  (executeMint Scenario.user (10 * ether)
               (Scenario.call Scenario.manager 2000 gwei MockRig.initial true)
               Scenario.reconfigured = Revert (Error_string "Gas price too high")
   <-> 20 * gwei < 1000000000).
Proof.
  refine (proj1 (C3_gas_check_in_gwei
                   (Scenario.call Scenario.manager 2000 gwei MockRig.initial true)
                   Scenario.reconfigured Scenario.user (10 * ether) _ _) _).
  - split; vm_compute; reflexivity.
  - intros [] Hlt; cbn in Hlt; first [lia | vm_compute; reflexivity].
  - vm_compute. discriminate.
Defined.

(** ** C5: [checkProfitability] *)

(** C5. For every configuration and every spot price [p] the Rig returns,
    [checkProfitability] returns [(false, p, 0)] when [p] exceeds
    [maxPricePerToken] and [(true, p, maxMintAmount)] otherwise, and the state
    after the call is the state before it. *)
Theorem C5_checkProfitability_policy e w p :
  quotePrice (rig e) = Some p ->
  checkProfitability e w =
    Ok (if maxPricePerToken (config w) <? p
        then (false, p, 0)
        else (true, p, maxMintAmount (config w)),
        w) /\
  fst (transact checkProfitability e w) = w.
Proof.
  intros Hp.
  assert (Hrun : checkProfitability e w =
                 Ok (if maxPricePerToken (config w) <? p
                     then (false, p, 0)
                     else (true, p, maxMintAmount (config w)), w)).
  { unfold checkProfitability. steps. rewrite Hp. steps.
    destruct (maxPricePerToken (config w) <? p) eqn:Hgt; [reflexivity|].
    steps. apply N.ltb_ge in Hgt. apply N.leb_le in Hgt. rewrite Hgt. reflexivity. }
  split; [exact Hrun|].
  unfold transact. rewrite Hrun. reflexivity.
Qed.

(** Scenario A of the test suite: spot price 0.0005, ceiling 0.001. *)
Lemma C5_witness :
  checkProfitability (Scenario.call Scenario.user 2000 gwei MockRig.initial true)
                     Scenario.funded
    = Ok ((true, 500000000000000, 100 * ether), Scenario.funded).
Proof.
  exact (proj1 (C5_checkProfitability_policy
                  (Scenario.call Scenario.user 2000 gwei MockRig.initial true)
                  Scenario.funded 500000000000000 eq_refl)).
Defined.

(** ** C6: [updateConfig] *)

Lemma updateConfig_accepts e w p m mx mn en cd g :
  owner_call e w ->
  mn <= mx /\ cd <= 86400 /\ 0 < g ->
  updateConfig p m mx mn en cd g e w =
    Ok (tt, log (ConfigUpdated p m mx mn en cd g)
                (set_config (mkConfig p m mx mn en cd g) w)).
Proof.
  intros Hown (H1 & H2 & H3). unfold owner_call in Hown.
  apply N.leb_le in H1. apply N.ltb_lt in H3.
  assert (H2' : (cd <=? 1 * days) = true) by (apply N.leb_le; exact H2).
  unfold updateConfig. rewrite onlyRole_granted by assumption.
  steps. reflexivity.
Qed.

Lemma updateConfig_rejects e w p m mx mn en cd g :
  owner_call e w ->
  ~ (mn <= mx /\ cd <= 86400 /\ 0 < g) ->
  exists err, updateConfig p m mx mn en cd g e w = Revert err.
Proof.
  intros Hown Hnot. unfold owner_call in Hown.
  unfold updateConfig. rewrite onlyRole_granted by assumption.
  destruct (mn <=? mx) eqn:H1; [|steps; eauto].
  destruct (cd <=? 1 * days) eqn:H2; [|steps; eauto].
  destruct (0 <? g) eqn:H3; [|steps; eauto].
  exfalso. apply Hnot.
  apply N.leb_le in H1. apply N.ltb_lt in H3. apply N.leb_le in H2.
  repeat split; assumption.
Qed.

(** C6. A call of [updateConfig] by an Owner succeeds exactly when
    [maxMintAmount >= minMintAmount], [cooldownPeriod <= 86400] and
    [maxGasPrice > 0]; when it succeeds the stored configuration consists of
    exactly the new values, and when a bound is violated the call reverts and
    the state, the configuration included, is unchanged. *)
Theorem C6_updateConfig_validation e w p m mx mn en cd g :
  owner_call e w ->
  (isOk (snd (transact (updateConfig p m mx mn en cd g) e w)) = true
     <-> mn <= mx /\ cd <= 86400 /\ 0 < g) /\
  (mn <= mx /\ cd <= 86400 /\ 0 < g ->
     config (fst (transact (updateConfig p m mx mn en cd g) e w))
       = mkConfig p m mx mn en cd g /\
     sload config e (fst (transact (updateConfig p m mx mn en cd g) e w))
       = Ok (mkConfig p m mx mn en cd g,
             fst (transact (updateConfig p m mx mn en cd g) e w))) /\
  (~ (mn <= mx /\ cd <= 86400 /\ 0 < g) ->
     fst (transact (updateConfig p m mx mn en cd g) e w) = w /\
     config (fst (transact (updateConfig p m mx mn en cd g) e w)) = config w).
Proof.
  intros Hown.
  pose proof (updateConfig_accepts e w p m mx mn en cd g Hown) as Hgood.
  pose proof (updateConfig_rejects e w p m mx mn en cd g Hown) as Hbad.
  split; [|split].
  - split.
    + intros Hok.
      destruct (decide (mn <= mx /\ cd <= 86400 /\ 0 < g)) as [Hyes|Hno]; [exact Hyes|].
      destruct (Hbad Hno) as [err Herr].
      rewrite (transact_Revert _ _ _ _ Herr) in Hok. discriminate Hok.
    + intros Hyes. rewrite (transact_Ok _ _ _ _ _ (Hgood Hyes)). reflexivity.
  - intros Hyes. rewrite (transact_Ok _ _ _ _ _ (Hgood Hyes)). split; reflexivity.
  - intros Hno. destruct (Hbad Hno) as [err Herr].
    rewrite (transact_Revert _ _ _ _ Herr). split; reflexivity.
Qed.

(** The update of the test suite, and Scenario C ([maxMintAmount <
    minMintAmount]) rejected. *)
Lemma C6_witness :
  config (fst (transact
                 (updateConfig (2 * Scenario.MAX_PRICE) 2000 (200 * ether) (2 * ether)
                               true 600 20)
                 (Scenario.call Scenario.owner 1500 gwei MockRig.initial true)
                 Scenario.funded))
    = mkConfig (2 * Scenario.MAX_PRICE) 2000 (200 * ether) (2 * ether) true 600 20 /\
  fst (transact
         (updateConfig (2 * Scenario.MAX_PRICE) 2000 (1 * ether) (2 * ether) true 600 20)
         (Scenario.call Scenario.owner 1500 gwei MockRig.initial true)
         Scenario.funded)
    = Scenario.funded.
Proof.
  split.
  - refine (proj1 (proj1 (proj2 (C6_updateConfig_validation
             (Scenario.call Scenario.owner 1500 gwei MockRig.initial true)
             Scenario.funded (2 * Scenario.MAX_PRICE) 2000 (200 * ether) (2 * ether)
             true 600 20 _)) _)).
    + vm_compute; reflexivity.
    + repeat split; vm_compute; first [reflexivity | discriminate].
  - refine (proj1 (proj2 (proj2 (C6_updateConfig_validation
             (Scenario.call Scenario.owner 1500 gwei MockRig.initial true)
             Scenario.funded (2 * Scenario.MAX_PRICE) 2000 (1 * ether) (2 * ether)
             true 600 20 _)) _)).
    + vm_compute; reflexivity.
    + intros (H & _). vm_compute in H. apply H. reflexivity.
Defined.

Lemma executeMint_reason_is_first_failure e w recipient amount g :
  executeMint recipient amount e w = Revert (Error_string (guard_reason g)) ->
  guard_eval g e w amount = Some false.
Proof.
  intros Hrun.
  pose proof (executeMint_outcome e w recipient amount) as Hout.
  rewrite Hrun in Hout. inversion Hout as [| |g' Hb Hf Hr|g' Hb Hn Hr| |].
  - apply guard_reason_inj in Hr. subst g'. exact Hf.
  - destruct g'; cbn [guard_fault] in Hr; try discriminate Hr.
    destruct (quote (rig e) amount) as [c|]; [|discriminate Hr].
    destruct (c * _1e18 <=? MAX_UINT256); discriminate Hr.
Qed.

(** ** C10: the division in the price check *)

(** C10. [executeMint] computes the per-unit price as
    [cost * 1e18 / amount].  When the amount-bounds precondition passes under
    a configuration with [minMintAmount > 0], the amount is nonzero and the
    call never panics with a division by zero.  [updateConfig] accepts
    [minMintAmount = 0] (it only asks for [maxMintAmount >= minMintAmount]),
    and under such a configuration a call with amount zero that passes the
    first five preconditions reverts with the division-by-zero panic. *)
Theorem C10_division_by_amount :
  (forall e w recipient amount,
     0 < minMintAmount (config w) ->
     guard_eval G_bounds e w amount = Some true ->
     amount <> 0 /\
     executeMint recipient amount e w <> Revert (Panic PANIC_DIV_BY_ZERO)) /\
  (forall e w recipient amount cost,
     manager_call e w ->
     passes_before G_price e w amount ->
     quote (rig e) amount = Some cost ->
     cost * _1e18 <= MAX_UINT256 ->
     amount <> 0 ->
     (executeMint recipient amount e w = Revert (Error_string "Price too high")
        <-> maxPricePerToken (config w) < cost * _1e18 / amount)) /\
  (forall e w p m mx en cd g,
     owner_call e w -> cd <= 86400 -> 0 < g ->
     isOk (snd (transact (updateConfig p m mx 0 en cd g) e w)) = true /\
     minMintAmount (config (fst (transact (updateConfig p m mx 0 en cd g) e w))) = 0) /\
  (forall e w recipient cost,
     manager_call e w ->
     minMintAmount (config w) = 0 ->
     passes_before G_price e w 0 ->
     quote (rig e) 0 = Some cost ->
     cost * _1e18 <= MAX_UINT256 ->
     transact (executeMint recipient 0) e w = (w, Revert (Panic PANIC_DIV_BY_ZERO))).
Proof.
  split; [|split; [|split]].
  - intros e w recipient amount Hmin Hb.
    cbn [guard_eval] in Hb. injection Hb as Hb.
    apply andb_prop in Hb. destruct Hb as [Hlo _]. apply N.leb_le in Hlo.
    assert (Hnz : amount <> 0) by lia.
    split; [exact Hnz|].
    intros Hrun.
    pose proof (executeMint_outcome e w recipient amount) as Hout.
    rewrite Hrun in Hout. inversion Hout as [| | |g' Hbf Hn Hr| |].
    destruct g'; cbn [guard_fault guard_eval] in Hr, Hn; try discriminate Hr.
    destruct (quote (rig e) amount) as [c|]; [|discriminate Hr].
    destruct (c * _1e18 <=? MAX_UINT256); [|discriminate Hr].
    apply N.eqb_neq in Hnz. rewrite Hnz in Hn. discriminate Hn.
  - intros e w recipient amount cost Hm Hbefore Hq Hfits Hnz.
    assert (Heval : guard_eval G_price e w amount
                    = Some (cost * _1e18 / amount <=? maxPricePerToken (config w))).
    { cbn [guard_eval]. rewrite Hq.
      apply N.leb_le in Hfits. rewrite Hfits.
      apply N.eqb_neq in Hnz. rewrite Hnz. reflexivity. }
    split.
    + intros Hrun.
      apply (executeMint_reason_is_first_failure e w recipient amount G_price) in Hrun.
      rewrite Heval in Hrun. injection Hrun as Hrun. apply N.leb_gt. exact Hrun.
    + intros Hgt. apply N.leb_gt in Hgt. rewrite Hgt in Heval.
      apply (executeMint_first_failure e w recipient amount G_price); assumption.
  - intros e w p m mx en cd g Hown Hcd Hg.
    assert (Hok : 0 <= mx /\ cd <= 86400 /\ 0 < g) by (repeat split; [lia | assumption..]).
    rewrite (transact_Ok _ _ _ _ _ (updateConfig_accepts e w p m mx 0 en cd g Hown Hok)).
    split; reflexivity.
  - intros e w recipient cost Hm Hmin Hbefore Hq Hfits.
    apply transact_Revert.
    rewrite (executeMint_first_fault e w recipient 0 G_price Hm Hbefore).
    + cbn [guard_fault]. rewrite Hq. apply N.leb_le in Hfits. rewrite Hfits. reflexivity.
    + cbn [guard_eval]. rewrite Hq. apply N.leb_le in Hfits. rewrite Hfits. reflexivity.
Qed.

Lemma C10_witness :
  transact (executeMint Scenario.user 0)
           (Scenario.call Scenario.manager 2000 gwei MockRig.initial true)
           Scenario.zero_minimum
    = (Scenario.zero_minimum, Revert (Panic PANIC_DIV_BY_ZERO)) /\
  10 * ether <> 0.
Proof.
  destruct C10_division_by_amount as (H1 & _ & _ & H4). split.
  - apply (H4 (Scenario.call Scenario.manager 2000 gwei MockRig.initial true)
              Scenario.zero_minimum Scenario.user 0).
    + split; vm_compute; reflexivity.
    + vm_compute; reflexivity.
    + intros [] Hlt; cbn in Hlt; first [lia | vm_compute; reflexivity].
    + vm_compute; reflexivity.
    + vm_compute. discriminate.
  - refine (proj1 (H1 (Scenario.call Scenario.manager 2000 gwei MockRig.initial true)
                      Scenario.funded Scenario.user (10 * ether) _ _)).
    + vm_compute; reflexivity.
    + vm_compute; reflexivity.
Defined.

(** ** C8: [withdrawETH] *)

Lemma balance_of_pay_src l src dst v :
  src <> dst -> balance_of (pay src dst v l) src = balance_of l src - v.
Proof.
  intros Hne. unfold pay, balance_of.
  rewrite lookup_insert_ne by congruence. rewrite lookup_insert_eq. reflexivity.
Qed.

Lemma balance_of_pay_dst l src dst v :
  src <> dst -> balance_of (pay src dst v l) dst = balance_of l dst + v.
Proof.
  intros Hne. unfold pay, balance_of.
  rewrite lookup_insert_eq. rewrite lookup_insert_ne by congruence. reflexivity.
Qed.

Lemma send_value_accepted {B} e w to v (k : bool -> M B) :
  to = this w \/ accepts e to v = true ->
  bind (send_value to v) k e w = k true e (set_ledger (pay (this w) to v (ledger w)) w).
Proof.
  intros Hacc. unfold send_value. steps.
  assert (Hok : (if to =? this w then true else accepts e to v) = true).
  { destruct Hacc as [->|Hacc]; [rewrite N.eqb_refl; reflexivity|].
    rewrite Hacc. destruct (to =? this w); reflexivity. }
  rewrite Hok. steps. reflexivity.
Qed.

Lemma send_value_refused {B} e w to v (k : bool -> M B) :
  to <> this w -> accepts e to v = false ->
  bind (send_value to v) k e w = k false e w.
Proof.
  intros Hne Hrej. unfold send_value. steps.
  apply N.eqb_neq in Hne. rewrite Hne, Hrej. steps. reflexivity.
Qed.

(** The amount [withdrawETH] resolves its argument to. *)
Lemma withdrawETH_paid e w to amount :
  owner_call e w -> entered w = false ->
  to <> 0 ->
  0 < (if amount =? 0 then balance_of (ledger w) (this w) else amount) ->
  (if amount =? 0 then balance_of (ledger w) (this w) else amount)
    <= balance_of (ledger w) (this w) ->
  to = this w \/
    accepts e to (if amount =? 0 then balance_of (ledger w) (this w) else amount) = true ->
  withdrawETH to amount e w =
    Ok (tt, after_withdrawal w to
              (if amount =? 0 then balance_of (ledger w) (this w) else amount)).
Proof.
  intros Hown Hfree Hto Hpos Hle Hacc. unfold owner_call in Hown.
  apply N.eqb_neq in Hto. apply N.ltb_lt in Hpos. apply N.leb_le in Hle.
  assert (Hto' : negb (to =? 0) = true) by (rewrite Hto; reflexivity).
  unfold withdrawETH. rewrite onlyRole_granted, nonReentrant_free by assumption.
  steps. rewrite send_value_accepted by (fields; exact Hacc).
  steps. unfold ret, after_withdrawal. do 2 f_equal.
  destruct w; cbn in *; subst; reflexivity.
Qed.

Lemma withdrawETH_reverts e w to amount :
  owner_call e w -> entered w = false ->
  (to = 0 ->
     withdrawETH to amount e w = Revert (Error_string "Invalid recipient")) /\
  (to <> 0 ->
   (if amount =? 0 then balance_of (ledger w) (this w) else amount) = 0 ->
     withdrawETH to amount e w = Revert (Error_string "No ETH to withdraw")) /\
  (to <> 0 ->
   balance_of (ledger w) (this w) < amount ->
     withdrawETH to amount e w = Revert (Error_string "Insufficient balance")) /\
  (to <> 0 -> to <> this w ->
   0 < (if amount =? 0 then balance_of (ledger w) (this w) else amount) ->
   (if amount =? 0 then balance_of (ledger w) (this w) else amount)
     <= balance_of (ledger w) (this w) ->
   accepts e to (if amount =? 0 then balance_of (ledger w) (this w) else amount) = false ->
     withdrawETH to amount e w = Revert (Error_string "ETH transfer failed")).
Proof.
  intros Hown Hfree. unfold owner_call in Hown.
  unfold withdrawETH. rewrite onlyRole_granted, nonReentrant_free by assumption.
  repeat split.
  - intros ->. steps. reflexivity.
  - intros Hto Hzero. apply N.eqb_neq in Hto.
    assert (Hto' : negb (to =? 0) = true) by (rewrite Hto; reflexivity).
    steps. rewrite Hzero. steps. reflexivity.
  - intros Hto Hgt. apply N.eqb_neq in Hto.
    assert (Hto' : negb (to =? 0) = true) by (rewrite Hto; reflexivity).
    assert (Hnz : (amount =? 0) = false) by (apply N.eqb_neq; lia).
    assert (Hpos : (0 <? amount) = true) by (apply N.ltb_lt; lia).
    assert (Hle : (amount <=? balance_of (ledger w) (this w)) = false)
      by (apply N.leb_gt; exact Hgt).
    steps. rewrite Hnz. steps. reflexivity.
  - intros Hto Hself Hpos Hle Hrej. apply N.eqb_neq in Hto.
    assert (Hto' : negb (to =? 0) = true) by (rewrite Hto; reflexivity).
    apply N.ltb_lt in Hpos. apply N.leb_le in Hle.
    steps. rewrite send_value_refused by (fields; assumption).
    steps. reflexivity.
Qed.

(** C8, as stated, fails: the Owner asks for the whole balance (one ether) to
    be sent to a nonzero recipient that does not take plain payments (the
    mock Rig has no [receive]); the payment fails, the call reverts with
    "ETH transfer failed" and nothing is transferred. *)
Lemma C8_counterexample :
  owner_call (Scenario.call Scenario.owner 2000 gwei MockRig.initial false)
             Scenario.funded /\
  entered Scenario.funded = false /\
  Scenario.rigAddress <> 0 /\
  balance_of (ledger Scenario.funded) (this Scenario.funded) = 1 * ether /\
  transact (withdrawETH Scenario.rigAddress 0)
           (Scenario.call Scenario.owner 2000 gwei MockRig.initial false)
           Scenario.funded
    = (Scenario.funded, Revert (Error_string "ETH transfer failed")) /\
  balance_of (ledger (fst (transact (withdrawETH Scenario.rigAddress 0)
                             (Scenario.call Scenario.owner 2000 gwei MockRig.initial false)
                             Scenario.funded)))
             Scenario.rigAddress = 0.
Proof.
  repeat split; try (vm_compute; reflexivity).
  vm_compute. discriminate.
Qed.

(** C8, amended. For every Owner call [withdrawETH(to, 0)] with a nonzero
    recipient that accepts the payment and a positive contract balance, the
    whole balance is paid to [to] and the [ETHWithdrawn] event carries the
    balance read just before the call.  A call of [withdrawETH] reverts, and
    changes nothing, if the recipient is the zero address, if the resolved
    amount is zero, if the amount exceeds the balance, or if the recipient
    refuses the payment. *)
Theorem C8_withdraw_entire_balance e w to :
  owner_call e w -> entered w = false ->
  (to <> 0 ->
   0 < balance_of (ledger w) (this w) ->
   to = this w \/ accepts e to (balance_of (ledger w) (this w)) = true ->
     transact (withdrawETH to 0) e w
       = (after_withdrawal w to (balance_of (ledger w) (this w)), Ok tt) /\
     events (fst (transact (withdrawETH to 0) e w))
       = events w ++ [ETHWithdrawn to (balance_of (ledger w) (this w))] /\
     ledger (fst (transact (withdrawETH to 0) e w))
       = pay (this w) to (balance_of (ledger w) (this w)) (ledger w) /\
     (to <> this w ->
        balance_of (ledger (fst (transact (withdrawETH to 0) e w))) (this w) = 0 /\
        balance_of (ledger (fst (transact (withdrawETH to 0) e w))) to
          = balance_of (ledger w) to + balance_of (ledger w) (this w))) /\
  (forall amount,
     to = 0 ->
     transact (withdrawETH to amount) e w
       = (w, Revert (Error_string "Invalid recipient"))) /\
  (forall amount,
     to <> 0 ->
     (if amount =? 0 then balance_of (ledger w) (this w) else amount) = 0 ->
     transact (withdrawETH to amount) e w
       = (w, Revert (Error_string "No ETH to withdraw"))) /\
  (forall amount,
     to <> 0 ->
     balance_of (ledger w) (this w) < amount ->
     transact (withdrawETH to amount) e w
       = (w, Revert (Error_string "Insufficient balance"))) /\
  (forall amount,
     to <> 0 -> to <> this w ->
     0 < (if amount =? 0 then balance_of (ledger w) (this w) else amount) ->
     (if amount =? 0 then balance_of (ledger w) (this w) else amount)
       <= balance_of (ledger w) (this w) ->
     accepts e to (if amount =? 0 then balance_of (ledger w) (this w) else amount) = false ->
     transact (withdrawETH to amount) e w
       = (w, Revert (Error_string "ETH transfer failed"))).
Proof.
  intros Hown Hfree. split; [|repeat split].
  - intros Hto Hpos Hacc.
    pose proof (withdrawETH_paid e w to 0 Hown Hfree Hto) as Hpaid.
    cbn [N.eqb] in Hpaid. specialize (Hpaid Hpos (N.le_refl _) Hacc).
    rewrite (transact_Ok _ _ _ _ _ Hpaid). cbn [fst].
    split; [reflexivity|]. split; [reflexivity|]. split; [reflexivity|].
    intros Hself. unfold after_withdrawal. fields. split.
    + rewrite balance_of_pay_src by congruence. lia.
    + rewrite balance_of_pay_dst by congruence. reflexivity.
  - intros amount Hto. apply transact_Revert.
    apply (withdrawETH_reverts e w to amount Hown Hfree). exact Hto.
  - intros amount Hto Hzero. apply transact_Revert.
    apply (withdrawETH_reverts e w to amount Hown Hfree); assumption.
  - intros amount Hto Hgt. apply transact_Revert.
    apply (withdrawETH_reverts e w to amount Hown Hfree); assumption.
  - intros amount Hto Hself Hpos Hle Hrej. apply transact_Revert.
    apply (withdrawETH_reverts e w to amount Hown Hfree); assumption.
Qed.

(** The Owner withdraws the whole ether of the funded controller. *)
Lemma C8_witness :
  events (fst (transact (withdrawETH Scenario.owner 0)
                 (Scenario.call Scenario.owner 2000 gwei MockRig.initial true)
                 Scenario.funded))
    = events Scenario.funded ++ [ETHWithdrawn Scenario.owner (1 * ether)] /\
  balance_of (ledger (fst (transact (withdrawETH Scenario.owner 0)
                             (Scenario.call Scenario.owner 2000 gwei MockRig.initial true)
                             Scenario.funded)))
             Scenario.controller = 0.
Proof.
  pose proof (C8_withdraw_entire_balance
                (Scenario.call Scenario.owner 2000 gwei MockRig.initial true)
                Scenario.funded Scenario.owner) as H.
  destruct H as (H & _).
  - vm_compute; reflexivity.
  - reflexivity.
  - destruct H as (_ & Hev & _ & Hbal).
    + vm_compute. discriminate.
    + vm_compute; reflexivity.
    + right. reflexivity.
    + split; [exact Hev|].
      refine (proj1 (Hbal _)). vm_compute. discriminate.
Defined.

(** ** What a call leaves untouched *)

Section Preservation.
Variable R : World -> World -> Prop.
Hypothesis R_refl : forall w, R w w.
Hypothesis R_trans : forall w1 w2 w3, R w1 w2 -> R w2 w3 -> R w1 w3.

Lemma preserves_ret {A} (a : A) : preserves R (ret a).
Proof. intros e w a' w' H. apply ret_Ok in H. destruct H as [_ ->]. apply R_refl. Qed.

Lemma preserves_revert {A} (err : Error) : preserves R (@revert A err).
Proof. intros e w a w' H. discriminate H. Qed.

Lemma preserves_bind {A B} (m : M A) (k : A -> M B) :
  preserves R m -> (forall a, preserves R (k a)) -> preserves R (bind m k).
Proof.
  intros Hm Hk e w b w' H. apply bind_Ok in H. destruct H as (a & w1 & H1 & H2).
  eapply R_trans; [eapply Hm | eapply Hk]; eassumption.
Qed.

Lemma preserves_sload {A} (f : World -> A) : preserves R (sload f).
Proof. intros e w a w' H. apply sload_Ok in H. destruct H as [_ ->]. apply R_refl. Qed.

Lemma preserves_env {A} (f : Env -> A) : preserves R (env f).
Proof. intros e w a w' H. apply env_Ok in H. destruct H as [_ ->]. apply R_refl. Qed.

Lemma preserves_external {A} (o : option A) : preserves R (external o).
Proof. intros e w a w' H. apply external_Ok in H. destruct H as [_ ->]. apply R_refl. Qed.

Lemma preserves_require c reason : preserves R (require c reason).
Proof. intros e w a w' H. apply require_Ok in H. destruct H as [_ ->]. apply R_refl. Qed.

Lemma preserves_self_balance : preserves R self_balance.
Proof. apply preserves_sload. Qed.

Lemma preserves_checked_add a b : preserves R (checked_add a b).
Proof.
  intros e w r w' H. apply checked_add_Ok in H. destruct H as (_ & _ & ->). apply R_refl.
Qed.

Lemma preserves_checked_mul a b : preserves R (checked_mul a b).
Proof.
  intros e w r w' H. apply checked_mul_Ok in H. destruct H as (_ & _ & ->). apply R_refl.
Qed.

Lemma preserves_checked_div a b : preserves R (checked_div a b).
Proof.
  intros e w r w' H. apply checked_div_Ok in H. destruct H as (_ & _ & ->). apply R_refl.
Qed.

Lemma preserves_sstore (f : World -> World) :
  (forall w, R w (f w)) -> preserves R (sstore f).
Proof. intros Hf e w a w' H. apply sstore_Ok in H. subst w'. apply Hf. Qed.

Lemma preserves_onlyRole {A} role (body : M A) :
  preserves R body -> preserves R (onlyRole role body).
Proof.
  intros Hb e w a w' H. apply onlyRole_Ok in H. destruct H as [_ H].
  eapply Hb. exact H.
Qed.

Lemma preserves_nonReentrant {A} (body : M A) :
  (forall b w, R w (set_entered b w)) ->
  preserves R body -> preserves R (nonReentrant body).
Proof.
  intros Hlock Hb e w a w' H. apply nonReentrant_Ok in H.
  destruct H as (_ & w1 & H & ->).
  eapply R_trans; [apply (Hlock true)|].
  eapply R_trans; [eapply Hb; exact H|]. apply Hlock.
Qed.
End Preservation.

(** Walk down a computation, leaving the stores to be justified. *)
Ltac preserve Hrefl Htrans :=
  repeat
    match goal with
    | |- preserves _ (bind _ _) => apply (preserves_bind _ Htrans); [|intros ?]
    | |- preserves _ (ret _) => apply (preserves_ret _ Hrefl)
    | |- preserves _ (revert _) => apply preserves_revert
    | |- preserves _ (sload _) => apply (preserves_sload _ Hrefl)
    | |- preserves _ (env _) => apply (preserves_env _ Hrefl)
    | |- preserves _ (external _) => apply (preserves_external _ Hrefl)
    | |- preserves _ (require _ _) => apply (preserves_require _ Hrefl)
    | |- preserves _ self_balance => apply (preserves_self_balance _ Hrefl)
    | |- preserves _ (checked_add _ _) => apply (preserves_checked_add _ Hrefl)
    | |- preserves _ (checked_mul _ _) => apply (preserves_checked_mul _ Hrefl)
    | |- preserves _ (checked_div _ _) => apply (preserves_checked_div _ Hrefl)
    | |- preserves _ (onlyRole _ _) => apply preserves_onlyRole
    | |- preserves _ (nonReentrant _) =>
        apply (preserves_nonReentrant _ Htrans); [intros ? ?; fields; try reflexivity|]
    | |- preserves _ (emit _) => apply preserves_sstore; intros ?; fields; try reflexivity
    | |- preserves _ (sstore _) => apply preserves_sstore; intros ?; fields; try reflexivity
    | |- preserves _ (if ?c then _ else _) => destruct c
    | |- preserves _ (ignore _) => unfold ignore
    end.

Lemma same_timer_refl w : same_timer w w.
Proof. reflexivity. Qed.

Lemma same_timer_trans w1 w2 w3 : same_timer w1 w2 -> same_timer w2 w3 -> same_timer w1 w3.
Proof. unfold same_timer. congruence. Qed.

(** Every function but [executeMint] leaves the cooldown timer alone. *)
Lemma dispatch_same_timer c :
  is_executeMint c = false -> preserves same_timer (dispatch c).
Proof.
  intros Hc. destruct c; try discriminate Hc; cbn [dispatch];
    unfold updateConfig, emergencyStop, withdrawETH, withdrawTokens, checkProfitability,
           getMiningStatus, receive, grantRole, revokeRole, renounceRole,
           _grantRole, _revokeRole, send_value;
    cbv zeta;
    preserve same_timer_refl same_timer_trans.
Qed.

(** The reentrancy lock is free between transactions. *)
Lemma same_lock_refl w : same_lock w w.
Proof. reflexivity. Qed.

Lemma same_lock_trans w1 w2 w3 : same_lock w1 w2 -> same_lock w2 w3 -> same_lock w1 w3.
Proof. unfold same_lock. congruence. Qed.

Lemma guarded_unlocks {A} role (body : M A) e w a w' :
  onlyRole role (nonReentrant body) e w = Ok (a, w') -> entered w' = false.
Proof.
  intros H. apply onlyRole_Ok in H. destruct H as [_ H].
  apply nonReentrant_Ok in H. destruct H as (_ & w1 & _ & ->). reflexivity.
Qed.

Lemma dispatch_same_lock c :
  is_guarded c = false -> preserves same_lock (dispatch c).
Proof.
  intros Hc. destruct c; try discriminate Hc; cbn [dispatch];
    unfold updateConfig, emergencyStop, checkProfitability, getMiningStatus, receive,
           grantRole, revokeRole, renounceRole, _grantRole, _revokeRole;
    cbv zeta;
    preserve same_lock_refl same_lock_trans.
Qed.

Lemma step_unlocked w tx : entered w = false -> entered (step w tx) = false.
Proof.
  intros Hfree. destruct tx as [e c]. unfold step, transact. cbn [fst snd].
  destruct (dispatch c e w) as [[u w']|err] eqn:Hrun; [|exact Hfree].
  cbn [fst].
  destruct (is_guarded c) eqn:Hc.
  - destruct c; try discriminate Hc; cbn [dispatch] in Hrun;
      unfold executeMint, withdrawETH, withdrawTokens in Hrun;
      exact (guarded_unlocks _ _ _ _ _ _ Hrun).
  - rewrite <- Hfree. exact (dispatch_same_lock c Hc e w u w' Hrun).
Qed.

Lemma run_unlocked txs : forall w, entered w = false -> entered (run w txs) = false.
Proof.
  induction txs as [|tx txs IH]; intros w Hfree; cbn [run fold_left].
  - exact Hfree.
  - apply IH. apply step_unlocked. exact Hfree.
Qed.

(** So is it after deployment. *)
Lemma constructor_unlocked rigAddr owner manager maxPrice minMargin e self l u w :
  constructor rigAddr owner manager maxPrice minMargin e (undeployed self l) = Ok (u, w) ->
  entered w = false.
Proof.
  intros Hrun.
  cut (preserves same_lock (constructor rigAddr owner manager maxPrice minMargin)).
  { intros Hp. exact (Hp e _ u w Hrun). }
  unfold constructor, _grantRole.
  preserve same_lock_refl same_lock_trans.
Qed.

(** ** C7: the cooldown timer *)

(** A successful [executeMint] sets the timer to the block time, which the
    cooldown check has found late enough. *)
Lemma mint_sets_timer w tx :
  is_executeMint (snd tx) = true -> succeeds w tx = true ->
  lastMintTimestamp (step w tx) = block_timestamp (fst tx) /\
  lastMintTimestamp w + cooldownPeriod (config w) <= block_timestamp (fst tx).
Proof.
  destruct tx as [e c]. unfold step, succeeds, transact. cbn [fst snd].
  intros Hc Hs.
  destruct (dispatch c e w) as [[u w']|err] eqn:Hrun; [|discriminate Hs].
  destruct c; try discriminate Hc. cbn [dispatch] in Hrun.
  apply executeMint_Ok in Hrun.
  destruct Hrun as (_ & Hpass & cost & epochId & _ & _ & _ & ->).
  split; [reflexivity|].
  pose proof (Hpass G_cooldown) as Hcd. cbn [guard_eval] in Hcd.
  destruct (_ <=? MAX_UINT256); [|discriminate Hcd].
  injection Hcd as Hcd. apply N.leb_le. exact Hcd.
Qed.

(** Any other transaction, and a failed [executeMint], leave it alone. *)
Lemma other_keeps_timer w tx :
  is_executeMint (snd tx) = false \/ succeeds w tx = false ->
  lastMintTimestamp (step w tx) = lastMintTimestamp w.
Proof.
  destruct tx as [e c]. unfold step, succeeds, transact. cbn [fst snd].
  destruct (dispatch c e w) as [[u w']|err] eqn:Hrun; [|reflexivity].
  cbn [fst snd isOk]. intros [Hc|Hs]; [|discriminate Hs].
  exact (dispatch_same_timer c Hc e w u w' Hrun).
Qed.

Lemma step_timer_monotone w tx : lastMintTimestamp w <= lastMintTimestamp (step w tx).
Proof.
  destruct (is_executeMint (snd tx)) eqn:Hc; [destruct (succeeds w tx) eqn:Hs|].
  - destruct (mint_sets_timer w tx Hc Hs) as [-> Hle]. lia.
  - rewrite other_keeps_timer by (right; exact Hs). lia.
  - rewrite other_keeps_timer by (left; exact Hc). lia.
Qed.

Lemma run_timer_monotone txs : forall w, lastMintTimestamp w <= lastMintTimestamp (run w txs).
Proof.
  induction txs as [|tx txs IH]; intros w; cbn [run fold_left].
  - lia.
  - etransitivity; [apply (step_timer_monotone w tx) | apply IH].
Qed.

(** C7. Across every sequence of transactions [lastMintTimestamp] never
    decreases, and a transaction that changes it is a successful
    [executeMint].  Consequently, whoever the callers are, a mint that succeeds
    after an earlier successful mint does so no sooner than the earlier
    mint's block time plus the cooldown period in force: at most one mint
    succeeds within a cooldown window. *)
Theorem C7_cooldown_timer :
  (forall w txs, lastMintTimestamp w <= lastMintTimestamp (run w txs)) /\
  (forall w tx,
     lastMintTimestamp (step w tx) <> lastMintTimestamp w ->
     is_executeMint (snd tx) = true /\ succeeds w tx = true) /\
  (forall w tx1 txs tx2,
     is_executeMint (snd tx1) = true -> succeeds w tx1 = true ->
     is_executeMint (snd tx2) = true -> succeeds (run (step w tx1) txs) tx2 = true ->
     block_timestamp (fst tx1) + cooldownPeriod (config (run (step w tx1) txs))
       <= block_timestamp (fst tx2)).
Proof.
  split; [|split].
  - intros w txs. apply run_timer_monotone.
  - intros w tx Hchanged.
    destruct (is_executeMint (snd tx)) eqn:Hc; [destruct (succeeds w tx) eqn:Hs|].
    + split; reflexivity.
    + exfalso. apply Hchanged. apply other_keeps_timer. right. exact Hs.
    + exfalso. apply Hchanged. apply other_keeps_timer. left. exact Hc.
  - intros w tx1 txs tx2 Hc1 Hs1 Hc2 Hs2.
    destruct (mint_sets_timer w tx1 Hc1 Hs1) as [H1 _].
    destruct (mint_sets_timer _ tx2 Hc2 Hs2) as [_ H2].
    pose proof (run_timer_monotone txs (step w tx1)) as Hmono.
    lia.
Qed.

(** The first mint of the suite at time 2000 and a second mint at time 2400,
    past the 300 seconds of cooldown. *)
Lemma C7_witness :
  2000 + cooldownPeriod (config (run (step Scenario.funded Scenario.first_mint) []))
    <= 2400.
Proof.
  refine (proj2 (proj2 C7_cooldown_timer) Scenario.funded Scenario.first_mint []
            (Scenario.call Scenario.manager 2400 gwei MockRig.initial true,
             Call_executeMint Scenario.user (10 * ether)) _ _ _ _);
    vm_compute; reflexivity.
Defined.

(** ** C4: the order of the monitor's reads *)

Import Monitor.

Section TraceOf.
Context {A : Type}.
Variables (o : Answers) (s : Stats).

Lemma trace_of_Ret (a : A) : trace_of o (Ret a) s = [].
Proof. reflexivity. Qed.

Lemma trace_of_Throw (message : string) : trace_of o (@Throw A message) s = [].
Proof. reflexivity. Qed.

Lemma trace_of_Await {X} (r : Request X) (k : string + X -> Prog A) :
  trace_of o (Await r k) s = Requested r :: trace_of o (k (answer o r)) s.
Proof.
  unfold trace_of. cbn [exec].
  destruct (exec o (k (answer o r)) s) as [[tr s'] out]. reflexivity.
Qed.

Lemma trace_of_ConsoleLog (l : Line) (k : Prog A) :
  trace_of o (ConsoleLog l k) s = Printed l :: trace_of o k s.
Proof.
  unfold trace_of. cbn [exec].
  destruct (exec o k s) as [[tr s'] out]. reflexivity.
Qed.

Lemma trace_of_Read (k : Stats -> Prog A) : trace_of o (Read k) s = trace_of o (k s) s.
Proof. reflexivity. Qed.

Lemma trace_of_Update (f : Stats -> Stats) (k : Prog A) :
  trace_of o (Update f k) s = trace_of o k (f s).
Proof. reflexivity. Qed.
End TraceOf.

(** The catch block prints one line and asks the controller nothing. *)
Lemma trace_of_handler o s message :
  exists l,
    trace_of o
      (Update incr_errors
         (if includes message "Auto mining disabled" then
            ConsoleLog Line_caught_disabled (Ret tt)
          else if includes message "Cooldown active" then
            ConsoleLog Line_caught_cooldown (Ret tt)
          else if includes message "Price too high" then
            ConsoleLog Line_caught_price (Ret tt)
          else if includes message "Insufficient ETH balance" then
            ConsoleLog Line_caught_balance (Ret tt)
          else ConsoleLog (Line_caught_other message) (Ret tt))) s
    = [Printed l].
Proof.
  rewrite trace_of_Update.
  repeat match goal with
         | |- context [if ?c then _ else _] => destruct c
         end;
    rewrite trace_of_ConsoleLog, trace_of_Ret; eexists; reflexivity.
Qed.

Import MonitorRun.

Section ExecOf.
Context {A : Type}.
Variables (o : Answers) (s : Stats).

Lemma stats_of_Ret (a : A) : stats_of o (Ret a) s = s.
Proof. reflexivity. Qed.

Lemma stats_of_Throw (message : string) : stats_of o (@Throw A message) s = s.
Proof. reflexivity. Qed.

Lemma stats_of_Await {X} (r : Request X) (k : string + X -> Prog A) :
  stats_of o (Await r k) s = stats_of o (k (answer o r)) s.
Proof.
  unfold stats_of. cbn [exec].
  destruct (exec o (k (answer o r)) s) as [[tr s'] out]. reflexivity.
Qed.

Lemma stats_of_ConsoleLog (l : Line) (k : Prog A) :
  stats_of o (ConsoleLog l k) s = stats_of o k s.
Proof.
  unfold stats_of. cbn [exec].
  destruct (exec o k s) as [[tr s'] out]. reflexivity.
Qed.

Lemma stats_of_Read (k : Stats -> Prog A) : stats_of o (Read k) s = stats_of o (k s) s.
Proof. reflexivity. Qed.

Lemma stats_of_Update (f : Stats -> Stats) (k : Prog A) :
  stats_of o (Update f k) s = stats_of o k (f s).
Proof. reflexivity. Qed.

Lemma outcome_of_Ret (a : A) : outcome_of o (Ret a) s = inr a.
Proof. reflexivity. Qed.

Lemma outcome_of_Throw (message : string) : outcome_of o (@Throw A message) s = inl message.
Proof. reflexivity. Qed.

Lemma outcome_of_Await {X} (r : Request X) (k : string + X -> Prog A) :
  outcome_of o (Await r k) s = outcome_of o (k (answer o r)) s.
Proof.
  unfold outcome_of. cbn [exec].
  destruct (exec o (k (answer o r)) s) as [[tr s'] out]. reflexivity.
Qed.

Lemma outcome_of_ConsoleLog (l : Line) (k : Prog A) :
  outcome_of o (ConsoleLog l k) s = outcome_of o k s.
Proof.
  unfold outcome_of. cbn [exec].
  destruct (exec o k s) as [[tr s'] out]. reflexivity.
Qed.

Lemma outcome_of_Read (k : Stats -> Prog A) :
  outcome_of o (Read k) s = outcome_of o (k s) s.
Proof. reflexivity. Qed.

Lemma outcome_of_Update (f : Stats -> Stats) (k : Prog A) :
  outcome_of o (Update f k) s = outcome_of o k (f s).
Proof. reflexivity. Qed.
End ExecOf.

(** The catch block: one error counted, one line printed, nothing thrown. *)
Lemma handler_run o s message :
  trace_of o
    (Update incr_errors
       (if includes message "Auto mining disabled" then
          ConsoleLog Line_caught_disabled (Ret tt)
        else if includes message "Cooldown active" then
          ConsoleLog Line_caught_cooldown (Ret tt)
        else if includes message "Price too high" then
          ConsoleLog Line_caught_price (Ret tt)
        else if includes message "Insufficient ETH balance" then
          ConsoleLog Line_caught_balance (Ret tt)
        else ConsoleLog (Line_caught_other message) (Ret tt))) s
    = [Printed (catch_line message)] /\
  stats_of o
    (Update incr_errors
       (if includes message "Auto mining disabled" then
          ConsoleLog Line_caught_disabled (Ret tt)
        else if includes message "Cooldown active" then
          ConsoleLog Line_caught_cooldown (Ret tt)
        else if includes message "Price too high" then
          ConsoleLog Line_caught_price (Ret tt)
        else if includes message "Insufficient ETH balance" then
          ConsoleLog Line_caught_balance (Ret tt)
        else ConsoleLog (Line_caught_other message) (Ret tt))) s
    = incr_errors s /\
  outcome_of o
    (Update incr_errors
       (if includes message "Auto mining disabled" then
          ConsoleLog Line_caught_disabled (Ret tt)
        else if includes message "Cooldown active" then
          ConsoleLog Line_caught_cooldown (Ret tt)
        else if includes message "Price too high" then
          ConsoleLog Line_caught_price (Ret tt)
        else if includes message "Insufficient ETH balance" then
          ConsoleLog Line_caught_balance (Ret tt)
        else ConsoleLog (Line_caught_other message) (Ret tt))) s
    = inr tt.
Proof.
  rewrite trace_of_Update, stats_of_Update, outcome_of_Update. unfold catch_line.
  repeat match goal with
         | |- context [if ?c then _ else _] => destruct c
         end;
    rewrite trace_of_ConsoleLog, stats_of_ConsoleLog, outcome_of_ConsoleLog;
    repeat split.
Qed.

(** One step of a tick, for its trace, its counters and its outcome. *)
Ltac tock :=
  repeat first
    [ rewrite (proj1 (handler_run _ _ _))
    | rewrite (proj1 (proj2 (handler_run _ _ _)))
    | rewrite (proj2 (proj2 (handler_run _ _ _)))
    | rewrite trace_of_Await | rewrite trace_of_ConsoleLog | rewrite trace_of_Read
    | rewrite trace_of_Update | rewrite trace_of_Ret | rewrite trace_of_Throw
    | rewrite stats_of_Await | rewrite stats_of_ConsoleLog | rewrite stats_of_Read
    | rewrite stats_of_Update | rewrite stats_of_Ret | rewrite stats_of_Throw
    | rewrite outcome_of_Await | rewrite outcome_of_ConsoleLog | rewrite outcome_of_Read
    | rewrite outcome_of_Update | rewrite outcome_of_Ret | rewrite outcome_of_Throw
    | progress cbn [try_catch await answer negb orb andb submissions submitted] ].

(** C4, as stated, fails: on a tick where mining is enabled and [canMintNow]
    is false the monitor has already read [checkProfitability] when it skips. *)
Lemma C4_counterexample :
  isEnabled (mkStatus true false 500000000000000 2300 (1 * ether) 1) = true /\
  canMintNow (mkStatus true false 500000000000000 2300 (1 * ether) 1) = false /\
  trace_of (mkAnswers (inr (mkStatus true false 500000000000000 2300 (1 * ether) 1))
                      (inr (true, 500000000000000, 100 * ether))
                      (fun _ _ _ => inl "not submitted")
                      (fun _ => inl "not submitted"))
           (checkAndMine Scenario.user) (mkStats 0 0 0)
    = [Requested GetMiningStatus; Requested CheckProfitability;
       Printed (Line_check 1 500000000000000 1 (1 * ether));
       Printed (Line_cooldown 2300)] /\
  In (Requested CheckProfitability)
     (trace_of (mkAnswers (inr (mkStatus true false 500000000000000 2300 (1 * ether) 1))
                          (inr (true, 500000000000000, 100 * ether))
                          (fun _ _ _ => inl "not submitted")
                          (fun _ => inl "not submitted"))
               (checkAndMine Scenario.user) (mkStats 0 0 0)).
Proof.
  split; [reflexivity|]. split; [reflexivity|]. split; [vm_compute; reflexivity|].
  right. left. reflexivity.
Qed.

(** C4, amended. On every tick where [getMiningStatus] answers with mining
    enabled, the monitor reads [checkProfitability] right after it, before it
    tests [canMintNow].  When [canMintNow] is false these two reads are all
    it asks of the controller and no [executeMint] is submitted: if the
    profitability read answers, the tick prints the check line, logs the
    cooldown with the next mint time and skips, counting the check alone;
    if that read rejects, the tick ends in the catch block, which prints the
    line of the rejection and counts an error, and no cooldown is logged. *)
Theorem C4_profitability_read_before_cooldown_test o s recipient st :
  on_getMiningStatus o = inr st ->
  isEnabled st = true ->
  (exists rest,
     trace_of o (checkAndMine recipient) s
       = Requested GetMiningStatus :: Requested CheckProfitability :: rest) /\
  (canMintNow st = false ->
     requests (trace_of o (checkAndMine recipient) s)
       = [Requested GetMiningStatus; Requested CheckProfitability] /\
     submissions (trace_of o (checkAndMine recipient) s) = [] /\
     outcome_of o (checkAndMine recipient) s = inr tt /\
     match on_checkProfitability o with
     | inr (isProfitable, price, recommended) =>
         trace_of o (checkAndMine recipient) s
           = [Requested GetMiningStatus; Requested CheckProfitability;
              Printed (Line_check (checksPerformed s + 1) price (statusEpochId st)
                                  (ethBalance st));
              Printed (Line_cooldown (nextMintTime st))] /\
         stats_of o (checkAndMine recipient) s = incr_checks s
     | inl message =>
         trace_of o (checkAndMine recipient) s
           = [Requested GetMiningStatus; Requested CheckProfitability;
              Printed (catch_line message)] /\
         stats_of o (checkAndMine recipient) s = incr_errors (incr_checks s)
     end).
Proof.
  intros Hst Hen. split; [eexists|intros Hcan]; unfold checkAndMine.
  - tock. rewrite Hst. tock. rewrite Hen. tock. reflexivity.
  - tock. rewrite Hst. tock. rewrite Hen. tock.
    destruct (on_checkProfitability o) as [message|[[isProfitable price] recommended]];
      tock; [|rewrite Hcan; tock]; repeat split.
Qed.

Lemma C4_witness :
  requests
    (trace_of (mkAnswers (inr (mkStatus true false 500000000000000 2300 (1 * ether) 1))
                         (inr (true, 500000000000000, 100 * ether))
                         (fun _ _ _ => inl "not submitted")
                         (fun _ => inl "not submitted"))
              (checkAndMine Scenario.user) (mkStats 0 0 0))
    = [Requested GetMiningStatus; Requested CheckProfitability].
Proof.
  exact (proj1 (proj2 (C4_profitability_read_before_cooldown_test
                  (mkAnswers (inr (mkStatus true false 500000000000000 2300 (1 * ether) 1))
                             (inr (true, 500000000000000, 100 * ether))
                             (fun _ _ _ => inl "not submitted")
                             (fun _ => inl "not submitted"))
                  (mkStats 0 0 0) Scenario.user
                  (mkStatus true false 500000000000000 2300 (1 * ether) 1)
                  eq_refl eq_refl) eq_refl)).
Defined.

(** ** What the monitor submits *)

Lemma submissions_handler o s message :
  submissions
    (trace_of o
      (Update incr_errors
         (if includes message "Auto mining disabled" then
            ConsoleLog Line_caught_disabled (Ret tt)
          else if includes message "Cooldown active" then
            ConsoleLog Line_caught_cooldown (Ret tt)
          else if includes message "Price too high" then
            ConsoleLog Line_caught_price (Ret tt)
          else if includes message "Insufficient ETH balance" then
            ConsoleLog Line_caught_balance (Ret tt)
          else ConsoleLog (Line_caught_other message) (Ret tt))) s)
    = [].
Proof. destruct (trace_of_handler o s message) as [l ->]. reflexivity. Qed.

Ltac tick :=
  repeat first
    [ rewrite submissions_handler
    | rewrite trace_of_Await | rewrite trace_of_ConsoleLog | rewrite trace_of_Read
    | rewrite trace_of_Update | rewrite trace_of_Ret | rewrite trace_of_Throw
    | progress cbn [try_catch await answer negb orb submissions submitted] ].

(** A tick submits at most one [executeMint]: to the configured recipient,
    with the 500000 gas limit, for the amount [checkProfitability] recommended,
    which is then nonzero and flagged profitable. *)
Lemma checkAndMine_submissions o s recipient :
  submissions (trace_of o (checkAndMine recipient) s) = [] \/
  exists price amount,
    on_checkProfitability o = inr (true, price, amount) /\
    amount <> 0 /\
    submissions (trace_of o (checkAndMine recipient) s) = [(recipient, amount, 500000)].
Proof.
  unfold checkAndMine. tick.
  destruct (on_getMiningStatus o) as [message|st]; tick; [left; reflexivity|].
  destruct (isEnabled st); tick; [|left; reflexivity].
  destruct (on_checkProfitability o) as [message|[[isProfitable price] amount]];
    tick; [left; reflexivity|].
  destruct (canMintNow st); tick; [|left; reflexivity].
  destruct isProfitable; tick; [|left; reflexivity].
  destruct (amount =? 0) eqn:Hnz; tick; [left; reflexivity|].
  apply N.eqb_neq in Hnz.
  right. exists price, amount. split; [reflexivity|]. split; [exact Hnz|].
  destruct (on_executeMint o recipient amount 500000) as [message|tx]; tick; [reflexivity|].
  destruct (on_wait o tx) as [message|receipt]; tick; [reflexivity|].
  destruct (status receipt =? 1); tick; [|reflexivity].
  destruct (find is_TokensMinted (logs receipt)) as [[event|]|]; tick; reflexivity.
Qed.

(** ** C9: the recommended amount is within the mint bounds *)

(** C9. Under a configuration with [maxMintAmount >= minMintAmount], a
    nonzero [recommendedAmount] returned by [checkProfitability] is
    [maxMintAmount]; it lies within [minMintAmount .. maxMintAmount], so a
    call of [executeMint] with it, under that configuration, never reverts
    with "Amount out of bounds".  The amount a monitor tick submits is the
    recommended amount it has read, so neither does the monitor's call. *)
Theorem C9_recommended_amount_in_bounds e w isProfitable price recommended w1 :
  minMintAmount (config w) <= maxMintAmount (config w) ->
  checkProfitability e w = Ok ((isProfitable, price, recommended), w1) ->
  recommended <> 0 ->
  recommended = maxMintAmount (config w) /\
  (minMintAmount (config w) <= recommended <= maxMintAmount (config w)) /\
  (forall e' w' recipient,
     config w' = config w ->
     guard_eval G_bounds e' w' recommended = Some true /\
     executeMint recipient recommended e' w'
       <> Revert (Error_string "Amount out of bounds")) /\
  (forall o s recipient sub e' w',
     on_checkProfitability o = inr (isProfitable, price, recommended) ->
     In sub (submissions (trace_of o (checkAndMine recipient) s)) ->
     config w' = config w ->
     sub = (recipient, recommended, 500000) /\
     executeMint (fst (fst sub)) (snd (fst sub)) e' w'
       <> Revert (Error_string "Amount out of bounds")).
Proof.
  intros Hcfg Hrun Hnz.
  assert (Hrec : recommended = maxMintAmount (config w)).
  { unfold checkProfitability in Hrun. inv_M.
    - match goal with H : (_, _, _) = (_, _, _) |- _ => injection H as -> -> -> end.
      congruence.
    - match goal with H : (_, _, _) = (_, _, _) |- _ => injection H as -> -> -> end.
      destruct (_ <=? _); [reflexivity | congruence]. }
  split; [exact Hrec|]. split; [lia|].
  assert (Hcall : forall e' w' recipient,
            config w' = config w ->
            guard_eval G_bounds e' w' recommended = Some true /\
            executeMint recipient recommended e' w'
              <> Revert (Error_string "Amount out of bounds")).
  { intros e' w' recipient Hsame.
    assert (Hb : guard_eval G_bounds e' w' recommended = Some true).
    { cbn [guard_eval]. rewrite Hsame, Hrec. f_equal.
      apply andb_true_intro. split; apply N.leb_le; lia. }
    split; [exact Hb|].
    intros Hbad.
    apply (executeMint_reason_is_first_failure e' w' recipient recommended G_bounds) in Hbad.
    congruence. }
  split; [exact Hcall|].
  intros o s recipient sub e' w' Hans Hin Hsame.
  destruct (checkAndMine_submissions o s recipient)
    as [Hnone|(p & a & Hans' & _ & Hone)].
  - rewrite Hnone in Hin. destruct Hin.
  - rewrite Hone in Hin. destruct Hin as [<-|[]].
    rewrite Hans in Hans'. injection Hans' as _ _ <-.
    split; [reflexivity|]. cbn [fst snd].
    apply (Hcall e' w' recipient Hsame).
Qed.

Lemma C9_witness :
  100 * ether = maxMintAmount (config Scenario.funded) /\
  executeMint Scenario.user (100 * ether)
              (Scenario.call Scenario.manager 2000 gwei MockRig.initial true)
              Scenario.funded
    <> Revert (Error_string "Amount out of bounds").
Proof.
  pose proof (C9_recommended_amount_in_bounds
                (Scenario.call Scenario.user 2000 gwei MockRig.initial true)
                Scenario.funded true 500000000000000 (100 * ether) Scenario.funded) as H.
  destruct H as (H1 & _ & H3 & _).
  - vm_compute. discriminate.
  - reflexivity.
  - discriminate.
  - split; [exact H1|].
    exact (proj2 (H3 (Scenario.call Scenario.manager 2000 gwei MockRig.initial true)
                     Scenario.funded Scenario.user eq_refl)).
Defined.


(** * Further properties of the contract *)

(** ** Access control *)

(** X1. Each of [executeMint] (Manager) and [updateConfig], [emergencyStop],
    [withdrawETH], [withdrawTokens] (Owner) reverts with
    [AccessControlUnauthorizedAccount] for a caller that lacks the role,
    whatever its arguments, the price, the cooldown or the balance, and
    leaves the state as it was. *)
Theorem X1_role_gate e w c role :
  required_role c = Some role ->
  hasRole role (msg_sender e) w = false ->
  transact (dispatch c) e w
    = (w, Revert (AccessControlUnauthorizedAccount (msg_sender e) role)).
Proof.
  intros Hc Hno. apply transact_Revert.
  destruct c; cbn [required_role] in Hc; try discriminate Hc;
    injection Hc as <-; cbn [dispatch];
    unfold executeMint, updateConfig, emergencyStop, withdrawETH, withdrawTokens;
    apply onlyRole_denied; exact Hno.
Qed.

(** The Manager of the test deployment cannot withdraw. *)
Lemma X1_witness :
  transact (dispatch (Call_withdrawETH Scenario.manager 0))
           (Scenario.call Scenario.manager 2000 gwei MockRig.initial true)
           Scenario.funded
    = (Scenario.funded,
       Revert (AccessControlUnauthorizedAccount Scenario.manager OWNER_ROLE)).
Proof.
  refine (X1_role_gate (Scenario.call Scenario.manager 2000 gwei MockRig.initial true)
                       Scenario.funded (Call_withdrawETH Scenario.manager 0) OWNER_ROLE _ _).
  - reflexivity.
  - vm_compute; reflexivity.
Defined.

(** ** [emergencyStop] *)

Lemma emergencyStop_run e w :
  owner_call e w ->
  emergencyStop e w
    = Ok (tt, log (EmergencyStop (msg_sender e)) (set_config (stopped (config w)) w)).
Proof.
  intros Hown. unfold owner_call in Hown.
  unfold emergencyStop. rewrite onlyRole_granted by assumption.
  steps. reflexivity.
Qed.

(** X2. A call of [emergencyStop] by an Owner always succeeds: it switches
    [autoMiningEnabled] off, keeps every other field of the configuration,
    the cooldown timer, the roles and the ether, and logs
    [EmergencyStop(sender)].  Stopping an already stopped controller changes
    nothing but the log. *)
Theorem X2_emergencyStop_effect e w :
  owner_call e w ->
  transact emergencyStop e w
    = (log (EmergencyStop (msg_sender e)) (set_config (stopped (config w)) w), Ok tt) /\
  autoMiningEnabled (config (fst (transact emergencyStop e w))) = false /\
  same_bounds w (fst (transact emergencyStop e w)) /\
  maxPricePerToken (config (fst (transact emergencyStop e w)))
    = maxPricePerToken (config w) /\
  lastMintTimestamp (fst (transact emergencyStop e w)) = lastMintTimestamp w /\
  ledger (fst (transact emergencyStop e w)) = ledger w /\
  roles (fst (transact emergencyStop e w)) = roles w /\
  events (fst (transact emergencyStop e w)) = events w ++ [EmergencyStop (msg_sender e)] /\
  (autoMiningEnabled (config w) = false ->
   config (fst (transact emergencyStop e w)) = config w).
Proof.
  intros Hown. rewrite (transact_Ok _ _ _ _ _ (emergencyStop_run e w Hown)). cbn [fst].
  repeat split.
  destruct (config w) as [p m mx mn en cd g]. cbn. intros ->. reflexivity.
Qed.

Lemma X2_witness :
  autoMiningEnabled
    (config (fst (transact emergencyStop
                    (Scenario.call Scenario.owner 2000 gwei MockRig.initial true)
                    Scenario.funded))) = false.
Proof.
  refine (proj1 (proj2 (X2_emergencyStop_effect
            (Scenario.call Scenario.owner 2000 gwei MockRig.initial true)
            Scenario.funded _))).
  vm_compute; reflexivity.
Defined.

(** Every function but [updateConfig] leaves a stopped controller stopped. *)
Lemma stays_stopped_refl w : stays_stopped w w.
Proof. intros H. exact H. Qed.

Lemma stays_stopped_trans w1 w2 w3 :
  stays_stopped w1 w2 -> stays_stopped w2 w3 -> stays_stopped w1 w3.
Proof. unfold stays_stopped. auto. Qed.

Lemma dispatch_stays_stopped c :
  is_updateConfig c = false -> preserves stays_stopped (dispatch c).
Proof.
  intros Hc. destruct c; try discriminate Hc; cbn [dispatch];
    unfold executeMint, emergencyStop, withdrawETH, withdrawTokens, checkProfitability,
           getMiningStatus, receive, grantRole, revokeRole, renounceRole,
           _grantRole, _revokeRole, send_value;
    cbv zeta;
    preserve stays_stopped_refl stays_stopped_trans;
    try (intros H; exact H); try (intros _; reflexivity).
Qed.

Lemma step_stays_stopped w tx :
  is_updateConfig (snd tx) = false ->
  autoMiningEnabled (config w) = false ->
  autoMiningEnabled (config (step w tx)) = false.
Proof.
  destruct tx as [e c]. unfold step, transact. cbn [fst snd]. intros Hc Hoff.
  destruct (dispatch c e w) as [[u w']|err] eqn:Hrun; [|exact Hoff].
  exact (dispatch_stays_stopped c Hc e w u w' Hrun Hoff).
Qed.

Lemma stopped_mint_fails w tx :
  autoMiningEnabled (config w) = false ->
  is_executeMint (snd tx) = true ->
  succeeds w tx = false.
Proof.
  destruct tx as [e c]. unfold succeeds, transact. cbn [fst snd]. intros Hoff Hc.
  destruct (dispatch c e w) as [[u w']|err] eqn:Hrun; [|reflexivity].
  destruct c; try discriminate Hc. cbn [dispatch] in Hrun.
  apply executeMint_Ok in Hrun. destruct Hrun as (_ & Hpass & _).
  pose proof (Hpass G_enabled) as Hen. cbn [guard_eval] in Hen. congruence.
Qed.

(** X3. Once mining is switched off it stays off through every sequence of
    transactions that contains no [updateConfig]: no [executeMint] succeeds,
    whoever calls it, and the cooldown timer does not move. *)
Theorem X3_stopped_until_reconfigured txs :
  forall w,
    autoMiningEnabled (config w) = false ->
    Forall (fun tx => is_updateConfig (snd tx) = false) txs ->
    autoMiningEnabled (config (run w txs)) = false /\
    lastMintTimestamp (run w txs) = lastMintTimestamp w /\
    (forall tx, is_executeMint (snd tx) = true -> succeeds (run w txs) tx = false).
Proof.
  induction txs as [|tx txs IH]; intros w Hoff Hall; cbn [run fold_left].
  - repeat split; [exact Hoff|].
    intros tx Hc. apply stopped_mint_fails; assumption.
  - apply Forall_cons_iff in Hall. destruct Hall as [Htx Hall].
    pose proof (step_stays_stopped w tx Htx Hoff) as Hoff'.
    destruct (IH (step w tx) Hoff' Hall) as (H1 & H2 & H3).
    split; [exact H1|]. split; [|exact H3].
    unfold run in H2. rewrite H2.
    apply other_keeps_timer.
    destruct (is_executeMint (snd tx)) eqn:Hc; [right|left; reflexivity].
    apply stopped_mint_fails; assumption.
Qed.

(** After the Owner's stop a deposit and a status read do not bring mining
    back: the Manager's mint ten minutes later fails. *)
Lemma X3_witness :
  succeeds
    (run (step Scenario.funded
               (Scenario.call Scenario.owner 2000 gwei MockRig.initial true,
                Call_emergencyStop))
         [(Scenario.call Scenario.owner 2100 gwei MockRig.initial true,
           Call_receive (1 * ether));
          (Scenario.call Scenario.user 2200 gwei MockRig.initial true,
           Call_getMiningStatus)])
    (Scenario.call Scenario.manager 2600 gwei MockRig.initial true,
     Call_executeMint Scenario.user (10 * ether)) = false.
Proof.
  refine (proj2 (proj2 (X3_stopped_until_reconfigured _ _ _ _)) _ _).
  - vm_compute; reflexivity.
  - repeat constructor.
  - reflexivity.
Defined.

(** ** The configuration bounds *)

Lemma same_bounds_refl w : same_bounds w w.
Proof. repeat split. Qed.

Lemma same_bounds_trans w1 w2 w3 : same_bounds w1 w2 -> same_bounds w2 w3 -> same_bounds w1 w3.
Proof.
  unfold same_bounds. intros (A1 & A2 & A3 & A4) (B1 & B2 & B3 & B4).
  repeat split; congruence.
Qed.

Lemma dispatch_same_bounds c :
  is_updateConfig c = false -> preserves same_bounds (dispatch c).
Proof.
  intros Hc. destruct c; try discriminate Hc; cbn [dispatch];
    unfold executeMint, emergencyStop, withdrawETH, withdrawTokens, checkProfitability,
           getMiningStatus, receive, grantRole, revokeRole, renounceRole,
           _grantRole, _revokeRole, send_value;
    cbv zeta;
    preserve same_bounds_refl same_bounds_trans;
    repeat split.
Qed.

Lemma updateConfig_Ok e w p m mx mn en cd g u w' :
  updateConfig p m mx mn en cd g e w = Ok (u, w') ->
  owner_call e w /\
  config_ok (mkConfig p m mx mn en cd g) /\
  w' = log (ConfigUpdated p m mx mn en cd g) (set_config (mkConfig p m mx mn en cd g) w).
Proof.
  intros H. unfold updateConfig in H. inv_M.
  split; [assumption|]. split; [|reflexivity].
  unfold config_ok. cbn.
  repeat match goal with
         | H : (_ <=? _) = true |- _ => apply N.leb_le in H
         | H : (_ <? _) = true |- _ => apply N.ltb_lt in H
         end.
  repeat split; assumption.
Qed.

Lemma step_config_ok w tx : config_ok (config w) -> config_ok (config (step w tx)).
Proof.
  destruct tx as [e c]. unfold step, transact. cbn [fst snd]. intros Hok.
  destruct (dispatch c e w) as [[u w']|err] eqn:Hrun; [|exact Hok].
  cbn [fst]. destruct (is_updateConfig c) eqn:Hc.
  - destruct c; try discriminate Hc. cbn [dispatch] in Hrun.
    apply updateConfig_Ok in Hrun. destruct Hrun as (_ & Hnew & ->). exact Hnew.
  - destruct (dispatch_same_bounds c Hc e w u w' Hrun) as (H1 & H2 & H3 & H4).
    unfold config_ok in *. rewrite H1, H2, H3, H4. exact Hok.
Qed.

(** X4. The bounds [updateConfig] validates are an invariant of the
    contract: the constructor's defaults satisfy
    [maxMintAmount >= minMintAmount], [cooldownPeriod <= 1 days] and
    [maxGasPrice > 0], and no sequence of transactions breaks them. *)
Theorem X4_config_bounds_invariant :
  (forall rigAddr owner manager maxPrice minMargin e self l u w,
     constructor rigAddr owner manager maxPrice minMargin e (undeployed self l) = Ok (u, w) ->
     config_ok (config w)) /\
  (forall txs w, config_ok (config w) -> config_ok (config (run w txs))).
Proof.
  split.
  - intros rigAddr owner manager maxPrice minMargin e self l u w Hrun.
    unfold constructor, _grantRole in Hrun. inv_M; cbn; unfold config_ok; cbn;
      repeat split; vm_compute; first [discriminate | reflexivity].
  - induction txs as [|tx txs IH]; intros w Hok; cbn [run fold_left].
    + exact Hok.
    + apply IH. apply step_config_ok. exact Hok.
Qed.

Lemma X4_witness :
  config_ok (config Scenario.deployed) /\
  config_ok (config (run Scenario.deployed
                         [(Scenario.call Scenario.owner 1000 gwei MockRig.initial true,
                           Call_receive (1 * ether));
                          Scenario.first_mint])).
Proof.
  assert (H : config_ok (config Scenario.deployed)).
  { refine (proj1 X4_config_bounds_invariant Scenario.rigAddress Scenario.owner
              Scenario.manager Scenario.MAX_PRICE Scenario.MIN_MARGIN
              (Scenario.call Scenario.owner 1000 gwei MockRig.initial true)
              Scenario.controller Scenario.genesis tt Scenario.deployed _).
    vm_compute; reflexivity. }
  split; [exact H|].
  exact (proj2 X4_config_bounds_invariant _ _ H).
Defined.

(** ** The constructor *)

Lemma hasRole_absent role a w : (role, a) ∉ roles w -> hasRole role a w = false.
Proof. intros H. unfold hasRole. apply bool_decide_eq_false_2. exact H. Qed.

Lemma constructor_run rigAddr owner manager maxPrice minMargin e self l :
  rigAddr <> 0 -> owner <> 0 -> manager <> 0 ->
  constructor rigAddr owner manager maxPrice minMargin e (undeployed self l)
    = Ok (tt,
          mkWorld self rigAddr
            (mkConfig maxPrice minMargin (100 * ether) (1 * ether) true 300 (10 * gwei))
            0
            ({[ (MANAGER_ROLE, manager) ]} ∪
             ({[ (OWNER_ROLE, owner) ]} ∪ ({[ (DEFAULT_ADMIN_ROLE, owner) ]} ∪ ∅)))
            false l
            [RoleGranted DEFAULT_ADMIN_ROLE owner (msg_sender e);
             RoleGranted OWNER_ROLE owner (msg_sender e);
             RoleGranted MANAGER_ROLE manager (msg_sender e)]).
Proof.
  intros Hr Ho Hm.
  apply N.eqb_neq in Hr, Ho, Hm.
  assert (Hr' : negb (rigAddr =? 0) = true) by (rewrite Hr; reflexivity).
  assert (Ho' : negb (owner =? 0) = true) by (rewrite Ho; reflexivity).
  assert (Hm' : negb (manager =? 0) = true) by (rewrite Hm; reflexivity).
  unfold constructor, _grantRole, undeployed. steps.
  rewrite hasRole_absent by (fields; set_solver). steps.
  rewrite hasRole_absent by (fields; set_solver). steps.
  rewrite hasRole_absent by (fields; set_solver). steps.
  reflexivity.
Qed.

(** X5. The constructor rejects a zero Rig, owner or manager address, in
    that order, each with its own reason.  Otherwise it deploys a controller
    that has never minted, bound to the given Rig, in which the owner holds
    exactly the admin and Owner roles and the manager exactly the Manager
    role: nobody else holds a role, and a manager different from the owner
    cannot act as Owner, nor the owner as Manager. *)
Theorem X5_constructor rigAddr owner manager maxPrice minMargin e self l :
  (rigAddr = 0 ->
     constructor rigAddr owner manager maxPrice minMargin e (undeployed self l)
       = Revert (Error_string "Invalid rig address")) /\
  (rigAddr <> 0 -> owner = 0 ->
     constructor rigAddr owner manager maxPrice minMargin e (undeployed self l)
       = Revert (Error_string "Invalid owner")) /\
  (rigAddr <> 0 -> owner <> 0 -> manager = 0 ->
     constructor rigAddr owner manager maxPrice minMargin e (undeployed self l)
       = Revert (Error_string "Invalid manager")) /\
  (rigAddr <> 0 -> owner <> 0 -> manager <> 0 ->
     exists w,
       constructor rigAddr owner manager maxPrice minMargin e (undeployed self l)
         = Ok (tt, w) /\
       franchiserRig w = rigAddr /\
       lastMintTimestamp w = 0 /\
       ledger w = l /\
       maxPricePerToken (config w) = maxPrice /\
       autoMiningEnabled (config w) = true /\
       (forall role a,
          hasRole role a w = true <->
          (a = owner /\ (role = DEFAULT_ADMIN_ROLE \/ role = OWNER_ROLE)) \/
          (a = manager /\ role = MANAGER_ROLE)) /\
       (manager <> owner ->
          hasRole OWNER_ROLE manager w = false /\ hasRole MANAGER_ROLE owner w = false)).
Proof.
  split; [|split; [|split]].
  - intros ->. reflexivity.
  - intros Hr ->. apply N.eqb_neq in Hr.
    unfold constructor. rewrite Hr. reflexivity.
  - intros Hr Ho ->. apply N.eqb_neq in Hr, Ho.
    unfold constructor. rewrite Hr, Ho. reflexivity.
  - intros Hr Ho Hm. eexists. split; [apply constructor_run; assumption|].
    cbn [franchiserRig lastMintTimestamp ledger config maxPricePerToken autoMiningEnabled].
    repeat (split; [reflexivity|]).
    assert (Hroles : forall role a,
              hasRole role a
                (mkWorld self rigAddr
                   (mkConfig maxPrice minMargin (100 * ether) (1 * ether) true 300 (10 * gwei))
                   0
                   ({[ (MANAGER_ROLE, manager) ]} ∪
                    ({[ (OWNER_ROLE, owner) ]} ∪ ({[ (DEFAULT_ADMIN_ROLE, owner) ]} ∪ ∅)))
                   false l
                   [RoleGranted DEFAULT_ADMIN_ROLE owner (msg_sender e);
                    RoleGranted OWNER_ROLE owner (msg_sender e);
                    RoleGranted MANAGER_ROLE manager (msg_sender e)]) = true <->
              (a = owner /\ (role = DEFAULT_ADMIN_ROLE \/ role = OWNER_ROLE)) \/
              (a = manager /\ role = MANAGER_ROLE)).
    { intros role a. unfold hasRole. cbn [roles]. rewrite bool_decide_eq_true.
      rewrite !elem_of_union, !elem_of_singleton, elem_of_empty.
      split.
      - intros [H|[H|[H|[]]]]; injection H as -> ->; auto.
      - intros [[-> [->| ->]]|[-> ->]]; auto. }
    split; [exact Hroles|].
    intros Hne. split.
    + destruct (hasRole OWNER_ROLE manager _) eqn:Hh; [|reflexivity].
      apply Hroles in Hh. destruct Hh as [[Heq _]|[_ Heq]]; [contradiction|discriminate].
    + destruct (hasRole MANAGER_ROLE owner _) eqn:Hh; [|reflexivity].
      apply Hroles in Hh. destruct Hh as [[_ [Heq|Heq]]|[Heq _]];
        [discriminate|discriminate|congruence].
Qed.

Lemma X5_witness :
  constructor 0 Scenario.owner Scenario.manager Scenario.MAX_PRICE Scenario.MIN_MARGIN
              (Scenario.call Scenario.owner 1000 gwei MockRig.initial true)
              (undeployed Scenario.controller Scenario.genesis)
    = Revert (Error_string "Invalid rig address").
Proof.
  exact (proj1 (X5_constructor 0 Scenario.owner Scenario.manager Scenario.MAX_PRICE
                  Scenario.MIN_MARGIN
                  (Scenario.call Scenario.owner 1000 gwei MockRig.initial true)
                  Scenario.controller Scenario.genesis) eq_refl).
Defined.

(** ** Custody of the ether *)

Lemma same_funds_refl w : same_funds w w.
Proof. split; reflexivity. Qed.

Lemma same_funds_trans w1 w2 w3 : same_funds w1 w2 -> same_funds w2 w3 -> same_funds w1 w3.
Proof. unfold same_funds. intros [A1 A2] [B1 B2]. split; congruence. Qed.

(** Only [executeMint], [withdrawETH] and [receive] touch the ledger. *)
Lemma dispatch_same_funds c :
  match c with
  | Call_executeMint _ _ | Call_withdrawETH _ _ | Call_receive _ => False
  | _ => True
  end ->
  preserves same_funds (dispatch c).
Proof.
  intros Hc. destruct c; try destruct Hc; cbn [dispatch];
    unfold updateConfig, emergencyStop, withdrawTokens, checkProfitability,
           getMiningStatus, grantRole, revokeRole, renounceRole,
           _grantRole, _revokeRole;
    cbv zeta;
    preserve same_funds_refl same_funds_trans;
    split; reflexivity.
Qed.

Lemma receive_Ok value e w u w' :
  receive value e w = Ok (u, w') ->
  value <= balance_of (ledger w) (msg_sender e) /\
  w' = set_ledger (pay (msg_sender e) (this w) value (ledger w)) w.
Proof.
  intros H. unfold receive in H. inv_M.
  split; [|reflexivity]. apply N.leb_le. assumption.
Qed.

Lemma balance_of_pay_into l src dst v :
  v <= balance_of l src -> balance_of l dst <= balance_of (pay src dst v l) dst.
Proof.
  intros Hle. unfold pay, balance_of in *.
  rewrite lookup_insert_eq.
  destruct (decide (src = dst)) as [->|Hne].
  - rewrite lookup_insert_eq. cbn. lia.
  - rewrite lookup_insert_ne by exact Hne. cbn. lia.
Qed.

(** X6. The ether held by the contract goes down only in a successful
    [executeMint] by a Manager or a successful [withdrawETH] by an Owner;
    every other transaction, and every failed one, leaves the contract's
    balance where it was or higher. *)
Theorem X6_funds_leave_only_by_mint_or_withdrawal w tx :
  balance_of (ledger (step w tx)) (this w) < balance_of (ledger w) (this w) ->
  succeeds w tx = true /\
  ((is_executeMint (snd tx) = true /\ hasRole MANAGER_ROLE (msg_sender (fst tx)) w = true) \/
   (is_withdrawETH (snd tx) = true /\ hasRole OWNER_ROLE (msg_sender (fst tx)) w = true)).
Proof.
  destruct tx as [e c]. unfold step, succeeds, transact. cbn [fst snd].
  assert (Hother : match c with
                   | Call_executeMint _ _ | Call_withdrawETH _ _ | Call_receive _ => False
                   | _ => True
                   end ->
                   forall u w', dispatch c e w = Ok (u, w') -> ledger w' = ledger w).
  { intros Hc u w' Hrun. exact (proj2 (dispatch_same_funds c Hc e w u w' Hrun)). }
  destruct (dispatch c e w) as [[u w']|err] eqn:Hrun; cbn [fst snd isOk]; [|lia].
  intros Hless. split; [reflexivity|].
  destruct c; cbn [is_executeMint is_withdrawETH];
    try (exfalso; rewrite (Hother I u w' eq_refl) in Hless; lia);
    cbn [dispatch] in Hrun.
  - left. split; [reflexivity|].
    unfold executeMint in Hrun. apply onlyRole_Ok in Hrun. apply Hrun.
  - right. split; [reflexivity|].
    unfold withdrawETH in Hrun. apply onlyRole_Ok in Hrun. apply Hrun.
  - exfalso. apply receive_Ok in Hrun. destruct Hrun as [Hle ->].
    cbn [ledger set_ledger] in Hless.
    pose proof (balance_of_pay_into (ledger w) (msg_sender e) (this w) value Hle). lia.
Qed.

(** The first mint of the test suite takes 0.005 ether out of the contract. *)
Lemma X6_witness :
  succeeds Scenario.funded Scenario.first_mint = true /\
  ((is_executeMint (snd Scenario.first_mint) = true /\
    hasRole MANAGER_ROLE (msg_sender (fst Scenario.first_mint)) Scenario.funded = true) \/
   (is_withdrawETH (snd Scenario.first_mint) = true /\
    hasRole OWNER_ROLE (msg_sender (fst Scenario.first_mint)) Scenario.funded = true)).
Proof.
  apply (X6_funds_leave_only_by_mint_or_withdrawal Scenario.funded Scenario.first_mint).
  vm_compute; reflexivity.
Defined.

(** ** What a successful mint spends *)

(** X7. A call of [executeMint] that succeeds pays the Rig exactly the cost
    the Rig quoted for the amount, and nothing else.  The cost is covered by
    the balance held before the call and satisfies
    [cost * 1e18 < (maxPricePerToken + 1) * amount]; the amount lies within
    the configured bounds; the caller's gas price is at most
    [maxGasPrice * 1 gwei]; one [TokensMinted] event is logged with the
    recipient, the amount, the cost and the Rig's epoch; the configuration
    and the roles are unchanged. *)
Theorem X7_successful_mint e w recipient amount u w' :
  executeMint recipient amount e w = Ok (u, w') ->
  exists cost epochId,
    quote (rig e) amount = Some cost /\
    currentEpochId (rig e) = Some epochId /\
    minMintAmount (config w) <= amount <= maxMintAmount (config w) /\
    cost <= balance_of (ledger w) (this w) /\
    cost * _1e18 < (maxPricePerToken (config w) + 1) * amount /\
    tx_gasprice e <= maxGasPrice (config w) * gwei /\
    ledger w' = pay (this w) (franchiserRig w) cost (ledger w) /\
    events w' = events w ++ [TokensMinted recipient amount cost epochId] /\
    config w' = config w /\
    roles w' = roles w /\
    (franchiserRig w <> this w ->
       balance_of (ledger w') (this w) = balance_of (ledger w) (this w) - cost /\
       balance_of (ledger w') (franchiserRig w)
         = balance_of (ledger w) (franchiserRig w) + cost).
Proof.
  intros Hrun. apply executeMint_Ok in Hrun.
  destruct Hrun as (_ & Hpass & cost & epochId & Hq & He & _ & ->).
  exists cost, epochId.
  pose proof (Hpass G_bounds) as Hb. pose proof (Hpass G_gas) as Hg.
  pose proof (Hpass G_balance) as Hbal. pose proof (Hpass G_price) as Hp.
  cbn [guard_eval] in Hb, Hg, Hbal, Hp. rewrite Hq in Hbal, Hp.
  injection Hb as Hb. apply andb_prop in Hb. destruct Hb as [Hlo Hhi].
  apply N.leb_le in Hlo, Hhi.
  destruct (maxGasPrice (config w) * gwei <=? MAX_UINT256); [|discriminate Hg].
  injection Hg as Hg. apply N.leb_le in Hg.
  injection Hbal as Hbal. apply N.leb_le in Hbal.
  destruct (cost * _1e18 <=? MAX_UINT256); [|discriminate Hp].
  destruct (amount =? 0) eqn:Hnz; [discriminate Hp|].
  injection Hp as Hp. apply N.leb_le in Hp. apply N.eqb_neq in Hnz.
  unfold after_mint. fields.
  repeat (split; [first [assumption | reflexivity | lia]|]).
  split.
  - pose proof (N.div_mod (cost * _1e18) amount Hnz) as Hdm.
    pose proof (N.mod_lt (cost * _1e18) amount Hnz) as Hmod.
    remember (cost * _1e18) as x eqn:Hx.
    remember (x / amount) as q eqn:Hq'.
    remember (x mod amount) as r eqn:Hr.
    remember (maxPricePerToken (config w)) as p eqn:Hpp.
    clear - Hp Hdm Hmod. nia.
  - split; [exact Hg|]. do 4 (split; [reflexivity|]).
    intros Hne. split.
    + apply balance_of_pay_src. congruence.
    + apply balance_of_pay_dst. congruence.
Qed.

Lemma X7_witness :
  exists cost epochId,
    quote (rig (fst Scenario.first_mint)) (10 * ether) = Some cost /\
    currentEpochId (rig (fst Scenario.first_mint)) = Some epochId /\
    cost <= balance_of (ledger Scenario.funded) (this Scenario.funded).
Proof.
  destruct (X7_successful_mint (fst Scenario.first_mint) Scenario.funded Scenario.user
              (10 * ether) tt Scenario.minted_once) as (cost & epochId & H1 & H2 & _ & H4 & _).
  - vm_compute; reflexivity.
  - exists cost, epochId. repeat split; assumption.
Defined.

(** ** The status view *)

Lemma getMiningStatus_Ok e w st w' :
  getMiningStatus e w = Ok (st, w') ->
  w' = w /\
  isEnabled st = autoMiningEnabled (config w) /\
  quotePrice (rig e) = Some (currentPrice st) /\
  currentEpochId (rig e) = Some (statusEpochId st) /\
  ethBalance st = balance_of (ledger w) (this w) /\
  nextMintTime st = lastMintTimestamp w + cooldownPeriod (config w) /\
  (canMintNow st = true <->
     currentPrice st <= maxPricePerToken (config w) /\
     nextMintTime st <= block_timestamp e) /\
  (canMintNow st = true ->
     checkProfitability e w
       = Ok ((true, currentPrice st, maxMintAmount (config w)), w) /\
     forall amount, guard_eval G_cooldown e w amount = Some true) /\
  (canMintNow st = false ->
   currentPrice st <= maxPricePerToken (config w) ->
   forall recipient amount, isOk (executeMint recipient amount e w) = false).
Proof.
  intros Hrun. unfold getMiningStatus in Hrun. inv_M;
    cbn [isEnabled canMintNow currentPrice nextMintTime ethBalance statusEpochId];
    repeat (split; [first [reflexivity | assumption]|]).
  - (* the price is acceptable *)
    match goal with
    | Hp : (_ <=? maxPricePerToken _) = true, Hfit : (_ + _ <=? MAX_UINT256) = true |- _ =>
        pose proof Hp as Hprice; apply N.leb_le in Hprice; pose proof Hfit as Hfits
    end.
    split; [|split].
    + rewrite N.leb_le. tauto.
    + intros Hcan. split.
      * unfold checkProfitability. steps.
        match goal with Hq : quotePrice (rig e) = Some _ |- _ => rewrite Hq end.
        steps.
        match goal with
        | |- context [maxPricePerToken (config w) <? ?p] =>
            replace (maxPricePerToken (config w) <? p) with false
              by (symmetry; apply N.ltb_ge; exact Hprice)
        end.
        steps. rewrite (proj2 (N.leb_le _ _) Hprice). reflexivity.
      * intros amount. cbn [guard_eval]. rewrite Hfits, Hcan. reflexivity.
    + intros Hcan _ recipient amount.
      destruct (executeMint recipient amount e w) as [[u w1]|err] eqn:Hmint; [|reflexivity].
      apply executeMint_Ok in Hmint. destruct Hmint as (_ & Hpass & _).
      pose proof (Hpass G_cooldown) as Hcd. cbn [guard_eval] in Hcd.
      rewrite Hfits, Hcan in Hcd. discriminate Hcd.
  - (* the price is too high *)
    match goal with
    | Hp : (_ <=? maxPricePerToken _) = false |- _ => apply N.leb_gt in Hp
    end.
    split; [|split].
    + split; [discriminate|]. intros [Hle _]. lia.
    + discriminate.
    + intros _ Hle. lia.
Qed.

(** X8. [getMiningStatus] changes nothing and reports the enabled flag, the
    Rig's spot price and epoch, the contract's balance and
    [nextMintTime = lastMintTimestamp + cooldownPeriod]; [canMintNow] holds
    exactly when the spot price is at most [maxPricePerToken] and the block
    time has reached [nextMintTime].  When it holds, [checkProfitability]
    in the same block answers profitable with [maxMintAmount] and the
    cooldown check of [executeMint] passes; when it fails although the price
    is acceptable, no [executeMint] can succeed in that block. *)
Theorem X8_getMiningStatus e w st w' :
  getMiningStatus e w = Ok (st, w') ->
  w' = w /\
  isEnabled st = autoMiningEnabled (config w) /\
  quotePrice (rig e) = Some (currentPrice st) /\
  currentEpochId (rig e) = Some (statusEpochId st) /\
  ethBalance st = balance_of (ledger w) (this w) /\
  nextMintTime st = lastMintTimestamp w + cooldownPeriod (config w) /\
  (canMintNow st = true <->
     currentPrice st <= maxPricePerToken (config w) /\
     nextMintTime st <= block_timestamp e) /\
  (canMintNow st = true ->
     checkProfitability e w
       = Ok ((true, currentPrice st, maxMintAmount (config w)), w) /\
     forall amount, guard_eval G_cooldown e w amount = Some true) /\
  (canMintNow st = false ->
   currentPrice st <= maxPricePerToken (config w) ->
   forall recipient amount, isOk (executeMint recipient amount e w) = false).
Proof. apply getMiningStatus_Ok. Qed.

Lemma X8_witness :
  checkProfitability (Scenario.call Scenario.user 2000 gwei MockRig.initial true)
                     Scenario.funded
    = Ok ((true, 500000000000000, maxMintAmount (config Scenario.funded)), Scenario.funded).
Proof.
  refine (proj1 (proj1 (proj2 (proj2 (proj2 (proj2 (proj2 (proj2 (proj2
            (X8_getMiningStatus
               (Scenario.call Scenario.user 2000 gwei MockRig.initial true)
               Scenario.funded
               (mkStatus true true 500000000000000 300 (1 * ether) 1)
               Scenario.funded _)))))))) _)).
  - vm_compute; reflexivity.
  - reflexivity.
Defined.

(** ** Withdrawals *)

(** X9. [withdrawETH] with a nonzero [amount] pays exactly that amount: for
    an Owner, a nonzero recipient that accepts the payment and
    [0 < amount <= balance], the recipient gets [amount], the contract keeps
    [balance - amount], the event carries [amount], and the configuration,
    the cooldown timer and the roles are untouched. *)
Theorem X9_withdraw_exact_amount e w to amount :
  owner_call e w -> entered w = false ->
  to <> 0 -> 0 < amount -> amount <= balance_of (ledger w) (this w) ->
  to = this w \/ accepts e to amount = true ->
  transact (withdrawETH to amount) e w = (after_withdrawal w to amount, Ok tt) /\
  events (fst (transact (withdrawETH to amount) e w))
    = events w ++ [ETHWithdrawn to amount] /\
  config (fst (transact (withdrawETH to amount) e w)) = config w /\
  lastMintTimestamp (fst (transact (withdrawETH to amount) e w)) = lastMintTimestamp w /\
  roles (fst (transact (withdrawETH to amount) e w)) = roles w /\
  (to <> this w ->
     balance_of (ledger (fst (transact (withdrawETH to amount) e w))) (this w)
       = balance_of (ledger w) (this w) - amount /\
     balance_of (ledger (fst (transact (withdrawETH to amount) e w))) to
       = balance_of (ledger w) to + amount).
Proof.
  intros Hown Hfree Hto Hpos Hle Hacc.
  pose proof (withdrawETH_paid e w to amount Hown Hfree Hto) as Hpaid.
  assert (Hnz : (amount =? 0) = false) by (apply N.eqb_neq; lia).
  rewrite Hnz in Hpaid. specialize (Hpaid Hpos Hle Hacc).
  rewrite (transact_Ok _ _ _ _ _ Hpaid). cbn [fst].
  do 5 (split; [reflexivity|]).
  intros Hself. unfold after_withdrawal. fields. split.
  - apply balance_of_pay_src. congruence.
  - apply balance_of_pay_dst. congruence.
Qed.

(** "Should withdraw ETH (owner only)": half of the ether. *)
Lemma X9_witness :
  balance_of
    (ledger (fst (transact (withdrawETH Scenario.owner 500000000000000000)
                    (Scenario.call Scenario.owner 2000 gwei MockRig.initial true)
                    Scenario.funded)))
    (this Scenario.funded)
  = balance_of (ledger Scenario.funded) (this Scenario.funded) - 500000000000000000.
Proof.
  refine (proj1 (proj2 (proj2 (proj2 (proj2 (proj2
            (X9_withdraw_exact_amount
               (Scenario.call Scenario.owner 2000 gwei MockRig.initial true)
               Scenario.funded Scenario.owner 500000000000000000 _ _ _ _ _ _))))) _)).
  - vm_compute; reflexivity.
  - reflexivity.
  - vm_compute; discriminate.
  - vm_compute; reflexivity.
  - vm_compute; discriminate.
  - right; reflexivity.
  - vm_compute; discriminate.
Defined.

Lemma withdrawTokens_enter e w tokenAddr to amount :
  owner_call e w -> entered w = false ->
  withdrawTokens tokenAddr to amount e w =
    (let* r :=
       (let* _ := require (negb (tokenAddr =? 0)) "Invalid token" in
        let* _ := require (negb (to =? 0)) "Invalid recipient" in
        let* tokenContract := env (fun e => token e tokenAddr) in
        let* self := sload this in
        let* balance := external (balanceOf tokenContract self) in
        let withdrawAmount := if amount =? 0 then balance else amount in
        let* _ := require (0 <? withdrawAmount) "No tokens to withdraw" in
        let* _ := require (withdrawAmount <=? balance) "Insufficient token balance" in
        let* sent := external (transfer tokenContract to withdrawAmount) in
        let* _ := require sent "Token transfer failed" in
        emit (TokensWithdrawn tokenAddr to withdrawAmount)) in
     let* _ := sstore (set_entered false) in ret r) e (set_entered true w).
Proof.
  intros Hown Hfree. unfold owner_call in Hown. unfold withdrawTokens.
  rewrite onlyRole_granted, nonReentrant_free by assumption. reflexivity.
Qed.

(** X10. [withdrawTokens] by an Owner reads the contract's token balance,
    takes [amount = 0] to mean all of it, and asks the token to transfer the
    resolved amount.  It reverts if the token or the recipient is the zero
    address, if the balance query reverts, if the resolved amount is zero or
    exceeds the balance, and if the token's [transfer] reverts or returns
    false.  When it succeeds, the controller's own state changes only by one
    [TokensWithdrawn(token, to, resolved amount)] event. *)
Theorem X10_withdrawTokens e w tokenAddr to amount :
  owner_call e w -> entered w = false ->
  (tokenAddr = 0 ->
     transact (withdrawTokens tokenAddr to amount) e w
       = (w, Revert (Error_string "Invalid token"))) /\
  (tokenAddr <> 0 -> to = 0 ->
     transact (withdrawTokens tokenAddr to amount) e w
       = (w, Revert (Error_string "Invalid recipient"))) /\
  (tokenAddr <> 0 -> to <> 0 ->
   balanceOf (token e tokenAddr) (this w) = None ->
     transact (withdrawTokens tokenAddr to amount) e w = (w, Revert CalleeReverted)) /\
  (forall balance,
     tokenAddr <> 0 -> to <> 0 ->
     balanceOf (token e tokenAddr) (this w) = Some balance ->
     let resolved := if amount =? 0 then balance else amount in
     (resolved = 0 ->
        transact (withdrawTokens tokenAddr to amount) e w
          = (w, Revert (Error_string "No tokens to withdraw"))) /\
     (balance < resolved ->
        transact (withdrawTokens tokenAddr to amount) e w
          = (w, Revert (Error_string "Insufficient token balance"))) /\
     (0 < resolved -> resolved <= balance ->
        match transfer (token e tokenAddr) to resolved with
        | None =>
            transact (withdrawTokens tokenAddr to amount) e w = (w, Revert CalleeReverted)
        | Some false =>
            transact (withdrawTokens tokenAddr to amount) e w
              = (w, Revert (Error_string "Token transfer failed"))
        | Some true =>
            transact (withdrawTokens tokenAddr to amount) e w
              = (log (TokensWithdrawn tokenAddr to resolved) w, Ok tt)
        end)).
Proof.
  intros Hown Hfree.
  pose proof (withdrawTokens_enter e w tokenAddr to amount Hown Hfree) as Henter.
  split; [|split; [|split]].
  - intros ->. apply transact_Revert. rewrite Henter. steps. reflexivity.
  - intros Htk ->. apply N.eqb_neq in Htk.
    assert (Htk' : negb (tokenAddr =? 0) = true) by (rewrite Htk; reflexivity).
    apply transact_Revert. rewrite Henter. steps. reflexivity.
  - intros Htk Hto Hbal. apply N.eqb_neq in Htk, Hto.
    assert (Htk' : negb (tokenAddr =? 0) = true) by (rewrite Htk; reflexivity).
    assert (Hto' : negb (to =? 0) = true) by (rewrite Hto; reflexivity).
    apply transact_Revert. rewrite Henter. steps. rewrite Hbal. steps. reflexivity.
  - intros balance Htk Hto Hbal resolved. apply N.eqb_neq in Htk, Hto.
    assert (Htk' : negb (tokenAddr =? 0) = true) by (rewrite Htk; reflexivity).
    assert (Hto' : negb (to =? 0) = true) by (rewrite Hto; reflexivity).
    split; [|split].
    + intros Hzero. apply transact_Revert. rewrite Henter. steps. rewrite Hbal. steps.
      fold resolved. rewrite Hzero. reflexivity.
    + intros Hgt. apply transact_Revert. rewrite Henter. steps. rewrite Hbal. steps.
      fold resolved.
      assert (Hpos : (0 <? resolved) = true) by (apply N.ltb_lt; lia).
      assert (Hle : (resolved <=? balance) = false) by (apply N.leb_gt; exact Hgt).
      steps. reflexivity.
    + intros Hpos Hle. apply N.ltb_lt in Hpos. apply N.leb_le in Hle.
      destruct (transfer (token e tokenAddr) to resolved) as [[|]|] eqn:Hsend.
      * apply transact_Ok. rewrite Henter. steps. rewrite Hbal. steps.
        fold resolved. steps. rewrite Hsend. steps.
        unfold ret. do 2 f_equal. destruct w; cbn in *; subst; reflexivity.
      * apply transact_Revert. rewrite Henter. steps. rewrite Hbal. steps.
        fold resolved. steps. rewrite Hsend. steps. reflexivity.
      * apply transact_Revert. rewrite Henter. steps. rewrite Hbal. steps.
        fold resolved. steps. rewrite Hsend. steps. reflexivity.
Qed.

(** No token answers in the test deployment: the balance query reverts. *)
Lemma X10_witness :
  transact (withdrawTokens 7000 Scenario.owner 0)
           (Scenario.call Scenario.owner 2000 gwei MockRig.initial true)
           Scenario.funded
    = (Scenario.funded, Revert CalleeReverted).
Proof.
  refine (proj1 (proj2 (proj2 (X10_withdrawTokens
            (Scenario.call Scenario.owner 2000 gwei MockRig.initial true)
            Scenario.funded 7000 Scenario.owner 0 _ _)))  _ _ _).
  - vm_compute; reflexivity.
  - reflexivity.
  - discriminate.
  - vm_compute; discriminate.
  - reflexivity.
Defined.

(** * Properties of the mock Rig *)

Lemma MockRig_quote_Some r amount cost :
  MockRig.quote r amount = Some cost ->
  MockRig._currentPrice r * amount <= MAX_UINT256 /\
  cost = MockRig._currentPrice r * amount / _1e18.
Proof.
  unfold MockRig.quote.
  destruct (MockRig._currentPrice r * amount <=? MAX_UINT256) eqn:Hfit; [|discriminate].
  intros [= <-]. split; [apply N.leb_le; exact Hfit | reflexivity].
Qed.

Lemma _1e18_nonzero : _1e18 <> 0.
Proof. discriminate. Qed.

Lemma MockRig_implied_price r amount cost :
  MockRig.quote r amount = Some cost ->
  amount <> 0 ->
  cost * _1e18 / amount <= MockRig._currentPrice r /\
  cost * _1e18 <= MAX_UINT256 /\
  (_1e18 <= amount -> MockRig._currentPrice r - 1 <= cost * _1e18 / amount).
Proof.
  intros Hq Hnz. apply MockRig_quote_Some in Hq. destruct Hq as [Hfit ->].
  set (p := MockRig._currentPrice r) in *.
  pose proof _1e18_nonzero as HE.
  pose proof (N.div_mod (p * amount) _1e18 HE) as Hdm.
  pose proof (N.mod_lt (p * amount) _1e18 HE) as Hmod.
  assert (Hle : p * amount / _1e18 * _1e18 <= p * amount).
  { rewrite N.mul_comm. apply N.Div0.mul_div_le. }
  split; [|split].
  - etransitivity; [apply N.Div0.div_le_mono; exact Hle|].
    rewrite N.div_mul by exact Hnz. reflexivity.
  - lia.
  - intros Hone. apply N.div_le_lower_bound; [exact Hnz|].
    remember (p * amount / _1e18) as c eqn:Hc.
    remember ((p * amount) mod _1e18) as m eqn:Hm.
    remember _1e18 as E eqn:HeqE.
    clear Hc Hm HeqE Hle. nia.
Qed.

(** X11. The per-token price [executeMint] derives from a quote of the mock
    Rig never exceeds the mock's spot price, and for an amount of at least
    one token ([1e18] units) it is the spot price or one wei less; scaling
    the quoted cost by [1e18] never overflows. *)
Theorem X11_mock_implied_price r amount cost :
  MockRig.quote r amount = Some cost ->
  amount <> 0 ->
  cost * _1e18 / amount <= MockRig._currentPrice r /\
  cost * _1e18 <= MAX_UINT256 /\
  (_1e18 <= amount -> MockRig._currentPrice r - 1 <= cost * _1e18 / amount).
Proof. apply MockRig_implied_price. Qed.

(** Ten tokens at the mock's initial price. *)
Lemma X11_witness :
  5000000000000000 * _1e18 / (10 * ether) <= MockRig._currentPrice MockRig.initial.
Proof.
  refine (proj1 (X11_mock_implied_price MockRig.initial (10 * ether) 5000000000000000 _ _)).
  - vm_compute; reflexivity.
  - vm_compute; discriminate.
Defined.

(** X12. Against the mock Rig, a Manager's [executeMint] succeeds whenever
    mining is enabled, the amount is nonzero and within bounds, the cooldown
    has elapsed, the gas price is within the ceiling, the mock's spot price
    is at most [maxPricePerToken], and the balance covers
    [price * amount / 1e18] (with [price * amount] and the gas ceiling
    fitting in 256 bits): the mock never refuses the exact payment and the
    on-chain price check agrees with the spot-price check. *)
Theorem X12_mint_against_mock e w r recipient amount :
  rig e = MockRig.as_rig r ->
  manager_call e w ->
  autoMiningEnabled (config w) = true ->
  minMintAmount (config w) <= amount <= maxMintAmount (config w) ->
  amount <> 0 ->
  lastMintTimestamp w + cooldownPeriod (config w) <= block_timestamp e ->
  block_timestamp e <= MAX_UINT256 ->
  maxGasPrice (config w) * gwei <= MAX_UINT256 ->
  tx_gasprice e <= maxGasPrice (config w) * gwei ->
  MockRig._currentPrice r * amount <= MAX_UINT256 ->
  MockRig._currentPrice r * amount / _1e18 <= balance_of (ledger w) (this w) ->
  MockRig._currentPrice r <= maxPricePerToken (config w) ->
  executeMint recipient amount e w
    = Ok (tt, after_mint e w recipient amount
                (MockRig._currentPrice r * amount / _1e18) (MockRig._epochId r)).
Proof.
  intros Hrig Hm Hen [Hlo Hhi] Hnz Hcd Hnow Hgfit Hgas Hfit Hbal Hprice.
  assert (Hq : quote (rig e) amount = Some (MockRig._currentPrice r * amount / _1e18)).
  { rewrite Hrig. cbn [MockRig.as_rig quote]. unfold MockRig.quote.
    rewrite (proj2 (N.leb_le _ _) Hfit). reflexivity. }
  assert (Hq' : MockRig.quote r amount = Some (MockRig._currentPrice r * amount / _1e18)).
  { rewrite Hrig in Hq. exact Hq. }
  destruct (MockRig_implied_price r amount _ Hq' Hnz) as (Himp & Hscale & _).
  assert (Hpass : forall g, guard_eval g e w amount = Some true).
  { intros []; cbn [guard_eval].
    - rewrite Hen. reflexivity.
    - f_equal. apply andb_true_intro. split; apply N.leb_le; assumption.
    - replace (lastMintTimestamp w + cooldownPeriod (config w) <=? MAX_UINT256) with true
        by (symmetry; apply N.leb_le; lia).
      f_equal. apply N.leb_le. exact Hcd.
    - rewrite (proj2 (N.leb_le _ _) Hgfit). f_equal. apply N.leb_le. exact Hgas.
    - rewrite Hq. f_equal. apply N.leb_le. exact Hbal.
    - rewrite Hq. rewrite (proj2 (N.leb_le _ _) Hscale).
      rewrite (proj2 (N.eqb_neq _ _) Hnz). f_equal. apply N.leb_le. lia. }
  rewrite (executeMint_passed e w recipient amount _ Hm Hpass Hq).
  rewrite Hrig. cbn [MockRig.as_rig currentEpochId mint MockRig.currentEpochId].
  unfold MockRig.mint. rewrite Hq'. rewrite N.leb_refl. reflexivity.
Qed.

(** The first mint of the test suite, by the theorem. *)
Lemma X12_witness :
  executeMint Scenario.user (10 * ether) (fst Scenario.first_mint) Scenario.funded
    = Ok (tt, after_mint (fst Scenario.first_mint) Scenario.funded Scenario.user (10 * ether)
                (MockRig._currentPrice MockRig.initial * (10 * ether) / _1e18)
                (MockRig._epochId MockRig.initial)).
Proof.
  apply (X12_mint_against_mock (fst Scenario.first_mint) Scenario.funded MockRig.initial
           Scenario.user (10 * ether)).
  - reflexivity.
  - split; vm_compute; reflexivity.
  - vm_compute; reflexivity.
  - split; vm_compute; discriminate.
  - vm_compute; discriminate.
  - vm_compute; discriminate.
  - vm_compute; discriminate.
  - vm_compute; discriminate.
  - vm_compute; discriminate.
  - vm_compute; discriminate.
  - vm_compute; discriminate.
  - vm_compute; discriminate.
Defined.

(** * Further properties of the monitor *)

Lemma tick_counters o s recipient :
  outcome_of o (checkAndMine recipient) s = inr tt /\
  checksPerformed (stats_of o (checkAndMine recipient) s) = checksPerformed s + 1 /\
  (stats_of o (checkAndMine recipient) s = incr_checks s \/
   stats_of o (checkAndMine recipient) s = incr_mints (incr_checks s) \/
   stats_of o (checkAndMine recipient) s = incr_errors (incr_checks s)).
Proof.
  unfold checkAndMine. tock.
  destruct (on_getMiningStatus o) as [message|st]; tock; [cbn; auto|].
  destruct (isEnabled st); tock; [|cbn; auto].
  destruct (on_checkProfitability o) as [message|[[isProfitable price] amount]];
    tock; [cbn; auto|].
  destruct (canMintNow st); tock; [|cbn; auto].
  destruct isProfitable; tock; [|cbn; auto].
  destruct (amount =? 0); tock; [cbn; auto|].
  destruct (on_executeMint o recipient amount 500000) as [message|tx]; tock; [cbn; auto|].
  destruct (on_wait o tx) as [message|receipt]; tock; [cbn; auto|].
  destruct (status receipt =? 1); tock; [|cbn; auto].
  destruct (find is_TokensMinted (logs receipt)) as [[event|]|]; tock; cbn; auto.
Qed.

(** X13. A tick of [checkAndMine] never throws: whatever the controller
    answers, and whichever request rejects, it returns normally.  It counts
    exactly one check, and at most one of a mint and an error. *)
Theorem X13_tick_counters o s recipient :
  outcome_of o (checkAndMine recipient) s = inr tt /\
  checksPerformed (stats_of o (checkAndMine recipient) s) = checksPerformed s + 1 /\
  (stats_of o (checkAndMine recipient) s = incr_checks s \/
   stats_of o (checkAndMine recipient) s = incr_mints (incr_checks s) \/
   stats_of o (checkAndMine recipient) s = incr_errors (incr_checks s)).
Proof. apply tick_counters. Qed.

Lemma find_TokensMinted_Some l e :
  find is_TokensMinted l = Some e -> exists event, e = Some event /\ name event = "TokensMinted".
Proof.
  intros H. apply find_some in H. destruct H as [_ H].
  destruct e as [event|]; [|discriminate H]. exists event. split; [reflexivity|].
  cbn in H. destruct (decide (name event = "TokensMinted")); [assumption|discriminate H].
Qed.

(** X14. Once a mint has been submitted and its receipt obtained, the tick
    accounts for it by the receipt alone: a status other than 1 prints
    "Transaction failed" and counts an error; status 1 with a log that parses
    as [TokensMinted] counts one mint and prints that event's amount, cost and
    epoch (the first such log when there are several); status 1 without such
    a log counts nothing and prints nothing. *)
Theorem X14_receipt_accounting o s recipient st price amount tx receipt :
  on_getMiningStatus o = inr st -> isEnabled st = true -> canMintNow st = true ->
  on_checkProfitability o = inr (true, price, amount) -> amount <> 0 ->
  on_executeMint o recipient amount 500000 = inr tx ->
  on_wait o tx = inr receipt ->
  exists tail,
    trace_of o (checkAndMine recipient) s
      = [Requested GetMiningStatus; Requested CheckProfitability;
         Printed (Line_check (checksPerformed s + 1) price (statusEpochId st)
                             (ethBalance st));
         Printed (Line_profitable amount);
         Requested (ExecuteMint recipient amount 500000);
         Printed (Line_submitted tx);
         Requested (Wait tx)] ++ tail /\
    (status receipt <> 1 ->
       tail = [Printed Line_transaction_failed] /\
       stats_of o (checkAndMine recipient) s = incr_errors (incr_checks s)) /\
    (status receipt = 1 ->
       match find is_TokensMinted (logs receipt) with
       | Some (Some event) =>
           name event = "TokensMinted" /\
           tail = [Printed (Line_mint_successful (args_amount event) (args_cost event)
                                                 (args_epochId event))] /\
           stats_of o (checkAndMine recipient) s = incr_mints (incr_checks s)
       | Some None => False
       | None =>
           tail = [] /\ stats_of o (checkAndMine recipient) s = incr_checks s
       end).
Proof.
  intros Hst Hen Hcan Hprof Hnz Hsub Hwait.
  apply N.eqb_neq in Hnz.
  unfold checkAndMine. tock. rewrite Hst. tock. rewrite Hen. tock.
  rewrite Hprof. tock. rewrite Hcan. tock. rewrite Hnz. tock.
  rewrite Hsub. tock. rewrite Hwait. tock.
  destruct (status receipt =? 1) eqn:Hstatus.
  - apply N.eqb_eq in Hstatus.
    destruct (find is_TokensMinted (logs receipt)) as [[event|]|] eqn:Hfind; tock.
    + eexists. split; [reflexivity|]. split; [intros Hne; contradiction|].
      intros _.
      apply find_TokensMinted_Some in Hfind. destruct Hfind as (ev & [= <-] & Hname).
      repeat split. exact Hname.
    + apply find_TokensMinted_Some in Hfind. destruct Hfind as (ev & Hev & _).
      discriminate Hev.
    + exists []. split; [reflexivity|]. split; [intros Hne; contradiction|].
      intros _. split; reflexivity.
  - apply N.eqb_neq in Hstatus. tock.
    eexists. split; [reflexivity|]. split; [|intros Heq; contradiction].
    intros _. split; reflexivity.
Qed.

Lemma X14_witness :
  exists tail,
    trace_of (mkAnswers (inr (mkStatus true true 500000000000000 2300 (1 * ether) 1))
                        (inr (true, 500000000000000, 100 * ether))
                        (fun _ _ _ => inr 77)
                        (fun _ => inr (mkReceipt 0 [])))
             (checkAndMine Scenario.user) (mkStats 0 0 0)
      = [Requested GetMiningStatus; Requested CheckProfitability;
         Printed (Line_check (0 + 1) 500000000000000 1 (1 * ether));
         Printed (Line_profitable (100 * ether));
         Requested (ExecuteMint Scenario.user (100 * ether) 500000);
         Printed (Line_submitted 77);
         Requested (Wait 77)] ++ tail /\
    tail = [Printed Line_transaction_failed].
Proof.
  destruct (X14_receipt_accounting
              (mkAnswers (inr (mkStatus true true 500000000000000 2300 (1 * ether) 1))
                         (inr (true, 500000000000000, 100 * ether))
                         (fun _ _ _ => inr 77)
                         (fun _ => inr (mkReceipt 0 [])))
              (mkStats 0 0 0) Scenario.user
              (mkStatus true true 500000000000000 2300 (1 * ether) 1)
              500000000000000 (100 * ether) 77 (mkReceipt 0 []))
    as (tail & Htrace & Hfail & _); try reflexivity.
  - vm_compute; discriminate.
  - exists tail. split; [exact Htrace|]. apply Hfail. discriminate.
Defined.

(** X15. The three ways a tick skips: mining disabled, [canMintNow] false,
    or the profitability read not profitable or recommending zero.  Each
    counts the check and nothing else, submits no transaction, and ends
    with its own line; a disabled controller is not even asked for
    profitability. *)
Theorem X15_tick_skips o s recipient st :
  on_getMiningStatus o = inr st ->
  (isEnabled st = false ->
     trace_of o (checkAndMine recipient) s
       = [Requested GetMiningStatus; Printed Line_disabled] /\
     stats_of o (checkAndMine recipient) s = incr_checks s) /\
  (forall isProfitable price amount,
     isEnabled st = true ->
     on_checkProfitability o = inr (isProfitable, price, amount) ->
     canMintNow st = false ->
     trace_of o (checkAndMine recipient) s
       = [Requested GetMiningStatus; Requested CheckProfitability;
          Printed (Line_check (checksPerformed s + 1) price (statusEpochId st)
                              (ethBalance st));
          Printed (Line_cooldown (nextMintTime st))] /\
     stats_of o (checkAndMine recipient) s = incr_checks s) /\
  (forall isProfitable price amount,
     isEnabled st = true ->
     on_checkProfitability o = inr (isProfitable, price, amount) ->
     canMintNow st = true ->
     isProfitable = false \/ amount = 0 ->
     trace_of o (checkAndMine recipient) s
       = [Requested GetMiningStatus; Requested CheckProfitability;
          Printed (Line_check (checksPerformed s + 1) price (statusEpochId st)
                              (ethBalance st));
          Printed Line_not_profitable] /\
     stats_of o (checkAndMine recipient) s = incr_checks s).
Proof.
  intros Hst. split; [|split].
  - intros Hen. unfold checkAndMine. tock. rewrite Hst. tock. rewrite Hen. tock.
    split; reflexivity.
  - intros isProfitable price amount Hen Hprof Hcan.
    unfold checkAndMine. tock. rewrite Hst. tock. rewrite Hen. tock.
    rewrite Hprof. tock. rewrite Hcan. tock. split; reflexivity.
  - intros isProfitable price amount Hen Hprof Hcan Hno.
    unfold checkAndMine. tock. rewrite Hst. tock. rewrite Hen. tock.
    rewrite Hprof. tock. rewrite Hcan. tock.
    assert (Hskip : negb isProfitable || (amount =? 0) = true).
    { destruct Hno as [-> | ->]; [reflexivity|].
      rewrite N.eqb_refl. apply orb_true_r. }
    rewrite Hskip. tock. split; reflexivity.
Qed.

Lemma X15_witness :
  trace_of (mkAnswers (inr (mkStatus false false 500000000000000 2300 (1 * ether) 1))
                      (inl "not asked") (fun _ _ _ => inl "not asked")
                      (fun _ => inl "not asked"))
           (checkAndMine Scenario.user) (mkStats 0 0 0)
    = [Requested GetMiningStatus; Printed Line_disabled].
Proof.
  exact (proj1 (proj1 (X15_tick_skips
           (mkAnswers (inr (mkStatus false false 500000000000000 2300 (1 * ether) 1))
                      (inl "not asked") (fun _ _ _ => inl "not asked")
                      (fun _ => inl "not asked"))
           (mkStats 0 0 0) Scenario.user
           (mkStatus false false 500000000000000 2300 (1 * ether) 1) eq_refl) eq_refl)).
Defined.

(** X16. A rejected request ends the tick where it happens: the later
    requests are not made, one error is counted, and the catch block prints
    the line chosen from the rejection's message.  This holds for each of
    the four awaited requests: the status read, the profitability read, the
    submission of [executeMint] and the wait for its receipt. *)
Theorem X16_rejections o s recipient message :
  (on_getMiningStatus o = inl message ->
     trace_of o (checkAndMine recipient) s
       = [Requested GetMiningStatus; Printed (catch_line message)] /\
     stats_of o (checkAndMine recipient) s = incr_errors (incr_checks s)) /\
  (forall st,
     on_getMiningStatus o = inr st -> isEnabled st = true ->
     on_checkProfitability o = inl message ->
     trace_of o (checkAndMine recipient) s
       = [Requested GetMiningStatus; Requested CheckProfitability;
          Printed (catch_line message)] /\
     stats_of o (checkAndMine recipient) s = incr_errors (incr_checks s)) /\
  (forall st price amount,
     on_getMiningStatus o = inr st -> isEnabled st = true -> canMintNow st = true ->
     on_checkProfitability o = inr (true, price, amount) -> amount <> 0 ->
     on_executeMint o recipient amount 500000 = inl message ->
     trace_of o (checkAndMine recipient) s
       = [Requested GetMiningStatus; Requested CheckProfitability;
          Printed (Line_check (checksPerformed s + 1) price (statusEpochId st)
                              (ethBalance st));
          Printed (Line_profitable amount);
          Requested (ExecuteMint recipient amount 500000);
          Printed (catch_line message)] /\
     stats_of o (checkAndMine recipient) s = incr_errors (incr_checks s)) /\
  (forall st price amount tx,
     on_getMiningStatus o = inr st -> isEnabled st = true -> canMintNow st = true ->
     on_checkProfitability o = inr (true, price, amount) -> amount <> 0 ->
     on_executeMint o recipient amount 500000 = inr tx ->
     on_wait o tx = inl message ->
     trace_of o (checkAndMine recipient) s
       = [Requested GetMiningStatus; Requested CheckProfitability;
          Printed (Line_check (checksPerformed s + 1) price (statusEpochId st)
                              (ethBalance st));
          Printed (Line_profitable amount);
          Requested (ExecuteMint recipient amount 500000);
          Printed (Line_submitted tx);
          Requested (Wait tx);
          Printed (catch_line message)] /\
     stats_of o (checkAndMine recipient) s = incr_errors (incr_checks s)).
Proof.
  split; [|split; [|split]].
  - intros Hst. unfold checkAndMine. tock. rewrite Hst. tock. split; reflexivity.
  - intros st Hst Hen Hprof.
    unfold checkAndMine. tock. rewrite Hst. tock. rewrite Hen. tock.
    rewrite Hprof. tock. split; reflexivity.
  - intros st price amount Hst Hen Hcan Hprof Hnz Hsub. apply N.eqb_neq in Hnz.
    unfold checkAndMine. tock. rewrite Hst. tock. rewrite Hen. tock.
    rewrite Hprof. tock. rewrite Hcan. tock. rewrite Hnz. tock.
    rewrite Hsub. tock. split; reflexivity.
  - intros st price amount tx Hst Hen Hcan Hprof Hnz Hsub Hwait. apply N.eqb_neq in Hnz.
    unfold checkAndMine. tock. rewrite Hst. tock. rewrite Hen. tock.
    rewrite Hprof. tock. rewrite Hcan. tock. rewrite Hnz. tock.
    rewrite Hsub. tock. rewrite Hwait. tock. split; reflexivity.
Qed.

Lemma X16_witness :
  trace_of (mkAnswers (inl "could not detect network") (inl "") (fun _ _ _ => inl "")
                      (fun _ => inl ""))
           (checkAndMine Scenario.user) (mkStats 3 1 0)
    = [Requested GetMiningStatus; Printed (catch_line "could not detect network")] /\
  stats_of (mkAnswers (inl "could not detect network") (inl "") (fun _ _ _ => inl "")
                      (fun _ => inl ""))
           (checkAndMine Scenario.user) (mkStats 3 1 0)
    = incr_errors (incr_checks (mkStats 3 1 0)).
Proof.
  exact (proj1 (X16_rejections
                  (mkAnswers (inl "could not detect network") (inl "")
                             (fun _ _ _ => inl "") (fun _ => inl ""))
                  (mkStats 3 1 0) Scenario.user "could not detect network") eq_refl).
Defined.

(** ** The messages the catch block recognises *)

Lemma starts_with_append needle post : starts_with needle (needle +:+ post) = true.
Proof.
  induction needle as [|c needle IH]; [reflexivity|].
  change (String c needle +:+ post) with (String c (needle +:+ post)).
  cbn [starts_with]. rewrite Ascii.eqb_refl. exact IH.
Qed.

Lemma starts_with_inv needle hay :
  starts_with needle hay = true -> exists post, hay = needle +:+ post.
Proof.
  revert hay. induction needle as [|c needle IH]; intros hay H.
  - exists hay. reflexivity.
  - destruct hay as [|d hay]; [discriminate H|]. cbn [starts_with] in H.
    destruct (Ascii.eqb c d) eqn:Hcd; [|discriminate H].
    apply Ascii.eqb_eq in Hcd. subst d.
    destruct (IH hay H) as [post ->]. exists post. reflexivity.
Qed.

(** [includes] is substring containment. *)
Lemma includes_substring hay needle :
  includes hay needle = true <-> exists pre post, hay = pre +:+ needle +:+ post.
Proof.
  split.
  - induction hay as [|c hay IH]; cbn [includes]; intros H.
    + rewrite orb_false_r in H. apply starts_with_inv in H. destruct H as [post ->].
      exists "", post. reflexivity.
    + apply orb_prop in H. destruct H as [H|H].
      * apply starts_with_inv in H. destruct H as [post ->]. exists "", post. reflexivity.
      * destruct (IH H) as (pre & post & ->). exists (String c pre), post. reflexivity.
  - intros (pre & post & ->). induction pre as [|c pre IH].
    + change ("" +:+ needle +:+ post) with (needle +:+ post).
      pose proof (starts_with_append needle post) as Hs.
      destruct (needle +:+ post); cbn [includes]; rewrite Hs; reflexivity.
    + change (String c pre +:+ needle +:+ post) with (String c (pre +:+ needle +:+ post)).
      cbn [includes]. rewrite IH. apply orb_true_r.
Qed.

(** X17. The catch block tells the controller's revert reasons apart by
    substring, in a fixed order.  A message that contains the reason of the
    enabled check prints the "disabled" line; one that contains the reason
    of the cooldown, price or balance check, and none of the reasons tested
    before it, prints that check's line.  The reasons of the amount-bounds
    and gas-price checks are not recognised: a message made of either
    prints the generic error line. *)
Theorem X17_catch_recognises_reasons pre post :
  catch_line (pre +:+ guard_reason G_enabled +:+ post) = Line_caught_disabled /\
  (includes (pre +:+ guard_reason G_cooldown +:+ post) (guard_reason G_enabled) = false ->
   catch_line (pre +:+ guard_reason G_cooldown +:+ post) = Line_caught_cooldown) /\
  (includes (pre +:+ guard_reason G_price +:+ post) (guard_reason G_enabled) = false ->
   includes (pre +:+ guard_reason G_price +:+ post) (guard_reason G_cooldown) = false ->
   catch_line (pre +:+ guard_reason G_price +:+ post) = Line_caught_price) /\
  (includes (pre +:+ guard_reason G_balance +:+ post) (guard_reason G_enabled) = false ->
   includes (pre +:+ guard_reason G_balance +:+ post) (guard_reason G_cooldown) = false ->
   includes (pre +:+ guard_reason G_balance +:+ post) (guard_reason G_price) = false ->
   catch_line (pre +:+ guard_reason G_balance +:+ post) = Line_caught_balance) /\
  catch_line (guard_reason G_bounds) = Line_caught_other (guard_reason G_bounds) /\
  catch_line (guard_reason G_gas) = Line_caught_other (guard_reason G_gas).
Proof.
  assert (Hin : forall needle, includes (pre +:+ needle +:+ post) needle = true).
  { intros needle. apply includes_substring. exists pre, post. reflexivity. }
  cbn [guard_reason]. unfold catch_line.
  split; [rewrite Hin; reflexivity|].
  split; [intros H1; rewrite H1, Hin; reflexivity|].
  split; [intros H1 H2; rewrite H1, H2, Hin; reflexivity|].
  split; [intros H1 H2 H3; rewrite H1, H2, H3, Hin; reflexivity|].
  split; vm_compute; reflexivity.
Qed.

(** The message ethers reports for a cooldown revert. *)
Lemma X17_witness :
  catch_line ("execution reverted: " +:+ guard_reason G_cooldown +:+ "")
    = Line_caught_cooldown.
Proof.
  refine (proj1 (proj2 (X17_catch_recognises_reasons "execution reverted: " "")) _).
  vm_compute; reflexivity.
Defined.

(** ** The main loop *)

Lemma displays_cons_tick tr acts : displays (Ticked tr :: acts) = displays acts.
Proof. reflexivity. Qed.

Lemma displays_cons_slept acts : displays (Slept :: acts) = displays acts.
Proof. reflexivity. Qed.

Lemma displays_cons_shown st acts : displays (DisplayedStats st :: acts) = 1 + displays acts.
Proof. unfold displays. cbn [List.filter is_display length]. lia. Qed.

(** X18. The loop of [run] performs one check per iteration and prints the
    statistics on every tenth: starting with a counter below ten, after [n]
    iterations [checksPerformed] has grown by [n], [displayStats] has been
    called [(counter + n) / 10] times, and the counter is
    [(counter + n) mod 10]. *)
Theorem X18_stats_every_tenth_check recipient answers :
  forall stats checkCounter,
    checkCounter < 10 ->
    checksPerformed (snd (fst (run_loop recipient answers stats checkCounter)))
      = checksPerformed stats + N.of_nat (length answers) /\
    displays (fst (fst (run_loop recipient answers stats checkCounter)))
      = (checkCounter + N.of_nat (length answers)) / 10 /\
    snd (run_loop recipient answers stats checkCounter)
      = (checkCounter + N.of_nat (length answers)) mod 10.
Proof.
  induction answers as [|o answers IH]; intros stats c Hc.
  - cbn [run_loop length fst snd]. change (N.of_nat 0) with 0. rewrite !N.add_0_r.
    rewrite N.div_small, N.mod_small by exact Hc. repeat split.
  - cbn [run_loop length].
    pose proof (proj1 (proj2 (tick_counters o stats recipient))) as Hcheck.
    set (stats1 := stats_of o (checkAndMine recipient) stats) in *.
    destruct (10 <=? c + 1) eqn:Hten.
    + apply N.leb_le in Hten. assert (c = 9) by lia. subst c.
      specialize (IH stats1 0 ltac:(lia)).
      destruct (run_loop recipient answers stats1 0) as [[acts stats2] c3].
      cbn [fst snd app] in *. destruct IH as (H1 & H2 & H3).
      rewrite displays_cons_tick, displays_cons_shown, displays_cons_slept.
      rewrite H1, H2, H3, Hcheck.
      replace (9 + N.of_nat (S (length answers)))
        with (N.of_nat (length answers) + 1 * 10) by lia.
      rewrite N.div_add, N.Div0.mod_add by discriminate.
      rewrite !N.add_0_l. repeat split; lia.
    + apply N.leb_gt in Hten.
      specialize (IH stats1 (c + 1) ltac:(lia)).
      destruct (run_loop recipient answers stats1 (c + 1)) as [[acts stats2] c3].
      cbn [fst snd app] in *. destruct IH as (H1 & H2 & H3).
      rewrite displays_cons_tick, displays_cons_slept.
      rewrite H1, H2, H3, Hcheck.
      replace (c + 1 + N.of_nat (length answers))
        with (c + N.of_nat (S (length answers))) by lia.
      repeat split; lia.
Qed.

Lemma X18_witness :
  displays
    (fst (fst (run_loop Scenario.user
                 (repeat (mkAnswers (inl "offline") (inl "") (fun _ _ _ => inl "")
                                    (fun _ => inl "")) 25)
                 (mkStats 0 0 0) 0)))
    = (0 + N.of_nat (length (repeat (mkAnswers (inl "offline") (inl "")
                                               (fun _ _ _ => inl "")
                                               (fun _ => inl "")) 25))) / 10.
Proof.
  refine (proj1 (proj2 (X18_stats_every_tenth_check Scenario.user _ (mkStats 0 0 0) 0 _))).
  reflexivity.
Defined.

(** ** [displayStats] *)

(** X19. While the wall clock has not been set back past the start of the
    monitor, the uptime printed by [displayStats] is an exact split of the
    elapsed whole seconds: [hours * 3600 + minutes * 60 + seconds] is the
    uptime, with [minutes] and [seconds] from 0 to 59.  Once the clock is
    behind the start, the uptime is negative, no part is positive, and the
    parts add up to the uptime only if it is a whole number of hours; in
    every other case they add up to less (two seconds behind print as
    -1h -1m -2s). *)
Theorem X19_uptime_parts now startTime :
  let uptime := uptime_of now startTime in
  let '(hours, minutes, seconds) := uptime_parts uptime in
  ((startTime <= now)%Z ->
     (0 <= uptime /\
      uptime = hours * 3600 + minutes * 60 + seconds /\
      0 <= hours /\ 0 <= minutes < 60 /\ 0 <= seconds < 60)%Z) /\
  ((now < startTime)%Z ->
     (uptime < 0 /\
      hours < 0 /\ -60 <= minutes <= 0 /\ -60 < seconds <= 0 /\
      hours * 3600 + minutes * 60 + seconds <= uptime /\
      (hours * 3600 + minutes * 60 + seconds = uptime <-> Z.rem uptime 3600 = 0))%Z).
Proof.
  unfold uptime_parts, uptime_of. cbv zeta.
  split; intros Hclock; Z.to_euclidean_division_equations; lia.
Qed.

(** An hour, two minutes and five seconds after the start. *)
Lemma X19_witness :
  (uptime_parts (uptime_of 1700003725000 1700000000000) = (1, 2, 5) /\
   uptime_of 1700003725000 1700000000000 = 1 * 3600 + 2 * 60 + 5)%Z.
Proof.
  pose proof (proj1 (X19_uptime_parts 1700003725000 1700000000000) ltac:(lia)) as H.
  split; [reflexivity|]. exact (proj1 (proj2 H)).
Defined.

(** * Properties of the status report *)

Section StatusScript.
Import StatusReport.

(** X20. The status script never gets to its report.  After the line with
    the maximum price it evaluates [config.minProfitMargin / 100], a BigInt
    divided by a Number, which throws a [TypeError]; the catch block prints
    the message and the process exits with code 1.  So every run exits with
    code 1: when [CONTROLLER_ADDRESS] is not set, when [franchiserRig()] or
    [config()] rejects, and otherwise at that division, whatever the
    configuration.  No run asks for the mining status, the profitability or
    the last mint time, and none prints a line of the status, profitability
    or cost sections. *)
Theorem X20_status_script_exits_at_min_profit CONTROLLER_ADDRESS o :
  outcome_of o (main CONTROLLER_ADDRESS) = Exited 1 /\
  Forall (fun a => in_report a = false) (trace_of o (main CONTROLLER_ADDRESS)) /\
  trace_of o (main CONTROLLER_ADDRESS)
    = match CONTROLLER_ADDRESS with
      | None | Some EmptyString => [PrintedError Line_address_not_set]
      | Some controllerAddress =>
          [Printed Line_title; Printed (Line_controller controllerAddress);
           Requested FranchiserRig] ++
          match on_franchiserRig o with
          | inl message => [PrintedError (Line_error message)]
          | inr rigAddress =>
              [Printed (Line_rig rigAddress); Requested GetConfig] ++
              match on_config o with
              | inl message => [PrintedError (Line_error message)]
              | inr cfg =>
                  [Printed Line_configuration;
                   Printed (Line_max_price (maxPricePerToken cfg));
                   PrintedError
                     (Line_error
                        "Cannot mix BigInt and other types, use explicit conversions")]
              end
          end
      end.
Proof.
  unfold trace_of, outcome_of.
  destruct CONTROLLER_ADDRESS as [[|c controllerAddress]|];
    [| destruct (on_franchiserRig o) as [message|rigAddress] eqn:Hrig;
       [| destruct (on_config o) as [message|cfg] eqn:Hcfg] |];
    repeat first
      [ progress cbn [main try_catch await eval exec answer js_divide uint256 fst snd app]
      | match goal with H : _ = _ |- _ => rewrite H end ];
    (split; [reflexivity|]; split; [|reflexivity]; repeat constructor).
Qed.

End StatusScript.

(** * The monitor against the contract *)

Lemma checkAndMine_submissions_exact o s recipient st isProfitable price amount :
  on_getMiningStatus o = inr st ->
  on_checkProfitability o = inr (isProfitable, price, amount) ->
  submissions (trace_of o (checkAndMine recipient) s)
    = if isEnabled st && canMintNow st && isProfitable && negb (amount =? 0)
      then [(recipient, amount, 500000)]
      else [].
Proof.
  intros Hst Hprof. unfold checkAndMine. tock. rewrite Hst. tock.
  destruct (isEnabled st); tock; [|reflexivity].
  rewrite Hprof. tock.
  destruct (canMintNow st); tock; [|reflexivity].
  destruct isProfitable; tock; [|reflexivity].
  destruct (amount =? 0); tock; [reflexivity|].
  destruct (on_executeMint o recipient amount 500000) as [message|tx]; tock; [reflexivity|].
  destruct (on_wait o tx) as [message|receipt]; tock; [reflexivity|].
  destruct (status receipt =? 1); tock; [|reflexivity].
  destruct (find is_TokensMinted (logs receipt)) as [[event|]|]; tock; reflexivity.
Qed.

(** X21. When the two views a tick reads come from the same block, the
    monitor's own profitability test never decides anything: the tick
    submits [executeMint(RECIPIENT, maxMintAmount)] with a gas limit of
    500000 exactly when the status reports mining enabled and [canMintNow]
    and [maxMintAmount] is not zero, and submits nothing otherwise. *)
Theorem X21_tick_on_one_block e w o s recipient st res w1 w2 :
  getMiningStatus e w = Ok (st, w1) ->
  checkProfitability e w = Ok (res, w2) ->
  on_getMiningStatus o = inr st ->
  on_checkProfitability o = inr res ->
  submissions (trace_of o (checkAndMine recipient) s)
    = if autoMiningEnabled (config w) && canMintNow st
         && negb (maxMintAmount (config w) =? 0)
      then [(recipient, maxMintAmount (config w), 500000)]
      else [].
Proof.
  intros Hstatus Hprofit Hst Hres.
  destruct res as [[isProfitable price] amount].
  rewrite (checkAndMine_submissions_exact o s recipient st isProfitable price amount Hst Hres).
  destruct (getMiningStatus_Ok e w st w1 Hstatus) as (_ & Hen & _ & _ & _ & _ & _ & Hcan & _).
  rewrite Hen.
  destruct (autoMiningEnabled (config w)); cbn [andb]; [|reflexivity].
  destruct (canMintNow st); cbn [andb]; [|reflexivity].
  destruct (Hcan eq_refl) as [Hsame _].
  rewrite Hsame in Hprofit. injection Hprofit as <- _ <-. reflexivity.
Qed.

(** Scenario A: both views read at time 2000 on the funded controller. *)
Lemma X21_witness :
  submissions
    (trace_of (mkAnswers (inr (mkStatus true true 500000000000000 300 (1 * ether) 1))
                         (inr (true, 500000000000000, 100 * ether))
                         (fun _ _ _ => inl "nonce too low")
                         (fun _ => inl ""))
              (checkAndMine Scenario.user) (mkStats 0 0 0))
    = if autoMiningEnabled (config Scenario.funded) && true
         && negb (maxMintAmount (config Scenario.funded) =? 0)
      then [(Scenario.user, maxMintAmount (config Scenario.funded), 500000)]
      else [].
Proof.
  refine (X21_tick_on_one_block
            (Scenario.call Scenario.user 2000 gwei MockRig.initial true) Scenario.funded
            (mkAnswers (inr (mkStatus true true 500000000000000 300 (1 * ether) 1))
                       (inr (true, 500000000000000, 100 * ether))
                       (fun _ _ _ => inl "nonce too low")
                       (fun _ => inl ""))
            (mkStats 0 0 0) Scenario.user
            (mkStatus true true 500000000000000 300 (1 * ether) 1)
            (true, 500000000000000, 100 * ether) Scenario.funded Scenario.funded
            _ _ eq_refl eq_refl).
  - vm_compute; reflexivity.
  - reflexivity.
Defined.
